(** * ve-tos-ts-sdk: the TOS4-HMAC-SHA256 request signer

    A shallow embedding of [src/signer.ts] and of the operations of
    [src/client.ts], together with the parts of the JavaScript platform
    the signer runs on (strings of UTF-16 code units, [Date] getters,
    [encodeURIComponent], [TextEncoder], Web Crypto SHA-256 and HMAC,
    the Fetch [Headers] class), followed by the properties of the signer
    stated in the specification and by further properties of the code. *)

From Stdlib Require Import ZArith List Lia Bool.
From stdpp Require Import base option list strings gmap.

Local Open Scope Z_scope.

(* ===================================================================== *)
(** * Part I: definitions                                                 *)
(* ===================================================================== *)

(** ** JavaScript strings

    A JavaScript string is a sequence of UTF-16 code units. *)

Abbreviation jsstring := (list Z).

(** A string literal of the source, all of whose characters are ASCII. *)
Definition lit (s : string) : jsstring :=
  map (fun a => Z.of_N (Ascii.N_of_ascii a)) (String.list_ascii_of_string s).

Definition newline : jsstring := [10].

(** [Array.prototype.join] on an array of strings. *)
Fixpoint join (sep : jsstring) (xs : list jsstring) : jsstring :=
  match xs with
  | [] => []
  | [x] => x
  | x :: rest => x ++ sep ++ join sep rest
  end.

(** [String.prototype.padStart(n, c)] with a one-character filler [c]. *)
Definition padStart (s : jsstring) (n : nat) (c : Z) : jsstring :=
  repeat c (n - length s) ++ s.

(** [String(n)] for an integral Number [n] below 10^21 in magnitude: the
    decimal digits, most significant first, after a minus sign if [n] is
    negative. A number has no more decimal digits than binary ones, which
    bounds the recursion. *)
Fixpoint decimal_digits (fuel : nat) (n : Z) : jsstring :=
  match fuel with
  | O => []
  | S fuel' =>
      (if n <? 10 then [] else decimal_digits fuel' (n / 10)) ++ [48 + n mod 10]
  end.

Definition digit_fuel (n : Z) : nat := S (Z.to_nat (Z.log2 n)).

Definition Number_toString (n : Z) : jsstring :=
  if n <? 0 then 45 :: decimal_digits (digit_fuel (- n)) (- n)
  else decimal_digits (digit_fuel n) n.

(** ** Dates

    A [Date] holds a time value: milliseconds since 1970-01-01T00:00:00Z.
    The UTC getters follow ECMA-262, section "Time Values and Time
    Range" onwards (Day, DayFromYear, YearFromTime, MonthFromTime,
    DateFromTime, HourFromTime, MinFromTime, SecFromTime). An invalid date,
    whose time value is NaN, is outside the model. *)

Module JSDate.

Definition msPerDay : Z := 86400000.

Definition Day (t : Z) : Z := t / msPerDay.

Definition DayFromYear (y : Z) : Z :=
  365 * (y - 1970) + (y - 1969) / 4 - (y - 1901) / 100 + (y - 1601) / 400.

Definition DaysInYear (y : Z) : Z :=
  if negb (y mod 4 =? 0) then 365
  else if negb (y mod 100 =? 0) then 366
  else if negb (y mod 400 =? 0) then 365
  else 366.

(** The largest [y] with [DayFromYear y <= Day t], found from an
    estimate that is off by at most one. *)
Definition YearFromTime (t : Z) : Z :=
  let d := Day t in
  let y := 1970 + d * 400 / 146097 in
  if DayFromYear (y + 1) <=? d then y + 1
  else if DayFromYear y <=? d then y
  else y - 1.

Definition InLeapYear (t : Z) : Z :=
  if DaysInYear (YearFromTime t) =? 366 then 1 else 0.

Definition DayWithinYear (t : Z) : Z :=
  Day t - DayFromYear (YearFromTime t).

(** Day number, within the year, of the first day of month [m]
    (0 = January), for a year with [leap] leap days. *)
Definition MonthStart (leap m : Z) : Z :=
  match m with
  | 0 => 0
  | 1 => 31
  | 2 => 59 + leap
  | 3 => 90 + leap
  | 4 => 120 + leap
  | 5 => 151 + leap
  | 6 => 181 + leap
  | 7 => 212 + leap
  | 8 => 243 + leap
  | 9 => 273 + leap
  | 10 => 304 + leap
  | _ => 334 + leap
  end.

Definition MonthFromTime (t : Z) : Z :=
  let d := DayWithinYear t in
  let leap := InLeapYear t in
  if d <? 31 then 0
  else if d <? 59 + leap then 1
  else if d <? 90 + leap then 2
  else if d <? 120 + leap then 3
  else if d <? 151 + leap then 4
  else if d <? 181 + leap then 5
  else if d <? 212 + leap then 6
  else if d <? 243 + leap then 7
  else if d <? 273 + leap then 8
  else if d <? 304 + leap then 9
  else if d <? 334 + leap then 10
  else 11.

Definition DateFromTime (t : Z) : Z :=
  DayWithinYear t - MonthStart (InLeapYear t) (MonthFromTime t) + 1.

Definition HourFromTime (t : Z) : Z := (t / 3600000) mod 24.
Definition MinFromTime (t : Z) : Z := (t / 60000) mod 60.
Definition SecFromTime (t : Z) : Z := (t / 1000) mod 60.

Definition getUTCFullYear := YearFromTime.
Definition getUTCMonth := MonthFromTime.
Definition getUTCDate := DateFromTime.
Definition getUTCHours := HourFromTime.
Definition getUTCMinutes := MinFromTime.
Definition getUTCSeconds := SecFromTime.

End JSDate.

(** ** Failure

    A thrown exception or a rejected promise is an [Err]; [await] on an
    [Ok] continues with its value. *)

Inductive JSError := TypeError | URIError | DataError.

Inductive result (A : Type) :=
  | Ok (a : A)
  | Err (e : JSError).
Arguments Ok {A} a.
Arguments Err {A} e.

Definition result_bind {A B} (f : A -> result B) (m : result A) : result B :=
  match m with
  | Ok a => f a
  | Err e => Err e
  end.

#[global] Instance result_mbind : MBind result := @result_bind.
#[global] Instance result_mret : MRet result := @Ok.

(** ** Unicode: UTF-16 code points and UTF-8 *)

Definition is_high_surrogate (c : Z) : bool := (0xD800 <=? c) && (c <=? 0xDBFF).
Definition is_low_surrogate (c : Z) : bool := (0xDC00 <=? c) && (c <=? 0xDFFF).

(** The code points of a string; [None] stands for a surrogate code unit
    that is not part of a surrogate pair. *)
Fixpoint code_points (s : jsstring) : list (option Z) :=
  match s with
  | [] => []
  | c :: rest =>
      if is_high_surrogate c then
        match rest with
        | d :: rest' =>
            if is_low_surrogate d
            then Some ((c - 0xD800) * 0x400 + (d - 0xDC00) + 0x10000) :: code_points rest'
            else None :: code_points rest
        | [] => [None]
        end
      else if is_low_surrogate c then None :: code_points rest
      else Some c :: code_points rest
  end.

Definition utf8_encode_point (cp : Z) : list Z :=
  if cp <? 0x80 then [cp]
  else if cp <? 0x800 then
    [Z.lor 0xC0 (Z.shiftr cp 6); Z.lor 0x80 (Z.land cp 0x3F)]
  else if cp <? 0x10000 then
    [Z.lor 0xE0 (Z.shiftr cp 12);
     Z.lor 0x80 (Z.land (Z.shiftr cp 6) 0x3F);
     Z.lor 0x80 (Z.land cp 0x3F)]
  else
    [Z.lor 0xF0 (Z.shiftr cp 18);
     Z.lor 0x80 (Z.land (Z.shiftr cp 12) 0x3F);
     Z.lor 0x80 (Z.land (Z.shiftr cp 6) 0x3F);
     Z.lor 0x80 (Z.land cp 0x3F)].

(** [new TextEncoder().encode(s)]: the UTF-8 bytes of [s], an unpaired
    surrogate being replaced by U+FFFD. *)
Definition TextEncoder_encode (s : jsstring) : list Z :=
  flat_map (fun cp => utf8_encode_point (default 0xFFFD cp)) (code_points s).

(** ** encodeURIComponent and String.prototype.replace *)

Definition is_alnum (c : Z) : bool :=
  ((48 <=? c) && (c <=? 57)) || ((65 <=? c) && (c <=? 90)) || ((97 <=? c) && (c <=? 122)).

Definition char_in (c : Z) (set : string) : bool :=
  existsb (Z.eqb c) (lit set).

(** The characters [encodeURIComponent] leaves alone: uriAlpha, DecimalDigit
    and uriMark of ECMA-262. *)
Definition uriUnescaped (c : Z) : bool :=
  is_alnum c || char_in c "-_.!~*'()".

Definition hex_digit (digits : string) (d : Z) : Z :=
  nth (Z.to_nat d) (lit digits) 48.

(** One octet as a percent sign and two upper-case hexadecimal digits. *)
Definition percent_octet (b : Z) : jsstring :=
  [37; hex_digit "0123456789ABCDEF" (b / 16); hex_digit "0123456789ABCDEF" (b mod 16)].

Definition encode_point (cp : Z) : jsstring :=
  if uriUnescaped cp then [cp] else flat_map percent_octet (utf8_encode_point cp).

Fixpoint encode_points (cps : list (option Z)) : result jsstring :=
  match cps with
  | [] => Ok []
  | None :: _ => Err URIError
  | Some cp :: rest => r ← encode_points rest; Ok (encode_point cp ++ r)
  end.

Definition encodeURIComponent (s : jsstring) : result jsstring :=
  encode_points (code_points s).

Fixpoint is_prefix (p s : jsstring) : bool :=
  match p, s with
  | [], _ => true
  | a :: p', b :: s' => (a =? b) && is_prefix p' s'
  | _ :: _, [] => false
  end.

(** [s.replace(/pat/g, repl)] for a pattern of literal characters and a
    replacement without [$]: the matches are found from left to right and
    do not overlap. [skip] counts the characters of a match still to be
    passed over. *)
Fixpoint replace_from (pat repl : jsstring) (skip : nat) (s : jsstring) : jsstring :=
  match s with
  | [] => []
  | c :: s' =>
      match skip with
      | S k => replace_from pat repl k s'
      | O =>
          if is_prefix pat s
          then repl ++ replace_from pat repl (length pat - 1) s'
          else c :: replace_from pat repl 0 s'
      end
  end.

Definition replace_g (pat repl : string) (s : jsstring) : jsstring :=
  replace_from (lit pat) (lit repl) 0 s.

(** ** signer.ts: formatDate *)

Record DateStrings := { short : jsstring; long : jsstring }.

Definition formatDate (date : Z) : DateStrings :=
  let year := Number_toString (JSDate.getUTCFullYear date) in
  let month := padStart (Number_toString (JSDate.getUTCMonth date + 1)) 2 48 in
  let day := padStart (Number_toString (JSDate.getUTCDate date)) 2 48 in
  let hours := padStart (Number_toString (JSDate.getUTCHours date)) 2 48 in
  let minutes := padStart (Number_toString (JSDate.getUTCMinutes date)) 2 48 in
  let seconds := padStart (Number_toString (JSDate.getUTCSeconds date)) 2 48 in
  {| short := year ++ month ++ day;
     long := year ++ month ++ day ++ lit "T" ++ hours ++ minutes ++ seconds ++ lit "Z" |}.

(** ** signer.ts: uriEncode *)

Definition uriEncode (str : jsstring) (encodeSlash : bool) : result jsstring :=
  result ← encodeURIComponent str;
  let result := replace_g "!" "%21" result in
  let result := replace_g "'" "%27" result in
  let result := replace_g "(" "%28" result in
  let result := replace_g ")" "%29" result in
  let result := replace_g "*" "%2A" result in
  let result := if negb encodeSlash then replace_g "%2F" "/" result else result in
  Ok result.

(** ** Web Crypto: SHA-256 (FIPS 180-4) and HMAC (RFC 2104)

    Octets are integers; a 32-bit word is an integer reduced modulo
    [2^32]. *)

Module SHA256.

Definition wrap (x : Z) : Z := x mod 4294967296.
Definition add32 (x y : Z) : Z := wrap (x + y).
Definition rotr (n x : Z) : Z :=
  Z.lor (Z.shiftr x n) (wrap (Z.shiftl x (32 - n))).
Definition shr (n x : Z) : Z := Z.shiftr x n.
Definition not32 (x : Z) : Z := Z.lxor x 0xFFFFFFFF.

Definition Ch (x y z : Z) : Z := Z.lxor (Z.land x y) (Z.land (not32 x) z).
Definition Maj (x y z : Z) : Z :=
  Z.lxor (Z.lxor (Z.land x y) (Z.land x z)) (Z.land y z).
Definition Sigma0 (x : Z) : Z := Z.lxor (Z.lxor (rotr 2 x) (rotr 13 x)) (rotr 22 x).
Definition Sigma1 (x : Z) : Z := Z.lxor (Z.lxor (rotr 6 x) (rotr 11 x)) (rotr 25 x).
Definition sigma0 (x : Z) : Z := Z.lxor (Z.lxor (rotr 7 x) (rotr 18 x)) (shr 3 x).
Definition sigma1 (x : Z) : Z := Z.lxor (Z.lxor (rotr 17 x) (rotr 19 x)) (shr 10 x).

Definition K : list Z :=
  [0x428A2F98; 0x71374491; 0xB5C0FBCF; 0xE9B5DBA5;
   0x3956C25B; 0x59F111F1; 0x923F82A4; 0xAB1C5ED5;
   0xD807AA98; 0x12835B01; 0x243185BE; 0x550C7DC3;
   0x72BE5D74; 0x80DEB1FE; 0x9BDC06A7; 0xC19BF174;
   0xE49B69C1; 0xEFBE4786; 0x0FC19DC6; 0x240CA1CC;
   0x2DE92C6F; 0x4A7484AA; 0x5CB0A9DC; 0x76F988DA;
   0x983E5152; 0xA831C66D; 0xB00327C8; 0xBF597FC7;
   0xC6E00BF3; 0xD5A79147; 0x06CA6351; 0x14292967;
   0x27B70A85; 0x2E1B2138; 0x4D2C6DFC; 0x53380D13;
   0x650A7354; 0x766A0ABB; 0x81C2C92E; 0x92722C85;
   0xA2BFE8A1; 0xA81A664B; 0xC24B8B70; 0xC76C51A3;
   0xD192E819; 0xD6990624; 0xF40E3585; 0x106AA070;
   0x19A4C116; 0x1E376C08; 0x2748774C; 0x34B0BCB5;
   0x391C0CB3; 0x4ED8AA4A; 0x5B9CCA4F; 0x682E6FF3;
   0x748F82EE; 0x78A5636F; 0x84C87814; 0x8CC70208;
   0x90BEFFFA; 0xA4506CEB; 0xBEF9A3F7; 0xC67178F2].

(** The eight working variables, and the hash value between blocks. *)
Record state := State { sa : Z; sb : Z; sc : Z; sd : Z; se : Z; sf : Z; sg : Z; sh : Z }.

Definition H0 : state :=
  State 0x6A09E667 0xBB67AE85 0x3C6EF372 0xA54FF53A
        0x510E527F 0x9B05688C 0x1F83D9AB 0x5BE0CD19.

(** Padding: a one bit, zero bits up to 448 modulo 512, and the length
    of the message in bits as a 64-bit big-endian integer. *)
Definition be_bytes (n : nat) (x : Z) : list Z :=
  map (fun i => (x / 256 ^ Z.of_nat i) mod 256) (rev (seq 0 n)).

Definition pad (msg : list Z) : list Z :=
  let len := Z.of_nat (length msg) in
  msg ++ [0x80] ++ repeat 0 (Z.to_nat ((55 - len) mod 64)) ++ be_bytes 8 (8 * len).

Fixpoint chunks (fuel : nat) (n : nat) (bs : list Z) : list (list Z) :=
  match fuel with
  | O => []
  | S fuel' =>
      match bs with
      | [] => []
      | _ => take n bs :: chunks fuel' n (drop n bs)
      end
  end.

Definition be_word (bs : list Z) : Z :=
  fold_left (fun acc b => acc * 256 + b) bs 0.

Definition block_words (block : list Z) : list Z :=
  map be_word (chunks 16 4 block).

(** The message schedule, newest word first while it is extended. *)
Fixpoint extend (n : nat) (rev_w : list Z) : list Z :=
  match n with
  | O => rev_w
  | S n' =>
      let w2 := nth 1 rev_w 0 in
      let w7 := nth 6 rev_w 0 in
      let w15 := nth 14 rev_w 0 in
      let w16 := nth 15 rev_w 0 in
      extend n' (add32 (add32 (add32 (sigma1 w2) w7) (sigma0 w15)) w16 :: rev_w)
  end.

Definition schedule (block : list Z) : list Z :=
  rev (extend 48 (rev (block_words block))).

Definition round (s : state) (kw : Z * Z) : state :=
  let '(k, w) := kw in
  let t1 := add32 (add32 (add32 (add32 (sh s) (Sigma1 (se s))) (Ch (se s) (sf s) (sg s))) k) w in
  let t2 := add32 (Sigma0 (sa s)) (Maj (sa s) (sb s) (sc s)) in
  State (add32 t1 t2) (sa s) (sb s) (sc s) (add32 (sd s) t1) (se s) (sf s) (sg s).

Definition compress (h : state) (block : list Z) : state :=
  let s := fold_left round (combine K (schedule block)) h in
  State (add32 (sa h) (sa s)) (add32 (sb h) (sb s)) (add32 (sc h) (sc s))
        (add32 (sd h) (sd s)) (add32 (se h) (se s)) (add32 (sf h) (sf s))
        (add32 (sg h) (sg s)) (add32 (sh h) (sh s)).

Definition digest_bytes (h : state) : list Z :=
  be_bytes 4 (sa h) ++ be_bytes 4 (sb h) ++ be_bytes 4 (sc h) ++ be_bytes 4 (sd h) ++
  be_bytes 4 (se h) ++ be_bytes 4 (sf h) ++ be_bytes 4 (sg h) ++ be_bytes 4 (sh h).

Definition sha256 (msg : list Z) : list Z :=
  let padded := pad msg in
  digest_bytes (fold_left compress (chunks (length padded) 64 padded) H0).

End SHA256.

Module HMAC.

Definition block_size : nat := 64.

Definition hmac_sha256 (key msg : list Z) : list Z :=
  let k0 := if (block_size <? length key)%nat then SHA256.sha256 key else key in
  let k := k0 ++ repeat 0 (block_size - length k0) in
  SHA256.sha256 (map (Z.lxor 0x5c) k ++ SHA256.sha256 (map (Z.lxor 0x36) k ++ msg)).

End HMAC.

(** ** signer.ts: bufferToHex

    [b.toString(16)] for an element [b] of a [Uint8Array], which lies
    between 0 and 255. *)

Definition byte_toString16 (b : Z) : jsstring :=
  if b <? 16 then [hex_digit "0123456789abcdef" b]
  else [hex_digit "0123456789abcdef" (b / 16); hex_digit "0123456789abcdef" (b mod 16)].

Definition bufferToHex (buffer : list Z) : jsstring :=
  join [] (map (fun b => padStart (byte_toString16 b) 2 48) buffer).

(** The characters of lower-case hexadecimal text. *)
Definition is_lower_hex (c : Z) : bool :=
  ((48 <=? c) && (c <=? 57)) || ((97 <=? c) && (c <=? 102)).

(** HTTP whitespace: tab, LF, CR and space. *)
Definition is_http_whitespace (c : Z) : bool :=
  (c =? 9) || (c =? 10) || (c =? 13) || (c =? 32).

(** ** The Fetch [Headers] class

    A header list keeps its entries in insertion order; names are
    compared without regard to ASCII case. [set] takes a ByteString
    (every code unit at most 255), strips leading and trailing HTTP
    whitespace from it, and rejects a name that is not a token or a value
    containing NUL, CR or LF. *)

Definition Headers := list (string * jsstring).

Definition lower_ascii (a : Ascii.ascii) : Ascii.ascii :=
  let n := Ascii.nat_of_ascii a in
  if ((65 <=? n) && (n <=? 90))%nat then Ascii.ascii_of_nat (n + 32) else a.

Fixpoint lower_name (s : string) : string :=
  match s with
  | EmptyString => EmptyString
  | String a s' => String (lower_ascii a) (lower_name s')
  end.

Definition same_name (a b : string) : bool :=
  String.eqb (lower_name a) (lower_name b).

Fixpoint strip_leading (s : jsstring) : jsstring :=
  match s with
  | [] => []
  | c :: s' => if is_http_whitespace c then strip_leading s' else s
  end.

Definition normalize_value (s : jsstring) : jsstring :=
  rev (strip_leading (rev (strip_leading s))).

Definition is_byte_string (s : jsstring) : bool :=
  forallb (fun c => (0 <=? c) && (c <=? 255)) s.

Definition is_header_value (s : jsstring) : bool :=
  forallb (fun c => negb ((c =? 0) || (c =? 10) || (c =? 13))) s.

Definition is_token_char (c : Z) : bool :=
  is_alnum c || char_in c "!#$%&'*+-.^_`|~".

Definition is_header_name (name : string) : bool :=
  match lit name with
  | [] => false
  | cs => forallb is_token_char cs
  end.

(** Replace the value of the first entry called [name], dropping later
    ones; append when there is none. *)
Fixpoint set_entry (name : string) (value : jsstring) (h : Headers) : Headers :=
  match h with
  | [] => [(name, value)]
  | (n, v) :: h' =>
      if same_name n name
      then (n, value) :: filter (fun e => negb (same_name (fst e) name)) h'
      else (n, v) :: set_entry name value h'
  end.

Definition Headers_set (h : Headers) (name : string) (value : jsstring) : result Headers :=
  if negb (is_byte_string value) then Err TypeError
  else
    let value := normalize_value value in
    if negb (is_header_name name && is_header_value value) then Err TypeError
    else Ok (set_entry name value h).

(** [get] combines the values of all entries called [name] with a comma
    and a space; [None] is JavaScript's [null]. *)
Definition Headers_get (h : Headers) (name : string) : option jsstring :=
  match filter (fun e => same_name (fst e) name) h with
  | [] => None
  | es => Some (join (lit ", ") (map snd es))
  end.

(** ** JavaScript values and objects

    The values that reach the signer: [undefined], strings, booleans,
    [Date] objects and array buffers. An object is a finite map from
    property names to values; reading a missing property gives
    [undefined]. *)

Inductive jsval :=
  | JUndefined
  | JString (s : jsstring)
  | JBool (b : bool)
  | JDate (t : Z)
  | JArrayBuffer (bytes : list Z).

Abbreviation jsobject := (gmap string jsval).

Definition prop (o : jsobject) (name : string) : jsval :=
  default JUndefined (o !! name).

(** An object literal [{ n1: v1, n2: v2, ... }]; a later property of the
    same name replaces an earlier one. *)
Definition object_literal (props : list (string * jsval)) : jsobject :=
  fold_left (fun o p => <[fst p := snd p]> o) props ∅.

Definition ToBoolean (v : jsval) : bool :=
  match v with
  | JUndefined => false
  | JString s => negb (Nat.eqb (length s) 0)
  | JBool b => b
  | JDate _ => true
  | JArrayBuffer _ => true
  end.

(** [a || b] *)
Definition js_or (a b : jsval) : jsval := if ToBoolean a then a else b.

(** A destructuring default [{ x = d }]: the default replaces [undefined]
    only. *)
Definition with_default (v d : jsval) : jsval :=
  match v with
  | JUndefined => d
  | _ => v
  end.

Section Signer.

(** The text of [Date.prototype.toString], which depends on the host's
    time zone and naming; it is consulted only when a [Date] is put
    where a string is expected. *)
Variable Date_toString : Z -> jsstring.

Definition ToString (v : jsval) : jsstring :=
  match v with
  | JUndefined => lit "undefined"
  | JString s => s
  | JBool true => lit "true"
  | JBool false => lit "false"
  | JDate t => Date_toString t
  | JArrayBuffer _ => lit "[object ArrayBuffer]"
  end.

(** [array.join(sep)]: [undefined] elements contribute the empty
    string. *)
Definition Array_join (sep : jsstring) (elements : list jsval) : jsstring :=
  join sep (map (fun v => match v with JUndefined => [] | _ => ToString v end) elements).

(** [encoder.encode(data)]: the argument defaults to the empty string. *)
Definition encode_argument (data : jsval) : list Z :=
  match data with
  | JUndefined => []
  | _ => TextEncoder_encode (ToString data)
  end.

(** [crypto.subtle.importKey('raw', keyData, {name: 'HMAC', hash:
    'SHA-256'}, false, ['sign'])]: the key data must be a buffer, and not
    an empty one. *)
Definition importKey_raw_HMAC (keyData : jsval) : result (list Z) :=
  match keyData with
  | JArrayBuffer [] => Err DataError
  | JArrayBuffer bytes => Ok bytes
  | _ => Err TypeError
  end.

(** *** signer.ts: hmacSha256 *)
Definition hmacSha256 (key : jsval) (data : jsval) : result (list Z) :=
  let keyData :=
    match key with
    | JString s => JArrayBuffer (TextEncoder_encode s)
    | _ => key
    end in
  cryptoKey ← importKey_raw_HMAC keyData;
  Ok (HMAC.hmac_sha256 cryptoKey (encode_argument data)).

(** *** signer.ts: signTOSRequest

    [signTOSRequest_locals] runs the body of the function down to the
    Authorization value and returns the values of its local constants;
    [signTOSRequest] goes on to fill the [Headers] it returns. [now] is
    the instant [new Date()] would read. Output on the console ([debug])
    is not modelled. *)

Record SignLocals := {
  l_secretAccessKey : jsval;
  l_contentType : jsval;
  l_dates : DateStrings;
  l_host : jsstring;
  l_uri : jsstring;
  l_payloadHash : jsval;
  l_canonicalHeaders : jsstring;
  l_signedHeaders : jsstring;
  l_canonicalRequest : jsstring;
  l_canonicalRequestHashHex : jsstring;
  l_credentialScope : jsstring;
  l_stringToSign : jsstring;
  l_kDate : list Z;
  l_kRegion : list Z;
  l_kService : list Z;
  l_kSigning : list Z;
  l_signature : list Z;
  l_signatureHex : jsstring;
  l_authorization : jsstring
}.

Definition signTOSRequest_locals (now : Z) (options : jsobject) : result SignLocals :=
  let method := prop options "method" in
  let bucket := prop options "bucket" in
  let key := prop options "key" in
  let region := prop options "region" in
  let accessKeyId := prop options "accessKeyId" in
  let secretAccessKey := prop options "secretAccessKey" in
  let contentType := with_default (prop options "contentType") (JString (lit "application/octet-stream")) in
  let contentSha256 := prop options "contentSha256" in
  let date := with_default (prop options "date") (JDate now) in
  dates ← match date with JDate t => Ok (formatDate t) | _ => Err TypeError end;
  let host := ToString bucket ++ lit "." ++ ToString (prop options "endpoint") in
  encoded ← uriEncode (ToString key) false;
  let uri := lit "/" ++ encoded in
  let payloadHash := js_or contentSha256 (JString (lit "UNSIGNED-PAYLOAD")) in
  let canonicalHeaders :=
    join newline
      [lit "host:" ++ host;
       lit "x-tos-content-sha256:" ++ ToString payloadHash;
       lit "x-tos-date:" ++ long dates] in
  let signedHeaders := lit "host;x-tos-content-sha256;x-tos-date" in
  let canonicalRequest :=
    Array_join newline
      [method;
       JString uri;
       JString (lit "");
       JString canonicalHeaders;
       JString (lit "");
       JString signedHeaders;
       payloadHash] in
  let canonicalRequestHash := SHA256.sha256 (TextEncoder_encode canonicalRequest) in
  let canonicalRequestHashHex := bufferToHex canonicalRequestHash in
  let credentialScope := short dates ++ lit "/" ++ ToString region ++ lit "/tos/request" in
  let stringToSign :=
    join newline
      [lit "TOS4-HMAC-SHA256";
       long dates;
       credentialScope;
       canonicalRequestHashHex] in
  kDate ← hmacSha256 secretAccessKey (JString (short dates));
  kRegion ← hmacSha256 (JArrayBuffer kDate) region;
  kService ← hmacSha256 (JArrayBuffer kRegion) (JString (lit "tos"));
  kSigning ← hmacSha256 (JArrayBuffer kService) (JString (lit "request"));
  signature ← hmacSha256 (JArrayBuffer kSigning) (JString stringToSign);
  let signatureHex := bufferToHex signature in
  let authorization :=
    lit "TOS4-HMAC-SHA256 Credential=" ++ ToString accessKeyId ++ lit "/" ++ credentialScope
    ++ lit ", SignedHeaders=" ++ signedHeaders ++ lit ", Signature=" ++ signatureHex in
  Ok {| l_secretAccessKey := secretAccessKey;
        l_contentType := contentType;
        l_dates := dates;
        l_host := host;
        l_uri := uri;
        l_payloadHash := payloadHash;
        l_canonicalHeaders := canonicalHeaders;
        l_signedHeaders := signedHeaders;
        l_canonicalRequest := canonicalRequest;
        l_canonicalRequestHashHex := canonicalRequestHashHex;
        l_credentialScope := credentialScope;
        l_stringToSign := stringToSign;
        l_kDate := kDate;
        l_kRegion := kRegion;
        l_kService := kService;
        l_kSigning := kSigning;
        l_signature := signature;
        l_signatureHex := signatureHex;
        l_authorization := authorization |}.

Definition signTOSRequest (now : Z) (options : jsobject) : result Headers :=
  locals ← signTOSRequest_locals now options;
  let headers : Headers := [] in
  headers ← Headers_set headers "Host" (l_host locals);
  headers ← Headers_set headers "X-Tos-Date" (long (l_dates locals));
  headers ← Headers_set headers "X-Tos-Content-Sha256" (ToString (l_payloadHash locals));
  headers ← Headers_set headers "Authorization" (l_authorization locals);
  headers ← Headers_set headers "Content-Type" (ToString (l_contentType locals));
  Ok headers.

End Signer.

(** ** client.ts: the signing calls of TOSClient

    Each operation of the client builds an options object and awaits
    [signTOSRequest] on it before it sends the request. [this_options] is
    the object given to the constructor; [upload] has computed the content
    type and the hexadecimal SHA-256 of the body before it signs. The
    operations as a whole, with the request they send after the signing,
    come further below. *)

Inductive ClientCall :=
  | CallUpload (contentType : jsval) (contentSha256 : jsstring)
  | CallDownload
  | CallDelete
  | CallExists.

Definition sign_options (this_options : jsobject) (call : ClientCall) (bucket key : jsval) : jsobject :=
  match call with
  | CallUpload contentType contentSha256 =>
      object_literal
        [("method", JString (lit "PUT"));
         ("bucket", bucket);
         ("key", key);
         ("region", prop this_options "region");
         ("endpoint", prop this_options "endpoint");
         ("accessKeyId", prop this_options "accessKeyId");
         ("accessKeySecret", prop this_options "accessKeySecret");
         ("contentType", contentType);
         ("contentSha256", JString contentSha256);
         ("debug", prop this_options "debug")]
  | CallDownload =>
      object_literal
        [("method", JString (lit "GET"));
         ("bucket", bucket);
         ("key", key);
         ("region", prop this_options "region");
         ("endpoint", prop this_options "endpoint");
         ("accessKeyId", prop this_options "accessKeyId");
         ("accessKeySecret", prop this_options "accessKeySecret");
         ("contentSha256", JString (lit "UNSIGNED-PAYLOAD"));
         ("debug", prop this_options "debug")]
  | CallDelete =>
      object_literal
        [("method", JString (lit "DELETE"));
         ("bucket", bucket);
         ("key", key);
         ("region", prop this_options "region");
         ("endpoint", prop this_options "endpoint");
         ("accessKeyId", prop this_options "accessKeyId");
         ("accessKeySecret", prop this_options "accessKeySecret");
         ("contentSha256", JString (lit "UNSIGNED-PAYLOAD"));
         ("debug", prop this_options "debug")]
  | CallExists =>
      object_literal
        [("method", JString (lit "HEAD"));
         ("bucket", bucket);
         ("key", key);
         ("region", prop this_options "region");
         ("endpoint", prop this_options "endpoint");
         ("accessKeyId", prop this_options "accessKeyId");
         ("accessKeySecret", prop this_options "accessKeySecret");
         ("contentSha256", JString (lit "UNSIGNED-PAYLOAD"));
         ("debug", prop this_options "debug")]
  end.

(** ** The requests of the specification

    A [SignRequest] is an options object seen through the interface
    [TOSSignOptions]: the required fields are strings, the optional ones
    may be absent. [carries o r] says that the object [o] holds the fields
    of [r] under the property names the interface declares. *)

Record SignRequest := {
  r_method : jsstring;
  r_bucket : jsstring;
  r_key : jsstring;
  r_region : jsstring;
  r_endpoint : jsstring;
  r_accessKeyId : jsstring;
  r_secretAccessKey : jsstring;
  r_contentType : option jsstring;
  r_contentSha256 : option jsstring;
  r_date : option Z
}.

Definition optional_string (v : option jsstring) : jsval :=
  match v with
  | Some s => JString s
  | None => JUndefined
  end.

Definition optional_date (v : option Z) : jsval :=
  match v with
  | Some t => JDate t
  | None => JUndefined
  end.

Definition carries (o : jsobject) (r : SignRequest) : Prop :=
  prop o "method" = JString (r_method r) /\
  prop o "bucket" = JString (r_bucket r) /\
  prop o "key" = JString (r_key r) /\
  prop o "region" = JString (r_region r) /\
  prop o "endpoint" = JString (r_endpoint r) /\
  prop o "accessKeyId" = JString (r_accessKeyId r) /\
  prop o "secretAccessKey" = JString (r_secretAccessKey r) /\
  prop o "contentType" = optional_string (r_contentType r) /\
  prop o "contentSha256" = optional_string (r_contentSha256 r) /\
  prop o "date" = optional_date (r_date r).

(** The options object a caller writes for the request [r]. *)
Definition options_of (r : SignRequest) : jsobject :=
  object_literal
    [("method", JString (r_method r));
     ("bucket", JString (r_bucket r));
     ("key", JString (r_key r));
     ("region", JString (r_region r));
     ("endpoint", JString (r_endpoint r));
     ("accessKeyId", JString (r_accessKeyId r));
     ("secretAccessKey", JString (r_secretAccessKey r));
     ("contentType", optional_string (r_contentType r));
     ("contentSha256", optional_string (r_contentSha256 r));
     ("date", optional_date (r_date r))].

(** The signing instant: the supplied date, or else the current time. *)
Definition instant (now : Z) (r : SignRequest) : Z := default now (r_date r).

(** The payload hash of a request: the supplied one unless it is absent
    or empty. *)
Definition payload_hash (r : SignRequest) : jsstring :=
  match r_contentSha256 r with
  | Some (c :: s) => c :: s
  | _ => lit "UNSIGNED-PAYLOAD"
  end.

Definition content_type (r : SignRequest) : jsstring :=
  default (lit "application/octet-stream") (r_contentType r).

(** Well-formed input. A request can be signed when its key is
    well-formed UTF-16, or else [encodeURIComponent] throws, and its secret
    is not empty, or else [importKey] rejects it. It is well-formed when,
    moreover, the strings that end up in header values are header values as
    [Headers.set] takes them: octets other than NUL, CR and LF, without
    whitespace at the two ends of a value, which [set] would strip. *)
Definition is_some {A} (x : option A) : bool :=
  match x with Some _ => true | None => false end.

Definition key_encodable (r : SignRequest) : bool :=
  forallb is_some (code_points (r_key r)).

Definition secret_present (r : SignRequest) : bool :=
  negb (Nat.eqb (length (r_secretAccessKey r)) 0).

Definition header_text (s : jsstring) : bool :=
  is_byte_string s && is_header_value s.

Definition no_leading_whitespace (s : jsstring) : bool :=
  match s with
  | [] => true
  | c :: _ => negb (is_http_whitespace c)
  end.

Definition no_trailing_whitespace (s : jsstring) : bool :=
  no_leading_whitespace (rev s).

Definition header_field (s : jsstring) : bool :=
  header_text s && no_leading_whitespace s && no_trailing_whitespace s.

Definition headers_acceptable (r : SignRequest) : bool :=
  header_text (r_bucket r) && no_leading_whitespace (r_bucket r)
  && header_text (r_endpoint r) && no_trailing_whitespace (r_endpoint r)
  && header_text (r_region r)
  && header_text (r_accessKeyId r)
  && header_field (content_type r)
  && header_field (payload_hash r).

Definition signable (r : SignRequest) : bool :=
  key_encodable r && secret_present r.

Definition well_formed (r : SignRequest) : bool :=
  signable r && headers_acceptable r.

(** ** The canonical URI in the words of the specification

    Every code point of the key is percent-encoded as its UTF-8 octets,
    except the letters, the digits, [-], [_], [.], [~] and the path
    separator [/]. *)

Definition stays_literal (cp : Z) : bool :=
  is_alnum cp || char_in cp "-_.~/".

Definition canonical_point (cp : Z) : jsstring :=
  if stays_literal cp then [cp] else flat_map percent_octet (utf8_encode_point cp).

Fixpoint canonical_points (cps : list (option Z)) : result jsstring :=
  match cps with
  | [] => Ok []
  | None :: _ => Err URIError
  | Some cp :: rest => r ← canonical_points rest; Ok (canonical_point cp ++ r)
  end.

Definition canonical_uri (key : jsstring) : result jsstring :=
  encoded ← canonical_points (code_points key);
  Ok (lit "/" ++ encoded).

(** ** Auxiliary notions for the proofs *)

(** Characters that are octets and not whitespace or controls below the
    space; text made of them is a header value as it stands. *)
Definition is_plain (c : Z) : bool :=
  (33 <=? c) && (c <=? 255).

Definition is_upper_hex (c : Z) : bool :=
  ((48 <=? c) && (c <=? 57)) || ((65 <=? c) && (c <=? 70)).

(** The five replacements [uriEncode] makes before it turns to the
    slash. *)
Definition escape_marks (s : jsstring) : jsstring :=
  replace_g "*" "%2A" (replace_g ")" "%29" (replace_g "(" "%28"
    (replace_g "'" "%27" (replace_g "!" "%21" s)))).

(** The decimal digits of [n] in a field of [width] characters. *)
Definition decimal (width : nat) (n : Z) : jsstring :=
  map (fun i => 48 + (n / 10 ^ Z.of_nat i) mod 10) (rev (seq 0 width)).

Definition is_digit (c : Z) : bool := (48 <=? c) && (c <=? 57).

(** The number a string of decimal digits denotes. *)
Definition digits_value (s : jsstring) : Z :=
  fold_left (fun v c => 10 * v + (c - 48)) s 0.

(** ** Requests used as examples

    The options of the signer's test suite, with the secret under the
    name the signer reads and the date of its last test; the key of its
    special-character test; and options shaped like those the [list]
    operation of the client passes, which hold the query string of the
    request under [queryString]. *)

Definition test_request : SignRequest :=
  {| r_method := lit "PUT";
     r_bucket := lit "test-bucket";
     r_key := lit "test-file.txt";
     r_region := lit "cn-beijing";
     r_endpoint := lit "tos-cn-beijing.volces.com";
     r_accessKeyId := lit "test-access-key";
     r_secretAccessKey := lit "test-secret-key";
     r_contentType := Some (lit "text/plain");
     r_contentSha256 := Some (lit "test-sha256");
     r_date := Some 1735689600000 |}.

Definition set_key (r : SignRequest) (key : jsstring) : SignRequest :=
  {| r_method := r_method r;
     r_bucket := r_bucket r;
     r_key := key;
     r_region := r_region r;
     r_endpoint := r_endpoint r;
     r_accessKeyId := r_accessKeyId r;
     r_secretAccessKey := r_secretAccessKey r;
     r_contentType := r_contentType r;
     r_contentSha256 := r_contentSha256 r;
     r_date := r_date r |}.


Definition set_date (r : SignRequest) (date : option Z) : SignRequest :=
  {| r_method := r_method r;
     r_bucket := r_bucket r;
     r_key := r_key r;
     r_region := r_region r;
     r_endpoint := r_endpoint r;
     r_accessKeyId := r_accessKeyId r;
     r_secretAccessKey := r_secretAccessKey r;
     r_contentType := r_contentType r;
     r_contentSha256 := r_contentSha256 r;
     r_date := date |}.

(** ["path/to/文件 (1).txt"] *)
Definition special_key : jsstring :=
  lit "path/to/" ++ [25991; 20214] ++ lit " (1).txt".

Definition list_request : SignRequest :=
  {| r_method := lit "GET";
     r_bucket := lit "test-bucket";
     r_key := lit "";
     r_region := lit "cn-beijing";
     r_endpoint := lit "tos-cn-beijing.volces.com";
     r_accessKeyId := lit "test-access-key";
     r_secretAccessKey := lit "test-secret-key";
     r_contentType := None;
     r_contentSha256 := Some (lit "UNSIGNED-PAYLOAD");
     r_date := Some 1735689600000 |}.

Definition list_call_options : jsobject :=
  <["queryString" := JString (lit "list-type=2&prefix=photos")]> (options_of list_request).

(** ** Notions for the further properties *)

(** The unreserved characters of RFC 3986: letters, digits, [-], [_],
    [.] and [~]. *)
Definition is_unreserved (c : Z) : bool := is_alnum c || char_in c "-_.~".

(** What [uriEncode] makes of one code point: the code point itself if it
    is unreserved, or the path separator when slashes are not to be
    encoded, and else the octets of its UTF-8 form, percent-encoded. *)
Definition encoded_point (encodeSlash : bool) (cp : Z) : jsstring :=
  if is_unreserved cp || (negb encodeSlash && (cp =? 47)) then [cp]
  else flat_map percent_octet (utf8_encode_point cp).

(** Text made of unreserved characters, of [/] if [slash] allows it, and
    of percent signs followed by two upper-case hexadecimal digits. *)
Fixpoint percent_encoded (slash : bool) (s : jsstring) : bool :=
  match s with
  | [] => true
  | c :: s' =>
      if c =? 37 then
        match s' with
        | h :: l :: s'' => is_upper_hex h && is_upper_hex l && percent_encoded slash s''
        | _ => false
        end
      else (is_unreserved c || (slash && (c =? 47))) && percent_encoded slash s'
  end.

(** [String.prototype.isWellFormed]: no surrogate stands alone. *)
Definition isWellFormed (s : jsstring) : bool := forallb is_some (code_points s).

(** The code units of a string are 16-bit. *)
Definition is_utf16 (s : jsstring) : bool :=
  forallb (fun c => (0 <=? c) && (c <=? 65535)) s.

(** The contents of a buffer: octets. *)
Definition is_octets (bs : list Z) : bool :=
  forallb (fun b => (0 <=? b) && (b <=? 255)) bs.

Definition set_secretAccessKey (r : SignRequest) (secret : jsstring) : SignRequest :=
  {| r_method := r_method r;
     r_bucket := r_bucket r;
     r_key := r_key r;
     r_region := r_region r;
     r_endpoint := r_endpoint r;
     r_accessKeyId := r_accessKeyId r;
     r_secretAccessKey := secret;
     r_contentType := r_contentType r;
     r_contentSha256 := r_contentSha256 r;
     r_date := r_date r |}.

Definition set_contentType (r : SignRequest) (contentType : option jsstring) : SignRequest :=
  {| r_method := r_method r;
     r_bucket := r_bucket r;
     r_key := r_key r;
     r_region := r_region r;
     r_endpoint := r_endpoint r;
     r_accessKeyId := r_accessKeyId r;
     r_secretAccessKey := r_secretAccessKey r;
     r_contentType := contentType;
     r_contentSha256 := r_contentSha256 r;
     r_date := r_date r |}.

(** The properties of its argument that [signTOSRequest] reads for its
    result; [debug] only decides what is written to the console. *)
Definition signer_properties : list string :=
  ["method"; "bucket"; "key"; "region"; "endpoint"; "accessKeyId"; "secretAccessKey";
   "contentType"; "contentSha256"; "date"]%string.

(** A value that [Headers.set] takes: a ByteString without NUL, CR or LF
    once the whitespace at its two ends is stripped. *)
Definition settable (v : jsstring) : bool :=
  is_byte_string v && is_header_value (normalize_value v).

(** The header values of a request are all taken by [Headers.set]. The
    access key identifier and the region stand inside the Authorization
    value, where nothing is stripped. *)
Definition headers_settable (r : SignRequest) : bool :=
  settable (r_bucket r ++ lit "." ++ r_endpoint r)
  && settable (payload_hash r)
  && header_text (r_accessKeyId r) && header_text (r_region r)
  && settable (content_type r).

(** An options object that holds a key and a secret and nothing else. *)
Definition bare_options (key secret : jsstring) : jsobject :=
  object_literal [("key", JString key); ("secretAccessKey", JString secret)].

(** ** client.ts: the operations of TOSClient, with the network

    What an operation throws is an exception of the platform or an
    [Error] that the client makes with a message. *)

Inductive Thrown :=
  | Native (e : JSError)
  | Error (message : jsstring).

Inductive outcome (A : Type) :=
  | Returns (a : A)
  | Throws (e : Thrown).
Arguments Returns {A} a.
Arguments Throws {A} e.

(** The data given to [upload]: a [Blob] with its bytes and its type, an
    [ArrayBuffer], a [Uint8Array] that views [byteLength] bytes from
    [byteOffset] on of a buffer, which is an [ArrayBuffer] or a
    [SharedArrayBuffer], or a value of another kind. *)
Inductive UploadData :=
  | Blob (bytes : list Z) (type : jsstring)
  | ArrayBuffer (bytes : list Z)
  | Uint8Array (buffer : list Z) (shared : bool) (byteOffset byteLength : nat)
  | OtherData.

(** [buffer.slice(begin, end)] for indices that are not negative. *)
Definition slice (buffer : list Z) (begin end_ : nat) : list Z :=
  take (end_ - begin) (drop begin buffer).

(** The local variables of [upload] when it comes to sign. *)
Record UploadLocals := {
  u_arrayBuffer : list Z;
  u_contentType : jsval;
  u_contentSha256 : jsstring
}.

(** The request given to [fetch], and the parts of its response that the
    client reads: [ok], [status], and what [text()] and [blob()] resolve
    to. *)
Record FetchRequest := {
  f_url : jsstring;
  f_method : jsstring;
  f_body : option (list Z);
  f_headers : Headers
}.

Record FetchResponse := {
  p_ok : bool;
  p_status : Z;
  p_text : jsstring;
  p_blob : list Z
}.

Section Client.

Variable Date_toString : Z -> jsstring.

(** The network: what [fetch] resolves to, or rejects with. *)
Variable fetch : FetchRequest -> result FetchResponse.

(** The clock at the time of signing. *)
Variable now : Z.

(** [this.options], the object given to the constructor. *)
Variable this_options : jsobject.

(** [upload], down to the content hash. A buffer that is not an
    [ArrayBuffer] is replaced by a new one of the same length, which holds
    zeros. *)
Definition upload_locals (data : UploadData) (options : jsobject) : outcome UploadLocals :=
  let converted :=
    match data with
    | Blob bytes type =>
        Returns (bytes,
                 js_or (js_or (prop options "contentType") (JString type))
                       (JString (lit "application/octet-stream")))
    | ArrayBuffer bytes =>
        Returns (bytes,
                 js_or (prop options "contentType") (JString (lit "application/octet-stream")))
    | Uint8Array data_buffer shared byteOffset byteLength =>
        let buffer := slice data_buffer byteOffset (byteOffset + byteLength) in
        Returns (if shared then repeat 0 (length buffer) else buffer,
                 js_or (prop options "contentType") (JString (lit "application/octet-stream")))
    | OtherData =>
        Throws (Error (lit "Unsupported data type. Must be Blob, ArrayBuffer, or Uint8Array"))
    end in
  match converted with
  | Throws e => Throws e
  | Returns (arrayBuffer, contentType) =>
      let hashBuffer := SHA256.sha256 arrayBuffer in
      let hashArray := hashBuffer in
      let contentSha256 :=
        join [] (map (fun b => padStart (byte_toString16 b) 2 48) hashArray) in
      Returns {| u_arrayBuffer := arrayBuffer;
                 u_contentType := contentType;
                 u_contentSha256 := contentSha256 |}
  end.

Definition object_url (bucket key : jsval) : jsstring :=
  lit "https://" ++ ToString Date_toString bucket ++ lit "."
  ++ ToString Date_toString (prop this_options "endpoint") ++ lit "/"
  ++ ToString Date_toString key.

(** [new Error(`${what}${response.status} ${errorText}`)] *)
Definition failure (what : string) (response : FetchResponse) : Thrown :=
  Error (lit what ++ Number_toString (p_status response) ++ lit " " ++ p_text response).

(** Each operation gives its outcome and the requests it has sent. *)
Definition upload (bucket key : jsval) (data : UploadData) (options : jsobject)
  : outcome unit * list FetchRequest :=
  match upload_locals data options with
  | Throws e => (Throws e, [])
  | Returns u =>
      match signTOSRequest Date_toString now
              (sign_options this_options (CallUpload (u_contentType u) (u_contentSha256 u))
                 bucket key) with
      | Err e => (Throws (Native e), [])
      | Ok headers =>
          let request :=
            {| f_url := object_url bucket key;
               f_method := lit "PUT";
               f_body := Some (u_arrayBuffer u);
               f_headers := headers |} in
          match fetch request with
          | Err e => (Throws (Native e), [request])
          | Ok response =>
              if negb (p_ok response)
              then (Throws (failure "Failed to upload to TOS: " response), [request])
              else (Returns tt, [request])
          end
      end
  end.

Definition download (bucket key : jsval) : outcome (list Z) * list FetchRequest :=
  match signTOSRequest Date_toString now (sign_options this_options CallDownload bucket key) with
  | Err e => (Throws (Native e), [])
  | Ok headers =>
      let request :=
        {| f_url := object_url bucket key;
           f_method := lit "GET";
           f_body := None;
           f_headers := headers |} in
      match fetch request with
      | Err e => (Throws (Native e), [request])
      | Ok response =>
          if negb (p_ok response)
          then (Throws (failure "Failed to download from TOS: " response), [request])
          else (Returns (p_blob response), [request])
      end
  end.

Definition delete_ (bucket key : jsval) : outcome unit * list FetchRequest :=
  match signTOSRequest Date_toString now (sign_options this_options CallDelete bucket key) with
  | Err e => (Throws (Native e), [])
  | Ok headers =>
      let request :=
        {| f_url := object_url bucket key;
           f_method := lit "DELETE";
           f_body := None;
           f_headers := headers |} in
      match fetch request with
      | Err e => (Throws (Native e), [request])
      | Ok response =>
          if negb (p_ok response)
          then (Throws (failure "Failed to delete from TOS: " response), [request])
          else (Returns tt, [request])
      end
  end.

(** [exists] catches whatever is thrown and answers [false]. *)
Definition exists_ (bucket key : jsval) : outcome bool * list FetchRequest :=
  match signTOSRequest Date_toString now (sign_options this_options CallExists bucket key) with
  | Err _ => (Returns false, [])
  | Ok headers =>
      let request :=
        {| f_url := object_url bucket key;
           f_method := lit "HEAD";
           f_body := None;
           f_headers := headers |} in
      match fetch request with
      | Err _ => (Returns false, [request])
      | Ok response => (Returns (p_ok response), [request])
      end
  end.

End Client.

(** ** The later client: the query string of [list]

    The options of [list] as [ListObjectsOptions] declares them; [maxKeys]
    is a count, an integral number. *)

Record ListObjectsOptions := {
  o_prefix : option jsstring;
  o_delimiter : option jsstring;
  o_maxKeys : option Z;
  o_continuationToken : option jsstring;
  o_startAfter : option jsstring
}.

(** The order in which [Array.prototype.sort] puts strings when it is
    given no comparison: code unit by code unit. *)
Fixpoint compare_strings (a b : jsstring) : comparison :=
  match a, b with
  | [], [] => Eq
  | [], _ :: _ => Lt
  | _ :: _, [] => Gt
  | x :: a', y :: b' =>
      match x ?= y with
      | Eq => compare_strings a' b'
      | c => c
      end
  end.

Fixpoint insert_sorted (x : jsstring) (xs : list jsstring) : list jsstring :=
  match xs with
  | [] => [x]
  | y :: ys =>
      match compare_strings x y with
      | Gt => y :: insert_sorted x ys
      | _ => x :: xs
      end
  end.

Definition Array_sort (xs : list jsstring) : list jsstring :=
  fold_right insert_sorted [] xs.

(** An object with string values, its properties in the order in which
    they were added, with [params[name] = value] and [params[name]]. *)
Definition Params := list (jsstring * jsstring).

Definition same_string (a b : jsstring) : bool :=
  match compare_strings a b with
  | Eq => true
  | _ => false
  end.

Fixpoint set_param (name value : jsstring) (params : Params) : Params :=
  match params with
  | [] => [(name, value)]
  | (n, v) :: rest =>
      if same_string n name then (n, value) :: rest else (n, v) :: set_param name value rest
  end.

Fixpoint get_param (params : Params) (name : jsstring) : jsstring :=
  match params with
  | [] => lit "undefined"
  | (n, v) :: rest => if same_string n name then v else get_param rest name
  end.

(** [xs.map(f)] for an [f] that may throw. *)
Fixpoint map_result {A B} (f : A -> result B) (xs : list A) : result (list B) :=
  match xs with
  | [] => Ok []
  | x :: rest => y ← f x; ys ← map_result f rest; Ok (y :: ys)
  end.

Definition list_queryParams (options : ListObjectsOptions) : Params :=
  let queryParams : Params := [(lit "list-type", lit "2")] in
  let queryParams :=
    match o_prefix options with
    | Some (c :: s) => set_param (lit "prefix") (c :: s) queryParams
    | _ => queryParams
    end in
  let queryParams :=
    match o_delimiter options with
    | Some (c :: s) => set_param (lit "delimiter") (c :: s) queryParams
    | _ => queryParams
    end in
  let queryParams :=
    match o_maxKeys options with
    | Some n => if n =? 0 then queryParams
                else set_param (lit "max-keys") (Number_toString n) queryParams
    | None => queryParams
    end in
  let queryParams :=
    match o_continuationToken options with
    | Some (c :: s) => set_param (lit "continuation-token") (c :: s) queryParams
    | _ => queryParams
    end in
  match o_startAfter options with
  | Some (c :: s) => set_param (lit "start-after") (c :: s) queryParams
  | _ => queryParams
  end.

Definition list_queryString (options : ListObjectsOptions) : result jsstring :=
  let queryParams := list_queryParams options in
  let sortedKeys := Array_sort (map fst queryParams) in
  entries ← map_result
              (fun key =>
                 name ← encodeURIComponent key;
                 value ← encodeURIComponent (get_param queryParams key);
                 Ok (name ++ lit "=" ++ value))
              sortedKeys;
  Ok (join (lit "&") entries).





(* ===================================================================== *)
(** * Part II: properties                                                  *)
(* ===================================================================== *)

(** ** The platform model on known values

    SHA-256 on the examples of FIPS 180-4, HMAC-SHA256 on test cases 1, 2
    and 6 of RFC 4231, and dates across leap years and before 1970. *)

Example sha256_abc :
  bufferToHex (SHA256.sha256 (TextEncoder_encode (lit "abc")))
  = lit "ba7816bf8f01cfea414140de5dae2223b00361a396177a9cb410ff61f20015ad".
Proof. vm_compute. reflexivity. Qed.

Example sha256_empty :
  bufferToHex (SHA256.sha256 [])
  = lit "e3b0c44298fc1c149afbf4c8996fb92427ae41e4649b934ca495991b7852b855".
Proof. vm_compute. reflexivity. Qed.

Example sha256_two_blocks :
  bufferToHex (SHA256.sha256 (TextEncoder_encode
    (lit "abcdbcdecdefdefgefghfghighijhijkijkljklmklmnlmnomnopnopq")))
  = lit "248d6a61d20638b8e5c026930c3e6039a33ce45964ff2167f6ecedd419db06c1".
Proof. vm_compute. reflexivity. Qed.

Example hmac_rfc4231_case1 :
  bufferToHex (HMAC.hmac_sha256 (repeat 0x0b 20) (TextEncoder_encode (lit "Hi There")))
  = lit "b0344c61d8db38535ca8afceaf0bf12b881dc200c9833da726e9376c2e32cff7".
Proof. vm_compute. reflexivity. Qed.

Example hmac_rfc4231_case2 :
  bufferToHex (HMAC.hmac_sha256 (TextEncoder_encode (lit "Jefe"))
                 (TextEncoder_encode (lit "what do ya want for nothing?")))
  = lit "5bdcc146bf60754e6a042426089575c75a003f089d2739839dec58b964ec3843".
Proof. vm_compute. reflexivity. Qed.

Example hmac_rfc4231_case6 :
  bufferToHex (HMAC.hmac_sha256 (repeat 0xaa 131)
                 (TextEncoder_encode (lit "Test Using Larger Than Block-Size Key - Hash Key First")))
  = lit "60e431591ee0b67f0d8a26aacbf5b77f8e0bc6213728c5140546040f0ee37f54".
Proof. vm_compute. reflexivity. Qed.

Example date_leap_day_2024 :
  long (formatDate 1709251199000) = lit "20240229T235959Z".
Proof. vm_compute. reflexivity. Qed.

Example date_leap_day_2000 :
  long (formatDate 951782400000) = lit "20000229T000000Z".
Proof. vm_compute. reflexivity. Qed.

Example date_no_leap_day_2100 :
  long (formatDate 4107542399000) = lit "21000228T235959Z".
Proof. vm_compute. reflexivity. Qed.

Example date_before_epoch :
  long (formatDate (-1)) = lit "19691231T235959Z".
Proof. vm_compute. reflexivity. Qed.

Example date_year_999 :
  short (formatDate (-30610224000001)) = lit "9991231".
Proof. vm_compute. reflexivity. Qed.

Example uriEncode_special_key :
  uriEncode special_key false = Ok (lit "path/to/%E6%96%87%E4%BB%B6%20%281%29.txt").
Proof. vm_compute. reflexivity. Qed.

Example uriEncode_percent_and_pair :
  uriEncode (lit "a%2F!*b" ++ [0xD83D; 0xDE00]) false = Ok (lit "a%252F%21%2Ab%F0%9F%98%80").
Proof. vm_compute. reflexivity. Qed.

Example uriEncode_slash_encoded :
  uriEncode (lit "a/b") true = Ok (lit "a%2Fb").
Proof. vm_compute. reflexivity. Qed.

Example uriEncode_lone_surrogate :
  uriEncode (lit "a" ++ [0xD83D]) false = Err URIError.
Proof. vm_compute. reflexivity. Qed.

(** ** The digest and its hexadecimal form *)

Lemma be_bytes_length n x : length (SHA256.be_bytes n x) = n.
Proof.
  unfold SHA256.be_bytes. rewrite length_map, length_rev. apply length_seq.
Qed.

Lemma digest_bytes_length h : length (SHA256.digest_bytes h) = 32%nat.
Proof.
  unfold SHA256.digest_bytes. rewrite !length_app, !be_bytes_length. reflexivity.
Qed.

Lemma sha256_length msg : length (SHA256.sha256 msg) = 32%nat.
Proof. unfold SHA256.sha256. apply digest_bytes_length. Qed.

Lemma hmac_sha256_length key msg : length (HMAC.hmac_sha256 key msg) = 32%nat.
Proof. unfold HMAC.hmac_sha256. apply sha256_length. Qed.

Lemma hex_digit_lower d : is_lower_hex (hex_digit "0123456789abcdef" d) = true.
Proof.
  unfold hex_digit. generalize (Z.to_nat d). intros n.
  do 17 (destruct n as [|n]; [reflexivity|]). reflexivity.
Qed.

Lemma hex_pair_length b : length (padStart (byte_toString16 b) 2 48) = 2%nat.
Proof. unfold padStart, byte_toString16. destruct (b <? 16); reflexivity. Qed.

Lemma hex_pair_lower b : forallb is_lower_hex (padStart (byte_toString16 b) 2 48) = true.
Proof.
  unfold padStart, byte_toString16. destruct (b <? 16); simpl;
    rewrite ?hex_digit_lower; reflexivity.
Qed.

Lemma join_nil_concat (xs : list jsstring) : join [] xs = concat xs.
Proof.
  induction xs as [|x xs IH]; [reflexivity|].
  destruct xs as [|y ys]; simpl in *.
  - now rewrite app_nil_r.
  - now rewrite IH.
Qed.

Lemma bufferToHex_cons b bs :
  bufferToHex (b :: bs) = padStart (byte_toString16 b) 2 48 ++ bufferToHex bs.
Proof. unfold bufferToHex. rewrite !join_nil_concat. reflexivity. Qed.

Lemma bufferToHex_length bs : length (bufferToHex bs) = (2 * length bs)%nat.
Proof.
  induction bs as [|b bs IH]; [reflexivity|].
  rewrite bufferToHex_cons, length_app, hex_pair_length, IH. simpl. lia.
Qed.

Lemma bufferToHex_lower bs : forallb is_lower_hex (bufferToHex bs) = true.
Proof.
  induction bs as [|b bs IH]; [reflexivity|].
  rewrite bufferToHex_cons, forallb_app, hex_pair_lower, IH. reflexivity.
Qed.

(** ** Header values *)

Lemma strip_leading_id s : no_leading_whitespace s = true -> strip_leading s = s.
Proof.
  destruct s as [|c s]; [reflexivity|]. simpl.
  destruct (is_http_whitespace c); [discriminate|reflexivity].
Qed.

Lemma normalize_value_id s :
  no_leading_whitespace s = true -> no_trailing_whitespace s = true ->
  normalize_value s = s.
Proof.
  unfold normalize_value, no_trailing_whitespace. intros Hl Ht.
  rewrite (strip_leading_id s Hl), (strip_leading_id _ Ht). apply rev_involutive.
Qed.

Lemma Headers_set_ok h name v :
  is_header_name name = true -> header_field v = true ->
  Headers_set h name v = Ok (set_entry name v h).
Proof.
  unfold header_field, header_text, Headers_set. intros Hn Hv.
  apply andb_prop in Hv as [Hv Ht]. apply andb_prop in Hv as [Hv Hl].
  apply andb_prop in Hv as [Hb Hv].
  rewrite Hb, (normalize_value_id v Hl Ht), Hn, Hv. reflexivity.
Qed.

Lemma header_text_app a b : header_text (a ++ b) = header_text a && header_text b.
Proof.
  unfold header_text, is_byte_string, is_header_value. rewrite !forallb_app.
  repeat match goal with |- context [forallb ?f ?l] => destruct (forallb f l) end; reflexivity.
Qed.

Lemma no_leading_app a b :
  no_leading_whitespace a = true -> (a = [] -> no_leading_whitespace b = true) ->
  no_leading_whitespace (a ++ b) = true.
Proof. destruct a; simpl; auto. Qed.

Lemma no_trailing_app a b :
  no_trailing_whitespace b = true -> (b = [] -> no_trailing_whitespace a = true) ->
  no_trailing_whitespace (a ++ b) = true.
Proof.
  unfold no_trailing_whitespace. intros Hb Ha. rewrite rev_app_distr.
  apply no_leading_app; [assumption|].
  intros E. apply Ha. destruct b as [|x b]; [reflexivity|].
  simpl in E. destruct (rev b); discriminate.
Qed.

Lemma plain_header_text s : forallb is_plain s = true -> header_text s = true.
Proof.
  unfold header_text, is_byte_string, is_header_value. intros H.
  apply andb_true_intro. split; apply forallb_forall; intros c Hc;
    (eapply forallb_forall in H; [|exact Hc]); unfold is_plain in H; lia.
Qed.

Lemma plain_no_leading s : forallb is_plain s = true -> no_leading_whitespace s = true.
Proof.
  destruct s as [|c s]; [reflexivity|]. simpl. intros H.
  apply andb_prop in H as [H _]. unfold is_plain in H. unfold is_http_whitespace. lia.
Qed.

Lemma plain_no_trailing s : forallb is_plain s = true -> no_trailing_whitespace s = true.
Proof.
  intros H. unfold no_trailing_whitespace. apply plain_no_leading.
  apply forallb_forall. intros c Hc. apply in_rev in Hc.
  eapply forallb_forall in H; eauto.
Qed.

Lemma lower_hex_plain s : forallb is_lower_hex s = true -> forallb is_plain s = true.
Proof.
  intros H. apply forallb_forall. intros c Hc.
  eapply forallb_forall in H; [|exact Hc]. unfold is_lower_hex in H. unfold is_plain. lia.
Qed.

(** ** Calendar arithmetic *)

Ltac div_lia := Z.div_mod_to_equations; lia.

Lemma mod_4_100 y : y mod 4 = (y mod 100) mod 4.
Proof. symmetry. apply Z.mod_mod_divide. exists 25. reflexivity. Qed.

Lemma mod_100_400 y : y mod 100 = (y mod 400) mod 100.
Proof. symmetry. apply Z.mod_mod_divide. exists 4. reflexivity. Qed.

Lemma DayFromYear_step y : JSDate.DayFromYear (y + 1) = JSDate.DayFromYear y + JSDate.DaysInYear y.
Proof.
  unfold JSDate.DayFromYear, JSDate.DaysInYear.
  pose proof (mod_4_100 y). pose proof (mod_100_400 y).
  destruct (Z.eqb_spec (y mod 4) 0), (Z.eqb_spec (y mod 100) 0), (Z.eqb_spec (y mod 400) 0); simpl; div_lia.
Qed.

Lemma YearFromTime_spec t :
  JSDate.DayFromYear (JSDate.YearFromTime t) <= JSDate.Day t < JSDate.DayFromYear (JSDate.YearFromTime t + 1).
Proof.
  unfold JSDate.YearFromTime. generalize (JSDate.Day t). intros d. cbv zeta.
  destruct (Z.leb_spec (JSDate.DayFromYear (1970 + d * 400 / 146097 + 1)) d).
  - split; [assumption|]. unfold JSDate.DayFromYear in *. div_lia.
  - destruct (Z.leb_spec (JSDate.DayFromYear (1970 + d * 400 / 146097)) d).
    + split; assumption.
    + split.
      * unfold JSDate.DayFromYear in *. div_lia.
      * replace (1970 + d * 400 / 146097 - 1 + 1) with (1970 + d * 400 / 146097) by lia. assumption.
Qed.

Lemma DayWithinYear_range t : 0 <= JSDate.DayWithinYear t < JSDate.DaysInYear (JSDate.YearFromTime t).
Proof.
  unfold JSDate.DayWithinYear. pose proof (YearFromTime_spec t) as H.
  rewrite DayFromYear_step in H. lia.
Qed.

(** ** The characters of dates; keys of the HMAC *)

Lemma decimal_digits_are_digits fuel n : forallb is_digit (decimal_digits fuel n) = true.
Proof.
  revert n. induction fuel as [|fuel IH]; intros n; [reflexivity|].
  cbn [decimal_digits]. rewrite forallb_app. cbn [forallb].
  assert (is_digit (48 + n mod 10) = true) as -> by (unfold is_digit; div_lia).
  destruct (n <? 10); [reflexivity|]. rewrite IH. reflexivity.
Qed.

Lemma digits_plain s : forallb is_digit s = true -> forallb is_plain s = true.
Proof.
  intros H. apply forallb_forall. intros c Hc.
  eapply forallb_forall in H; [|exact Hc]. unfold is_digit in H. unfold is_plain. lia.
Qed.

Lemma Number_toString_plain n : forallb is_plain (Number_toString n) = true.
Proof.
  unfold Number_toString. destruct (n <? 0); cbn [forallb];
    rewrite digits_plain by apply decimal_digits_are_digits; reflexivity.
Qed.

Lemma padStart_zero_plain s n : forallb is_plain s = true -> forallb is_plain (padStart s n 48) = true.
Proof.
  intros H. unfold padStart. rewrite forallb_app, H, andb_true_r.
  induction (n - length s)%nat; simpl; auto.
Qed.

Lemma formatDate_long_plain t : forallb is_plain (long (formatDate t)) = true.
Proof.
  unfold formatDate. cbn [long]. rewrite !forallb_app.
  rewrite !padStart_zero_plain by apply Number_toString_plain.
  rewrite Number_toString_plain. reflexivity.
Qed.

Lemma formatDate_short_plain t : forallb is_plain (short (formatDate t)) = true.
Proof.
  unfold formatDate. cbn [short]. rewrite !forallb_app.
  rewrite !padStart_zero_plain by apply Number_toString_plain.
  rewrite Number_toString_plain. reflexivity.
Qed.

Lemma code_points_nonempty c s : code_points (c :: s) <> [].
Proof.
  simpl. destruct (is_high_surrogate c).
  - destruct s as [|d s]; [discriminate|]. destruct (is_low_surrogate d); discriminate.
  - destruct (is_low_surrogate c); discriminate.
Qed.

Lemma utf8_encode_point_nonempty cp : utf8_encode_point cp <> [].
Proof.
  unfold utf8_encode_point.
  destruct (cp <? 128); [discriminate|]. destruct (cp <? 2048); [discriminate|].
  destruct (cp <? 65536); discriminate.
Qed.

Lemma TextEncoder_encode_nonempty s : s <> [] -> TextEncoder_encode s <> [].
Proof.
  destruct s as [|c s]; [congruence|]. intros _. unfold TextEncoder_encode.
  pose proof (code_points_nonempty c s) as H.
  destruct (code_points (c :: s)) as [|p ps]; [congruence|]. simpl.
  pose proof (utf8_encode_point_nonempty (default 65533 p)) as H'.
  destruct (utf8_encode_point (default 65533 p)); [congruence|discriminate].
Qed.

Section HmacWrapper.
Variable Date_toString : Z -> jsstring.

Lemma hmacSha256_undefined data : hmacSha256 Date_toString JUndefined data = Err TypeError.
Proof. reflexivity. Qed.

Lemma hmacSha256_string s data :
  s <> [] ->
  hmacSha256 Date_toString (JString s) data
  = Ok (HMAC.hmac_sha256 (TextEncoder_encode s) (encode_argument Date_toString data)).
Proof.
  intros H. apply TextEncoder_encode_nonempty in H. unfold hmacSha256, importKey_raw_HMAC.
  destruct (TextEncoder_encode s); [congruence|reflexivity].
Qed.

Lemma hmacSha256_buffer bytes data :
  length bytes = 32%nat ->
  hmacSha256 Date_toString (JArrayBuffer bytes) data
  = Ok (HMAC.hmac_sha256 bytes (encode_argument Date_toString data)).
Proof.
  intros H. unfold hmacSha256, importKey_raw_HMAC.
  destruct bytes; [discriminate|reflexivity].
Qed.
End HmacWrapper.

(** ** uriEncode, character by character *)

Lemma bind_ok {A B} (a : A) (f : A -> result B) : (x ← Ok a; f x) = f a.
Proof. reflexivity. Qed.

Lemma uriEncode_unfold key :
  uriEncode key false =
  (e ← encodeURIComponent key; Ok (replace_g "%2F" "/" (escape_marks e))).
Proof. reflexivity. Qed.

Lemma replace_char c repl s :
  replace_from [c] repl 0 s = flat_map (fun x => if c =? x then repl else [x]) s.
Proof.
  induction s as [|x s IH]; [reflexivity|].
  cbn [replace_from is_prefix length Nat.sub flat_map]. rewrite IH.
  destruct (c =? x); reflexivity.
Qed.

Lemma replace_char_app c repl a b :
  replace_from [c] repl 0 (a ++ b) = replace_from [c] repl 0 a ++ replace_from [c] repl 0 b.
Proof. rewrite !replace_char. apply flat_map_app. Qed.

Lemma escape_marks_app a b : escape_marks (a ++ b) = escape_marks a ++ escape_marks b.
Proof.
  unfold escape_marks, replace_g. cbn [lit map String.list_ascii_of_string].
  rewrite !replace_char_app. reflexivity.
Qed.

Lemma escape_marks_other c :
  char_in c "!'()*" = false -> escape_marks [c] = [c].
Proof.
  unfold char_in. cbn. intros H.
  unfold escape_marks, replace_g. cbn [lit map String.list_ascii_of_string].
  rewrite !replace_char. cbn.
  repeat match goal with
  | |- context [?a =? c] => rewrite (Z.eqb_sym a c); destruct (Z.eqb_spec c a); [subst; discriminate|]; cbn
  end. reflexivity.
Qed.

Lemma hex_digit_upper d : is_upper_hex (hex_digit "0123456789ABCDEF" d) = true.
Proof.
  unfold hex_digit. generalize (Z.to_nat d). intros n.
  do 17 (destruct n as [|n]; [reflexivity|]). reflexivity.
Qed.

Lemma upper_hex_not_mark c : is_upper_hex c = true -> char_in c "!'()*%" = false.
Proof.
  unfold is_upper_hex, char_in. cbn. intros H.
  repeat match goal with |- context [c =? ?a] => destruct (Z.eqb_spec c a); [lia|] end.
  reflexivity.
Qed.

Lemma char_in_weaken c : char_in c "!'()*%" = false -> char_in c "!'()*" = false /\ c <> 37.
Proof.
  unfold char_in. cbn. intros H.
  repeat match goal with H : context [c =? ?a] |- _ => destruct (Z.eqb_spec c a); [discriminate|] end.
  split; [reflexivity|assumption].
Qed.

Lemma escape_marks_octet b : escape_marks (percent_octet b) = percent_octet b.
Proof.
  unfold percent_octet.
  change [37; ?h; ?l] with ([37] ++ [h] ++ [l]).
  rewrite !escape_marks_app.
  rewrite (escape_marks_other 37) by reflexivity.
  rewrite !escape_marks_other; [reflexivity| |];
    apply char_in_weaken, upper_hex_not_mark, hex_digit_upper.
Qed.

Lemma escape_marks_octets bs :
  escape_marks (flat_map percent_octet bs) = flat_map percent_octet bs.
Proof.
  induction bs as [|b bs IH]; [reflexivity|].
  cbn [flat_map]. rewrite escape_marks_app, escape_marks_octet, IH. reflexivity.
Qed.

(** The last replacement, on a percent sign and two hexadecimal digits. *)
Lemma unescape_slash_octet b x :
  replace_g "%2F" "/" (percent_octet b ++ x) =
  (if (hex_digit "0123456789ABCDEF" (b / 16) =? 50) && (hex_digit "0123456789ABCDEF" (b mod 16) =? 70)
   then [47] else percent_octet b) ++ replace_g "%2F" "/" x.
Proof.
  unfold replace_g, percent_octet.
  change (lit "%2F") with [37; 50; 70]. change (lit "/") with [47].
  set (h := hex_digit _ (b / 16)). set (l := hex_digit _ (b mod 16)).
  assert (Hh : h <> 37).
  { pose proof (hex_digit_upper (b / 16)) as H.
    apply upper_hex_not_mark, char_in_weaken in H. tauto. }
  assert (Hl : l <> 37).
  { pose proof (hex_digit_upper (b mod 16)) as H.
    apply upper_hex_not_mark, char_in_weaken in H. tauto. }
  cbn [app replace_from is_prefix length Nat.sub].
  rewrite Z.eqb_refl, (Z.eqb_sym 50 h), (Z.eqb_sym 70 l), andb_true_r. cbn [andb].
  destruct (Z.eqb_spec 37 h); [congruence|].
  destruct (Z.eqb_spec 37 l); [congruence|].
  destruct (h =? 50); cbn [andb]; [destruct (l =? 70)|]; reflexivity.
Qed.

Lemma unescape_slash_other c x :
  c <> 37 -> replace_g "%2F" "/" (c :: x) = c :: replace_g "%2F" "/" x.
Proof.
  intros H. unfold replace_g.
  change (lit "%2F") with [37; 50; 70].
  cbn [replace_from is_prefix].
  destruct (Z.eqb_spec 37 c); [congruence|]. reflexivity.
Qed.

Lemma hex_digit_upper_at d c :
  hex_digit "0123456789ABCDEF" d = c -> c <> 48 ->
  nth (Z.to_nat d) (lit "0123456789ABCDEF") 0 = c /\ (Z.to_nat d < 16)%nat.
Proof.
  unfold hex_digit. generalize (Z.to_nat d). intros m Hm Hc.
  do 16 (destruct m as [|m]; [split; [exact Hm|lia]|]).
  exfalso. apply Hc. rewrite <- Hm. destruct m; reflexivity.
Qed.

Lemma octet_is_slash b :
  (hex_digit "0123456789ABCDEF" (b / 16) =? 50) && (hex_digit "0123456789ABCDEF" (b mod 16) =? 70) = true ->
  b = 47.
Proof.
  intros H. apply andb_prop in H as [H1 H2].
  apply Z.eqb_eq in H1, H2.
  apply hex_digit_upper_at in H1 as [H1 L1]; [|lia].
  apply hex_digit_upper_at in H2 as [H2 L2]; [|lia].
  assert (E1 : Z.to_nat (b / 16) = 2%nat).
  { revert H1 L1. generalize (Z.to_nat (b / 16)). intros m.
    do 16 (destruct m as [|m]; [vm_compute; intros; first [reflexivity|discriminate]|]). lia. }
  assert (E2 : Z.to_nat (b mod 16) = 15%nat).
  { revert H2 L2. generalize (Z.to_nat (b mod 16)). intros m.
    do 16 (destruct m as [|m]; [vm_compute; intros; first [reflexivity|discriminate]|]). lia. }
  assert (b / 16 = 2) by lia. assert (b mod 16 = 15) by lia.
  Z.div_mod_to_equations. lia.
Qed.

Lemma lor_high_bit k x : Z.testbit k 7 = true -> Z.lor k x <> 47.
Proof.
  intros Hk E. assert (H : Z.testbit (Z.lor k x) 7 = true).
  { rewrite Z.lor_spec, Hk. reflexivity. }
  rewrite E in H. discriminate.
Qed.

Lemma utf8_octet_slash cp b : In b (utf8_encode_point cp) -> b = 47 -> cp = 47.
Proof.
  unfold utf8_encode_point. intros Hin Hb.
  destruct (cp <? 128).
  - destruct Hin as [<-|[]]. assumption.
  - exfalso. revert Hb.
    destruct (cp <? 2048); [|destruct (cp <? 65536)]; cbn [In] in Hin;
      repeat (destruct Hin as [<-|Hin]; [apply lor_high_bit; reflexivity|]);
      destruct Hin.
Qed.

Lemma unescape_slash_octets bs x :
  ~ In 47 bs ->
  replace_g "%2F" "/" (flat_map percent_octet bs ++ x)
  = flat_map percent_octet bs ++ replace_g "%2F" "/" x.
Proof.
  induction bs as [|b bs IH]; intros Hn; [reflexivity|].
  cbn [flat_map]. rewrite <- !app_assoc, unescape_slash_octet, IH.
  - destruct (_ && _) eqn:E; [|reflexivity].
    apply octet_is_slash in E. subst b. exfalso. apply Hn. now left.
  - intros H. apply Hn. now right.
Qed.

Lemma marks_cases cp :
  char_in cp "!'()*" = true -> cp = 33 \/ cp = 39 \/ cp = 40 \/ cp = 41 \/ cp = 42.
Proof.
  unfold char_in. change (lit "!'()*") with [33; 39; 40; 41; 42].
  cbn [existsb]. lia.
Qed.

Lemma unreserved_cases cp :
  uriUnescaped cp = true -> char_in cp "!'()*" = false ->
  stays_literal cp = true /\ cp <> 37.
Proof.
  unfold uriUnescaped, stays_literal, is_alnum, char_in.
  change (lit "!'()*") with [33; 39; 40; 41; 42].
  change (lit "-_.!~*'()") with [45; 95; 46; 33; 126; 42; 39; 40; 41].
  change (lit "-_.~/") with [45; 95; 46; 126; 47].
  cbn [existsb]. lia.
Qed.

Lemma reserved_cases cp :
  uriUnescaped cp = false -> cp <> 47 -> stays_literal cp = false.
Proof.
  unfold uriUnescaped, stays_literal, is_alnum, char_in.
  change (lit "-_.!~*'()") with [45; 95; 46; 33; 126; 42; 39; 40; 41].
  change (lit "-_.~/") with [45; 95; 46; 126; 47].
  cbn [existsb]. lia.
Qed.

Lemma canonical_point_step cp x :
  replace_g "%2F" "/" (escape_marks (encode_point cp) ++ x)
  = canonical_point cp ++ replace_g "%2F" "/" x.
Proof.
  unfold encode_point. destruct (uriUnescaped cp) eqn:Eu.
  - destruct (char_in cp "!'()*") eqn:Em.
    + apply marks_cases in Em.
      destruct Em as [-> | [-> | [-> | [-> | ->]]]];
        match goal with |- context [escape_marks [?c]] =>
          change (escape_marks [c]) with (percent_octet c);
          change (canonical_point c) with (percent_octet c) end;
        rewrite unescape_slash_octet; reflexivity.
    + destruct (unreserved_cases cp Eu Em) as [Hs Hp].
      rewrite (escape_marks_other cp Em). unfold canonical_point. rewrite Hs.
      cbn [app]. apply unescape_slash_other. assumption.
  - rewrite escape_marks_octets. destruct (Z.eq_dec cp 47) as [-> | Hne].
    + reflexivity.
    + unfold canonical_point. rewrite (reserved_cases cp Eu Hne).
      apply unescape_slash_octets. intros Hin. apply Hne.
      eapply utf8_octet_slash; eauto.
Qed.

Lemma encode_points_canonical cps :
  (e ← encode_points cps; Ok (replace_g "%2F" "/" (escape_marks e))) = canonical_points cps.
Proof.
  induction cps as [|[cp|] cps IH]; [reflexivity| |reflexivity].
  cbn [encode_points canonical_points]. rewrite <- IH.
  destruct (encode_points cps) as [r|e]; [|reflexivity].
  change (Ok (replace_g "%2F" "/" (escape_marks (encode_point cp ++ r)))
          = Ok (canonical_point cp ++ replace_g "%2F" "/" (escape_marks r))).
  f_equal. rewrite escape_marks_app. apply canonical_point_step.
Qed.

Lemma uriEncode_canonical key :
  uriEncode key false = canonical_points (code_points key).
Proof. rewrite uriEncode_unfold. apply encode_points_canonical. Qed.

Lemma canonical_points_ok cps :
  forallb is_some cps = true ->
  canonical_points cps = Ok (flat_map (fun cp => canonical_point (default 0 cp)) cps).
Proof.
  induction cps as [|[cp|] cps IH]; cbn [forallb is_some andb]; intros H;
    [reflexivity| |discriminate].
  cbn [canonical_points flat_map]. rewrite (IH H). reflexivity.
Qed.

(** ** Requests and their option objects *)

Lemma carries_options_of r : carries (options_of r) r.
Proof. repeat split; vm_compute; reflexivity. Qed.

Lemma sign_options_secret this_options call bucket key :
  sign_options this_options call bucket key !! "accessKeySecret"
    = Some (prop this_options "accessKeySecret") /\
  sign_options this_options call bucket key !! "secretAccessKey" = None.
Proof.
  destruct call; split; unfold sign_options, object_literal; cbn [fold_left fst snd];
    simplify_map_eq; reflexivity.
Qed.

(** ** Running the signer on a well-formed request *)

Lemma with_default_string v d :
  with_default (optional_string v) (JString d) = JString (default d v).
Proof. destruct v; reflexivity. Qed.

Lemma with_default_date v now :
  with_default (optional_date v) (JDate now) = JDate (default now v).
Proof. destruct v; reflexivity. Qed.

Lemma js_or_payload r :
  js_or (optional_string (r_contentSha256 r)) (JString (lit "UNSIGNED-PAYLOAD"))
  = JString (payload_hash r).
Proof.
  unfold payload_hash. destruct (r_contentSha256 r) as [[|c s]|]; reflexivity.
Qed.

Lemma signable_inv r :
  signable r = true ->
  forallb is_some (code_points (r_key r)) = true /\ r_secretAccessKey r <> [].
Proof.
  unfold signable, key_encodable, secret_present. intros H.
  apply andb_prop in H as [Hk Hs]. split; [assumption|].
  destruct (r_secretAccessKey r); [discriminate|congruence].
Qed.

Lemma well_formed_inv r :
  well_formed r = true ->
  signable r = true /\
  header_text (r_bucket r) = true /\ no_leading_whitespace (r_bucket r) = true /\
  header_text (r_endpoint r) = true /\ no_trailing_whitespace (r_endpoint r) = true /\
  header_text (r_region r) = true /\
  header_text (r_accessKeyId r) = true /\
  header_field (content_type r) = true /\
  header_field (payload_hash r) = true.
Proof.
  unfold well_formed, headers_acceptable. intros H.
  apply andb_prop in H as [Hs Hh].
  do 7 (apply andb_prop in Hh as [Hh ?]).
  repeat split; assumption.
Qed.

Lemma well_formed_signable r : well_formed r = true -> signable r = true.
Proof. intros H. apply well_formed_inv in H. tauto. Qed.

Lemma header_field_intro s :
  header_text s = true -> no_leading_whitespace s = true -> no_trailing_whitespace s = true ->
  header_field s = true.
Proof. unfold header_field. intros -> -> ->. reflexivity. Qed.

Lemma plain_header_field s : forallb is_plain s = true -> header_field s = true.
Proof.
  intros H. apply header_field_intro;
    [apply plain_header_text | apply plain_no_leading | apply plain_no_trailing]; assumption.
Qed.

Lemma host_header_field b e :
  header_text b = true -> no_leading_whitespace b = true ->
  header_text e = true -> no_trailing_whitespace e = true ->
  header_field (b ++ lit "." ++ e) = true.
Proof.
  intros Hb Hbl He Het. apply header_field_intro.
  - rewrite !header_text_app, Hb, He. reflexivity.
  - apply no_leading_app; [assumption|reflexivity].
  - apply no_trailing_app.
    + apply no_trailing_app; [assumption|reflexivity].
    + intros E. destruct e; discriminate.
Qed.

Lemma authorization_header_field a scope_date region sig :
  header_text a = true -> forallb is_plain scope_date = true -> header_text region = true ->
  forallb is_lower_hex sig = true -> sig <> [] ->
  header_field (lit "TOS4-HMAC-SHA256 Credential=" ++ a ++ lit "/"
                ++ (scope_date ++ lit "/" ++ region ++ lit "/tos/request")
                ++ lit ", SignedHeaders=" ++ lit "host;x-tos-content-sha256;x-tos-date"
                ++ lit ", Signature=" ++ sig) = true.
Proof.
  intros Ha Hd Hr Hs Hne.
  pose proof (lower_hex_plain _ Hs) as Hp.
  apply header_field_intro.
  - rewrite !header_text_app, Ha, Hr, (plain_header_text _ Hd), (plain_header_text _ Hp).
    reflexivity.
  - reflexivity.
  - rewrite !app_assoc. apply no_trailing_app; [|congruence].
    apply plain_no_trailing. assumption.
Qed.

Lemma set_entry_five h1 h2 h3 h4 h5 :
  set_entry "Content-Type" h5
    (set_entry "Authorization" h4
       (set_entry "X-Tos-Content-Sha256" h3
          (set_entry "X-Tos-Date" h2 (set_entry "Host" h1 []))))
  = [("Host", h1); ("X-Tos-Date", h2); ("X-Tos-Content-Sha256", h3);
     ("Authorization", h4); ("Content-Type", h5)].
Proof. reflexivity. Qed.

Section SignerRuns.
Variable Date_toString : Z -> jsstring.

Opaque HMAC.hmac_sha256 SHA256.sha256 bufferToHex TextEncoder_encode formatDate
       uriEncode Headers_set hmacSha256.

Lemma signTOSRequest_locals_run now o r :
  carries o r -> signable r = true ->
  exists l encoded,
    signTOSRequest_locals Date_toString now o = Ok l /\
    uriEncode (r_key r) false = Ok encoded /\
    l_secretAccessKey l = JString (r_secretAccessKey r) /\
    l_dates l = formatDate (instant now r) /\
    l_host l = r_bucket r ++ lit "." ++ r_endpoint r /\
    l_uri l = lit "/" ++ encoded /\
    l_payloadHash l = JString (payload_hash r) /\
    l_canonicalHeaders l =
      join newline [lit "host:" ++ l_host l;
                    lit "x-tos-content-sha256:" ++ payload_hash r;
                    lit "x-tos-date:" ++ long (l_dates l)] /\
    l_signedHeaders l = lit "host;x-tos-content-sha256;x-tos-date" /\
    l_canonicalRequest l =
      join newline [r_method r; l_uri l; []; l_canonicalHeaders l; [];
                    l_signedHeaders l; payload_hash r] /\
    l_canonicalRequestHashHex l =
      bufferToHex (SHA256.sha256 (TextEncoder_encode (l_canonicalRequest l))) /\
    l_credentialScope l = short (l_dates l) ++ lit "/" ++ r_region r ++ lit "/tos/request" /\
    l_stringToSign l =
      join newline [lit "TOS4-HMAC-SHA256"; long (l_dates l); l_credentialScope l;
                    l_canonicalRequestHashHex l] /\
    l_kDate l = HMAC.hmac_sha256 (TextEncoder_encode (r_secretAccessKey r))
                                 (TextEncoder_encode (short (l_dates l))) /\
    l_kRegion l = HMAC.hmac_sha256 (l_kDate l) (TextEncoder_encode (r_region r)) /\
    l_kService l = HMAC.hmac_sha256 (l_kRegion l) (TextEncoder_encode (lit "tos")) /\
    l_kSigning l = HMAC.hmac_sha256 (l_kService l) (TextEncoder_encode (lit "request")) /\
    l_signature l = HMAC.hmac_sha256 (l_kSigning l) (TextEncoder_encode (l_stringToSign l)) /\
    l_signatureHex l = bufferToHex (l_signature l) /\
    l_authorization l =
      lit "TOS4-HMAC-SHA256 Credential=" ++ r_accessKeyId r ++ lit "/" ++ l_credentialScope l
      ++ lit ", SignedHeaders=" ++ l_signedHeaders l ++ lit ", Signature=" ++ l_signatureHex l /\
    l_contentType l = JString (content_type r).
Proof.
  intros (Hm & Hb & Hk & Hr & He & Ha & Hs & Hct & Hsha & Hd) Hwf.
  apply signable_inv in Hwf as (Wkey & Wsec).
  pose proof (uriEncode_canonical (r_key r)) as Huri.
  rewrite (canonical_points_ok _ Wkey) in Huri.
  unfold signTOSRequest_locals.
  rewrite Hm, Hb, Hk, Hr, He, Ha, Hs, Hct, Hsha, Hd.
  rewrite with_default_string, with_default_date, js_or_payload.
  unfold Array_join. cbn [ToString map]. rewrite Huri.
  rewrite !bind_ok; cbv beta.
  rewrite (hmacSha256_string _ _ _ Wsec); rewrite !bind_ok; cbv beta.
  do 4 (rewrite hmacSha256_buffer by apply hmac_sha256_length; rewrite !bind_ok; cbv beta).
  cbn [encode_argument ToString].
  eexists. eexists. split; [reflexivity|].
  cbn [l_secretAccessKey l_contentType l_dates l_host l_uri l_payloadHash l_canonicalHeaders
       l_signedHeaders l_canonicalRequest l_canonicalRequestHashHex l_credentialScope
       l_stringToSign l_kDate l_kRegion l_kService l_kSigning l_signature
       l_signatureHex l_authorization].
  repeat split.
Qed.

(** With header values that [Headers.set] takes as they are, the five
    calls of [set] succeed and leave five entries. *)
Lemma signTOSRequest_run now o r :
  carries o r -> well_formed r = true ->
  exists l,
    signTOSRequest_locals Date_toString now o = Ok l /\
    signTOSRequest Date_toString now o =
      Ok [("Host", r_bucket r ++ lit "." ++ r_endpoint r);
          ("X-Tos-Date", long (formatDate (instant now r)));
          ("X-Tos-Content-Sha256", payload_hash r);
          ("Authorization", l_authorization l);
          ("Content-Type", content_type r)].
Proof.
  intros Hc Hwf.
  apply well_formed_inv in Hwf as (Hs & Wb & Wbl & We & Wet & Wr & Wa & Wct & Wph).
  destruct (signTOSRequest_locals_run now o r Hc Hs)
    as (l & encoded & Hl & _ & _ & Hdates & Hhost & _ & Hph & _ & Hsh & _ & _ & Hscope & _
        & _ & _ & _ & _ & Hsig & Hhex & Hauth & Hct).
  exists l. split; [assumption|].
  unfold signTOSRequest. rewrite Hl, bind_ok; cbv beta zeta.
  rewrite Hhost, Hdates in *. rewrite Hph, Hct. cbn [ToString].
  rewrite (Headers_set_ok _ "Host") by (first [reflexivity | now apply host_header_field]).
  rewrite !bind_ok; cbv beta.
  rewrite (Headers_set_ok _ "X-Tos-Date")
    by (first [reflexivity | apply plain_header_field, formatDate_long_plain]).
  rewrite !bind_ok; cbv beta.
  rewrite (Headers_set_ok _ "X-Tos-Content-Sha256") by (first [reflexivity | assumption]).
  rewrite !bind_ok; cbv beta.
  rewrite (Headers_set_ok _ "Authorization").
  2: reflexivity.
  2: { rewrite Hauth, Hscope, Hsh, Hhex, Hsig.
       apply authorization_header_field; try assumption.
       - apply formatDate_short_plain.
       - apply bufferToHex_lower.
       - intros E. apply (f_equal length) in E.
         rewrite bufferToHex_length, hmac_sha256_length in E. discriminate. }
  rewrite !bind_ok; cbv beta.
  rewrite (Headers_set_ok _ "Content-Type") by (first [reflexivity | assumption]).
  rewrite !bind_ok; cbv beta.
  rewrite set_entry_five. reflexivity.
Qed.
End SignerRuns.

(** ** Fixed-width decimal fields *)

Lemma decimal_4 n :
  decimal 4 n = [48 + (n / 1000) mod 10; 48 + (n / 100) mod 10; 48 + (n / 10) mod 10; 48 + n mod 10].
Proof.
  unfold decimal. cbn [seq rev app map].
  change (10 ^ Z.of_nat 3) with 1000. change (10 ^ Z.of_nat 2) with 100.
  change (10 ^ Z.of_nat 1) with 10. change (10 ^ Z.of_nat 0) with 1.
  rewrite Z.div_1_r. reflexivity.
Qed.

Lemma decimal_2 n : decimal 2 n = [48 + (n / 10) mod 10; 48 + n mod 10].
Proof.
  unfold decimal. cbn [seq rev app map].
  change (10 ^ Z.of_nat 1) with 10. change (10 ^ Z.of_nat 0) with 1.
  rewrite Z.div_1_r. reflexivity.
Qed.

Lemma Number_toString_year y :
  1000 <= y <= 9999 -> Number_toString y = decimal 4 y.
Proof.
  intros H. unfold Number_toString, digit_fuel.
  destruct (Z.ltb_spec y 0); [lia|].
  assert (Hlog : 9 <= Z.log2 y) by (change 9 with (Z.log2 1000); apply Z.log2_le_mono; lia).
  destruct (Z.to_nat (Z.log2 y)) as [|[|[|k]]] eqn:E; try lia.
  cbn [decimal_digits].
  destruct (Z.ltb_spec y 10); [lia|].
  destruct (Z.ltb_spec (y / 10) 10); [div_lia|].
  destruct (Z.ltb_spec (y / 10 / 10) 10); [div_lia|].
  destruct (Z.ltb_spec (y / 10 / 10 / 10) 10); [|div_lia].
  rewrite decimal_4, !Z.div_div by lia. reflexivity.
Qed.

Lemma padStart_two_digits n :
  0 <= n <= 99 -> padStart (Number_toString n) 2 48 = decimal 2 n.
Proof.
  intros H. unfold Number_toString, digit_fuel, padStart. rewrite decimal_2.
  destruct (Z.ltb_spec n 0); [lia|].
  cbn [decimal_digits]. destruct (Z.ltb_spec n 10).
  - cbn. f_equal. div_lia.
  - assert (Hlog : 3 <= Z.log2 n) by (change 3 with (Z.log2 10); apply Z.log2_le_mono; lia).
    destruct (Z.to_nat (Z.log2 n)) as [|k] eqn:E; [lia|].
    cbn [decimal_digits]. destruct (Z.ltb_spec (n / 10) 10); [|div_lia].
    reflexivity.
Qed.

Lemma DaysInYear_cases y : JSDate.DaysInYear y = 365 \/ JSDate.DaysInYear y = 366.
Proof.
  unfold JSDate.DaysInYear.
  destruct (negb _); [auto|]. destruct (negb _); [auto|]. destruct (negb _); auto.
Qed.

Lemma InLeapYear_cases t :
  (JSDate.InLeapYear t = 0 /\ JSDate.DaysInYear (JSDate.YearFromTime t) = 365) \/
  (JSDate.InLeapYear t = 1 /\ JSDate.DaysInYear (JSDate.YearFromTime t) = 366).
Proof.
  unfold JSDate.InLeapYear.
  destruct (DaysInYear_cases (JSDate.YearFromTime t)) as [E|E]; rewrite E; auto.
Qed.

Lemma MonthFromTime_range t : 0 <= JSDate.MonthFromTime t <= 11.
Proof.
  unfold JSDate.MonthFromTime.
  repeat match goal with |- context [if ?c then _ else _] => destruct c end; lia.
Qed.

Lemma DateFromTime_range t : 1 <= JSDate.DateFromTime t <= 31.
Proof.
  unfold JSDate.DateFromTime, JSDate.MonthFromTime.
  pose proof (DayWithinYear_range t) as Hd.
  destruct (InLeapYear_cases t) as [[El Ey]|[El Ey]]; rewrite El, Ey in *;
  repeat match goal with
  | |- context [if ?a <? ?b then _ else _] => destruct (Z.ltb_spec a b)
  end; cbn [JSDate.MonthStart]; lia.
Qed.

Lemma time_fields_range t :
  0 <= JSDate.HourFromTime t <= 23 /\ 0 <= JSDate.MinFromTime t <= 59 /\
  0 <= JSDate.SecFromTime t <= 59.
Proof.
  unfold JSDate.HourFromTime, JSDate.MinFromTime, JSDate.SecFromTime. div_lia.
Qed.

(** ** Dates: the two forms *)

Lemma decimal_length width n : length (decimal width n) = width.
Proof. unfold decimal. rewrite length_map, length_rev. apply length_seq. Qed.

Lemma decimal_2_inj a b :
  0 <= a <= 99 -> 0 <= b <= 99 -> decimal 2 a = decimal 2 b -> a = b.
Proof.
  intros Ha Hb. rewrite !decimal_2. intros [= H1 H2]. div_lia.
Qed.

(** The six fields of a date are in range, so that all but the year
    take two characters. *)
Lemma formatDate_fields t :
  short (formatDate t) =
    Number_toString (JSDate.getUTCFullYear t)
    ++ decimal 2 (JSDate.getUTCMonth t + 1) ++ decimal 2 (JSDate.getUTCDate t) /\
  long (formatDate t) =
    Number_toString (JSDate.getUTCFullYear t)
    ++ decimal 2 (JSDate.getUTCMonth t + 1) ++ decimal 2 (JSDate.getUTCDate t)
    ++ lit "T" ++ decimal 2 (JSDate.getUTCHours t) ++ decimal 2 (JSDate.getUTCMinutes t)
    ++ decimal 2 (JSDate.getUTCSeconds t) ++ lit "Z".
Proof.
  pose proof (MonthFromTime_range t). pose proof (DateFromTime_range t).
  pose proof (time_fields_range t) as (? & ? & ?).
  unfold formatDate, JSDate.getUTCMonth, JSDate.getUTCDate, JSDate.getUTCHours,
    JSDate.getUTCMinutes, JSDate.getUTCSeconds.
  cbn [short long].
  rewrite !padStart_two_digits by lia. split; reflexivity.
Qed.

(** C7, as amended: for every timestamp whose UTC year lies between
    1000 and 9999, the short form is YYYYMMDD and the long form is
    YYYYMMDDTHHMMSSZ, made of the UTC year in four digits and of the
    month, day, hours, minutes and seconds in two digits each, zero-padded;
    in particular the instant 2025-01-01T00:00:00Z has the long form
    "20250101T000000Z" and the short form "20250101". *)
Theorem C7_date_forms t :
  1000 <= JSDate.getUTCFullYear t <= 9999 ->
  short (formatDate t) =
    decimal 4 (JSDate.getUTCFullYear t)
    ++ decimal 2 (JSDate.getUTCMonth t + 1) ++ decimal 2 (JSDate.getUTCDate t) /\
  long (formatDate t) =
    short (formatDate t) ++ lit "T"
    ++ decimal 2 (JSDate.getUTCHours t) ++ decimal 2 (JSDate.getUTCMinutes t)
    ++ decimal 2 (JSDate.getUTCSeconds t) ++ lit "Z" /\
  length (short (formatDate t)) = 8%nat /\
  length (long (formatDate t)) = 16%nat /\
  1 <= JSDate.getUTCMonth t + 1 <= 12 /\
  1 <= JSDate.getUTCDate t <= 31 /\
  0 <= JSDate.getUTCHours t <= 23 /\
  0 <= JSDate.getUTCMinutes t <= 59 /\
  0 <= JSDate.getUTCSeconds t <= 59 /\
  (t = 1735689600000 ->
   short (formatDate t) = lit "20250101" /\ long (formatDate t) = lit "20250101T000000Z").
Proof.
  intros Hy.
  destruct (formatDate_fields t) as [Hs Hl].
  rewrite (Number_toString_year _ Hy) in Hs, Hl.
  pose proof (MonthFromTime_range t). pose proof (DateFromTime_range t).
  pose proof (time_fields_range t) as (? & ? & ?).
  split; [exact Hs|]. split; [rewrite Hl, Hs, <- !app_assoc; reflexivity|].
  split; [rewrite Hs, !length_app, !decimal_length; reflexivity|].
  split; [rewrite Hl, !length_app, !decimal_length; reflexivity|].
  unfold JSDate.getUTCMonth, JSDate.getUTCDate, JSDate.getUTCHours,
    JSDate.getUTCMinutes, JSDate.getUTCSeconds.
  repeat (split; [lia|]).
  intros ->. split; vm_compute; reflexivity.
Qed.

Lemma C7_witness_new_year_2025 :
  1000 <= JSDate.getUTCFullYear 1735689600000 <= 9999 /\
  short (formatDate 1735689600000) = lit "20250101" /\
  long (formatDate 1735689600000) = lit "20250101T000000Z".
Proof.
  assert (H : 1000 <= JSDate.getUTCFullYear 1735689600000 <= 9999)
    by (vm_compute; split; discriminate).
  split; [exact H|].
  apply (C7_date_forms 1735689600000 H). reflexivity.
Defined.

(** C7 as stated fails: at 10000-01-01T00:00:00Z the year takes five
    digits, the short form nine characters and the long form seventeen. *)
Lemma C7_counterexample_year_10000 :
  JSDate.getUTCFullYear 253402300800000 = 10000 /\
  short (formatDate 253402300800000) = lit "100000101" /\
  long (formatDate 253402300800000) = lit "100000101T000000Z" /\
  length (short (formatDate 253402300800000)) <> 8%nat /\
  length (long (formatDate 253402300800000)) <> 16%nat.
Proof. repeat split; vm_compute; congruence. Qed.

(** ** The long form determines the second *)

Lemma digit_fuel_bound n : 0 <= n -> n < 2 ^ Z.of_nat (digit_fuel n).
Proof.
  intros Hn. unfold digit_fuel.
  destruct (Z.eq_dec n 0) as [-> | Hne]; [reflexivity|].
  pose proof (Z.log2_nonneg n).
  replace (Z.of_nat (S (Z.to_nat (Z.log2 n)))) with (Z.succ (Z.log2 n)) by lia.
  apply Z.log2_spec. lia.
Qed.

Lemma digits_value_snoc s c : digits_value (s ++ [c]) = 10 * digits_value s + (c - 48).
Proof. unfold digits_value. rewrite fold_left_app. reflexivity. Qed.

Lemma digits_value_decimal fuel n :
  0 <= n < 2 ^ Z.of_nat fuel -> digits_value (decimal_digits fuel n) = n.
Proof.
  revert n. induction fuel as [|fuel IH]; intros n Hn.
  - change (2 ^ Z.of_nat 0) with 1 in Hn. assert (n = 0) as -> by lia. reflexivity.
  - cbn [decimal_digits]. rewrite digits_value_snoc.
    destruct (Z.ltb_spec n 10).
    + change (digits_value []) with 0. div_lia.
    + rewrite IH; [div_lia|].
      rewrite Nat2Z.inj_succ, Z.pow_succ_r in Hn by lia. div_lia.
Qed.

Lemma decimal_digits_inj a b :
  0 <= a -> 0 <= b ->
  decimal_digits (digit_fuel a) a = decimal_digits (digit_fuel b) b -> a = b.
Proof.
  intros Ha Hb H. apply (f_equal digits_value) in H.
  rewrite !digits_value_decimal in H by (split; [assumption|apply digit_fuel_bound; assumption]).
  exact H.
Qed.

Lemma decimal_digits_no_minus fuel n s : decimal_digits fuel n <> 45 :: s.
Proof.
  intros H. pose proof (decimal_digits_are_digits fuel n) as Hd.
  rewrite H in Hd. discriminate.
Qed.

Lemma Number_toString_inj a b : Number_toString a = Number_toString b -> a = b.
Proof.
  unfold Number_toString.
  destruct (Z.ltb_spec a 0), (Z.ltb_spec b 0); intros E.
  - injection E as E. apply decimal_digits_inj in E; lia.
  - symmetry in E. apply decimal_digits_no_minus in E. destruct E.
  - apply decimal_digits_no_minus in E. destruct E.
  - apply decimal_digits_inj in E; lia.
Qed.


Lemma day_of_fields t :
  JSDate.Day t =
    JSDate.DayFromYear (JSDate.YearFromTime t)
    + JSDate.MonthStart (JSDate.InLeapYear t) (JSDate.MonthFromTime t)
    + JSDate.DateFromTime t - 1.
Proof. unfold JSDate.DateFromTime, JSDate.DayWithinYear. lia. Qed.

Lemma second_of_fields t :
  t / 1000 =
    JSDate.Day t * 86400 + JSDate.HourFromTime t * 3600
    + JSDate.MinFromTime t * 60 + JSDate.SecFromTime t.
Proof.
  unfold JSDate.Day, JSDate.msPerDay, JSDate.HourFromTime, JSDate.MinFromTime, JSDate.SecFromTime.
  div_lia.
Qed.

Lemma formatDate_long_inj t1 t2 :
  long (formatDate t1) = long (formatDate t2) -> t1 / 1000 = t2 / 1000.
Proof.
  destruct (formatDate_fields t1) as [_ H1]. destruct (formatDate_fields t2) as [_ H2].
  rewrite H1, H2. clear H1 H2. intros H.
  apply app_inj_2 in H as [Hy H]; [|rewrite !length_app, !decimal_length; reflexivity].
  apply Number_toString_inj in Hy.
  apply app_inj_1 in H as [Hm H]; [|rewrite !decimal_length; reflexivity].
  apply app_inj_1 in H as [Hd H]; [|rewrite !decimal_length; reflexivity].
  apply app_inj_1 in H as [_ H]; [|reflexivity].
  apply app_inj_1 in H as [Hh H]; [|rewrite !decimal_length; reflexivity].
  apply app_inj_1 in H as [Hmi H]; [|rewrite !decimal_length; reflexivity].
  apply app_inj_1 in H as [Hs _]; [|rewrite !decimal_length; reflexivity].
  pose proof (MonthFromTime_range t1). pose proof (MonthFromTime_range t2).
  pose proof (DateFromTime_range t1). pose proof (DateFromTime_range t2).
  pose proof (time_fields_range t1) as (? & ? & ?).
  pose proof (time_fields_range t2) as (? & ? & ?).
  unfold JSDate.getUTCFullYear, JSDate.getUTCMonth, JSDate.getUTCDate, JSDate.getUTCHours,
    JSDate.getUTCMinutes, JSDate.getUTCSeconds in *.
  apply decimal_2_inj in Hm, Hd, Hh, Hmi, Hs; try lia.
  assert (Hmonth : JSDate.MonthFromTime t1 = JSDate.MonthFromTime t2) by lia.
  assert (Hleap : JSDate.InLeapYear t1 = JSDate.InLeapYear t2)
    by (unfold JSDate.InLeapYear; rewrite Hy; reflexivity).
  rewrite !second_of_fields, !day_of_fields, Hy, Hleap, Hmonth, Hd, Hh, Hmi, Hs.
  reflexivity.
Qed.

(** Signing instants one second apart never share their long form: the
    [X-Tos-Date] header changes with every second. *)
Lemma formatDate_long_next_second t :
  long (formatDate t) <> long (formatDate (t + 1000)).
Proof.
  intros H. apply formatDate_long_inj in H. div_lia.
Qed.

(** ** The claims about the signer *)

Lemma bind_err {A B} (e : JSError) (f : A -> result B) : (x ← Err e; f x) = Err e.
Proof. reflexivity. Qed.

Lemma get_five_headers h1 h2 h3 h4 h5 :
  let h := [("Host", h1); ("X-Tos-Date", h2); ("X-Tos-Content-Sha256", h3);
            ("Authorization", h4); ("Content-Type", h5)] in
  Headers_get h "Host" = Some h1 /\
  Headers_get h "X-Tos-Date" = Some h2 /\
  Headers_get h "X-Tos-Content-Sha256" = Some h3 /\
  Headers_get h "Authorization" = Some h4 /\
  Headers_get h "Content-Type" = Some h5.
Proof. repeat split. Qed.

Lemma signature_hex_shape key msg :
  length (bufferToHex (HMAC.hmac_sha256 key msg)) = 64%nat /\
  forallb is_lower_hex (bufferToHex (HMAC.hmac_sha256 key msg)) = true.
Proof.
  split; [|apply bufferToHex_lower].
  rewrite bufferToHex_length, hmac_sha256_length. reflexivity.
Qed.

Lemma prop_insert_ne o name name' v :
  name <> name' -> prop (<[name := v]> o) name' = prop o name'.
Proof. intros H. unfold prop. rewrite lookup_insert_ne by assumption. reflexivity. Qed.

Lemma prop_insert_eq o name v : prop (<[name := v]> o) name = v.
Proof. unfold prop. rewrite lookup_insert_eq. reflexivity. Qed.



Lemma with_default_defined v d : v <> JUndefined -> with_default v d = v.
Proof. destruct v; [congruence| | | |]; reflexivity. Qed.

Lemma well_formed_set_date r date : well_formed (set_date r date) = well_formed r.
Proof. reflexivity. Qed.

Lemma middle_and_end_equal p q s1 s2 (sig1 sig2 : jsstring) :
  length sig1 = length sig2 ->
  p ++ s1 ++ q ++ sig1 = p ++ s2 ++ q ++ sig2 -> s1 = s2 /\ sig1 = sig2.
Proof.
  intros Hlen H. apply app_inv_head in H. rewrite !app_assoc in H.
  apply app_inj_2 in H as [H ->]; [|assumption].
  apply app_inv_tail in H. auto.
Qed.

Lemma authorization_equal p1 p2 p3 q1 q2 q3 q4 q5 q6 s1 s2 (sig1 sig2 : jsstring) :
  length sig1 = length sig2 ->
  p1 ++ p2 ++ p3 ++ s1 ++ q1 ++ q2 ++ q3 ++ q4 ++ q5 ++ q6 ++ sig1
  = p1 ++ p2 ++ p3 ++ s2 ++ q1 ++ q2 ++ q3 ++ q4 ++ q5 ++ q6 ++ sig2 ->
  s1 = s2 /\ sig1 = sig2.
Proof.
  intros Hlen H.
  apply (middle_and_end_equal (p1 ++ p2 ++ p3) (q1 ++ q2 ++ q3 ++ q4 ++ q5 ++ q6));
    [assumption|].
  rewrite <- !app_assoc. exact H.
Qed.

Section Claims.
Variable Date_toString : Z -> jsstring.

(** C1: for every request that can be signed the signer derives kDate as the
    HMAC-SHA256, keyed by the UTF-8 octets of the secret, of the short
    date; kRegion, kService and kSigning as the HMAC-SHA256, keyed by the
    octets of the previous key as they are, of the region, of "tos" and
    of "request"; and the signature is the hexadecimal form, 64
    lower-case characters, of the HMAC-SHA256 of the string to sign
    keyed by kSigning. *)
Theorem C1_signing_key_chain now o r :
  carries o r -> signable r = true ->
  exists l,
    signTOSRequest_locals Date_toString now o = Ok l /\
    l_kDate l = HMAC.hmac_sha256 (TextEncoder_encode (r_secretAccessKey r))
                  (TextEncoder_encode (short (formatDate (instant now r)))) /\
    l_kRegion l = HMAC.hmac_sha256 (l_kDate l) (TextEncoder_encode (r_region r)) /\
    l_kService l = HMAC.hmac_sha256 (l_kRegion l) (TextEncoder_encode (lit "tos")) /\
    l_kSigning l = HMAC.hmac_sha256 (l_kService l) (TextEncoder_encode (lit "request")) /\
    l_signatureHex l =
      bufferToHex (HMAC.hmac_sha256 (l_kSigning l) (TextEncoder_encode (l_stringToSign l))) /\
    length (l_signatureHex l) = 64%nat /\
    forallb is_lower_hex (l_signatureHex l) = true.
Proof.
  intros Hc Hw.
  destruct (signTOSRequest_locals_run Date_toString now o r Hc Hw)
    as (l & encoded & Hl & _ & _ & Hdates & _ & _ & _ & _ & _ & _ & _ & _ & _
        & HkDate & HkRegion & HkService & HkSigning & Hsig & Hhex & _).
  exists l. rewrite Hdates in HkDate.
  repeat (split; [assumption|]).
  rewrite Hhex, Hsig. split; [reflexivity|]. apply signature_hex_shape.
Qed.

(** C2, evaluated on options like those the list operation of the
    client builds, with the secret under the name the signer reads: the
    options carry the query string "list-type=2&prefix=photos", the
    canonical request is built, and its third line is empty instead of
    being that query string. *)
Theorem C2_query_string_is_not_signed :
  prop list_call_options "queryString" = JString (lit "list-type=2&prefix=photos") /\
  exists l,
    signTOSRequest_locals Date_toString 0 list_call_options = Ok l /\
    l_canonicalRequest l =
      join newline
        [lit "GET";
         lit "/";
         lit "";
         join newline [lit "host:test-bucket.tos-cn-beijing.volces.com";
                       lit "x-tos-content-sha256:UNSIGNED-PAYLOAD";
                       lit "x-tos-date:20250101T000000Z"];
         lit "";
         lit "host;x-tos-content-sha256;x-tos-date";
         lit "UNSIGNED-PAYLOAD"].
Proof.
  split; [vm_compute; reflexivity|].
  assert (Hc : carries list_call_options list_request)
    by (repeat split; vm_compute; reflexivity).
  assert (Hw : signable list_request = true) by (vm_compute; reflexivity).
  destruct (signTOSRequest_locals_run Date_toString 0 _ _ Hc Hw)
    as (l & encoded & Hl & Henc & _ & Hdates & Hhost & Huri & _ & Hch & Hsh & Hcr & _).
  exists l. split; [assumption|].
  rewrite Hcr, Hch, Hsh, Huri, Hhost, Hdates.
  assert (encoded = []) as -> by (vm_compute in Henc; congruence).
  vm_compute. reflexivity.
Qed.

(** No property called [queryString] has any influence on the signer. *)
Lemma query_string_ignored now o q :
  signTOSRequest_locals Date_toString now (<["queryString" := q]> o)
  = signTOSRequest_locals Date_toString now o.
Proof.
  unfold signTOSRequest_locals. cbv zeta.
  rewrite !prop_insert_ne by discriminate. reflexivity.
Qed.

(** The same holds of every request: whatever else the options object
    holds, the canonical request is made of the method, the canonical
    URI, an empty line, the three canonical headers, an empty line, the
    list of signed headers and the payload hash. *)
Lemma canonical_request_lines now o r :
  carries o r -> signable r = true ->
  exists l,
    signTOSRequest_locals Date_toString now o = Ok l /\
    l_canonicalRequest l =
      join newline
        [r_method r;
         l_uri l;
         [];
         join newline [lit "host:" ++ r_bucket r ++ lit "." ++ r_endpoint r;
                       lit "x-tos-content-sha256:" ++ payload_hash r;
                       lit "x-tos-date:" ++ long (formatDate (instant now r))];
         [];
         lit "host;x-tos-content-sha256;x-tos-date";
         payload_hash r].
Proof.
  intros Hc Hw.
  destruct (signTOSRequest_locals_run Date_toString now o r Hc Hw)
    as (l & encoded & Hl & _ & _ & Hdates & Hhost & _ & _ & Hch & Hsh & Hcr & _).
  exists l. split; [assumption|].
  rewrite Hcr, Hch, Hsh, Hhost, Hdates. reflexivity.
Qed.

(** C3: in each of the four operations of the client the options object
    given to the signer holds the secret under "accessKeySecret" and
    nothing under "secretAccessKey", the name the signer reads; the key
    of the first HMAC is therefore [undefined], importing it fails, and
    the call ends in an error that does not depend on the secret: a
    [URIError] if the object key cannot be encoded, a [TypeError]
    otherwise. *)
Theorem C3_client_secret_never_reaches_signer now this_options call bucket key :
  let o := sign_options this_options call bucket key in
  o !! "accessKeySecret" = Some (prop this_options "accessKeySecret") /\
  o !! "secretAccessKey" = None /\
  prop o "secretAccessKey" = JUndefined /\
  (forall data, hmacSha256 Date_toString (prop o "secretAccessKey") data = Err TypeError) /\
  signTOSRequest Date_toString now o
    = (encoded ← uriEncode (ToString Date_toString key) false; Err TypeError).
Proof.
  intros o.
  destruct (sign_options_secret this_options call bucket key) as [H1 H2].
  assert (H3 : prop o "secretAccessKey" = JUndefined).
  { unfold prop. subst o. rewrite H2. reflexivity. }
  assert (Hd : prop o "date" = JUndefined) by (destruct call; vm_compute; reflexivity).
  assert (Hk : prop o "key" = key) by (destruct call; vm_compute; reflexivity).
  split; [exact H1|]. split; [exact H2|]. split; [exact H3|].
  split; [intros data; rewrite H3; apply hmacSha256_undefined|].
  unfold signTOSRequest, signTOSRequest_locals. cbv zeta.
  rewrite H3, Hd, Hk.
  change (with_default JUndefined (JDate now)) with (JDate now).
  cbv iota. rewrite bind_ok; cbv beta.
  destruct (uriEncode (ToString Date_toString key) false) as [encoded|e].
  - rewrite !bind_ok; cbv beta. rewrite hmacSha256_undefined, !bind_err. reflexivity.
  - rewrite !bind_err. reflexivity.
Qed.

(** C4: for every request that can be signed the canonical URI is "/" followed
    by the key as [encodeURIComponent] encodes it, with "!", "'", "(",
    ")" and "*" then replaced by "%21", "%27", "%28", "%29" and "%2A" and
    every "%2F" then replaced by "/"; this is the key with every code
    point percent-encoded except the letters, the digits, "-", "_", ".",
    "~" and "/"; an empty key gives "/". *)
Theorem C4_canonical_uri now o r :
  carries o r -> signable r = true ->
  exists l e,
    signTOSRequest_locals Date_toString now o = Ok l /\
    encodeURIComponent (r_key r) = Ok e /\
    l_uri l =
      lit "/" ++
      replace_g "%2F" "/"
        (replace_g "*" "%2A" (replace_g ")" "%29" (replace_g "(" "%28"
           (replace_g "'" "%27" (replace_g "!" "%21" e))))) /\
    canonical_uri (r_key r) = Ok (l_uri l) /\
    (r_key r = [] -> l_uri l = lit "/").
Proof.
  intros Hc Hw.
  destruct (signTOSRequest_locals_run Date_toString now o r Hc Hw)
    as (l & encoded & Hl & Henc & _ & _ & _ & Huri & _).
  pose proof Henc as Hcan. rewrite uriEncode_canonical in Hcan.
  rewrite uriEncode_unfold in Henc.
  destruct (encodeURIComponent (r_key r)) as [e|err]; [|discriminate].
  rewrite bind_ok in Henc. injection Henc as Henc.
  exists l, e. split; [assumption|]. split; [reflexivity|].
  split; [rewrite Huri, <- Henc; reflexivity|].
  split.
  - unfold canonical_uri. rewrite Hcan, bind_ok, Huri. reflexivity.
  - intros Hk. rewrite Hk in Hcan. cbn in Hcan. injection Hcan as <-.
    rewrite Huri. reflexivity.
Qed.



(** C8: when the options supply a date, two calls of the signer return
    the same thing (the same five header values, or the same error)
    whatever the clock shows at each call: the signer reads nothing but
    its argument. *)
Theorem C8_deterministic now1 now2 o t :
  prop o "date" = JDate t ->
  signTOSRequest Date_toString now1 o = signTOSRequest Date_toString now2 o /\
  signTOSRequest_locals Date_toString now1 o = signTOSRequest_locals Date_toString now2 o.
Proof.
  intros Hd.
  assert (H : signTOSRequest_locals Date_toString now1 o
              = signTOSRequest_locals Date_toString now2 o).
  { unfold signTOSRequest_locals. cbv zeta. rewrite Hd.
    rewrite !(with_default_defined (JDate t)) by discriminate. reflexivity. }
  split; [|exact H]. unfold signTOSRequest. rewrite H. reflexivity.
Qed.

(** Two requests that differ in their dates only, by one second: the
    X-Tos-Date headers differ, and the Authorization headers are equal
    exactly when the two instants fall on the same UTC day and the two
    signatures, of different strings to sign, are equal. (This is as far
    as C9 can be settled.) *)
Lemma one_second_apart now1 now2 o1 o2 r t :
  carries o1 (set_date r (Some t)) -> carries o2 (set_date r (Some (t + 1000))) ->
  well_formed r = true ->
  exists l1 l2 headers1 headers2,
    signTOSRequest_locals Date_toString now1 o1 = Ok l1 /\
    signTOSRequest_locals Date_toString now2 o2 = Ok l2 /\
    signTOSRequest Date_toString now1 o1 = Ok headers1 /\
    signTOSRequest Date_toString now2 o2 = Ok headers2 /\
    Headers_get headers1 "X-Tos-Date" <> Headers_get headers2 "X-Tos-Date" /\
    (Headers_get headers1 "Authorization" = Headers_get headers2 "Authorization"
     <-> short (formatDate t) = short (formatDate (t + 1000))
         /\ l_signatureHex l1 = l_signatureHex l2).
Proof.
  intros Hc1 Hc2 Hw.
  pose proof Hw as Hw1. rewrite <- (well_formed_set_date r (Some t)) in Hw1.
  pose proof Hw as Hw2. rewrite <- (well_formed_set_date r (Some (t + 1000))) in Hw2.
  destruct (signTOSRequest_run Date_toString now1 o1 _ Hc1 Hw1) as (l1 & Hl1 & Hh1).
  destruct (signTOSRequest_run Date_toString now2 o2 _ Hc2 Hw2) as (l2 & Hl2 & Hh2).
  destruct (signTOSRequest_locals_run Date_toString now1 o1 _ Hc1 (well_formed_signable _ Hw1))
    as (l1' & e1 & Hl1' & _ & _ & Hd1 & _ & _ & _ & _ & Hsh1 & _ & _ & Hsc1 & _
        & _ & _ & _ & _ & Hsig1 & Hhex1 & Hauth1 & _).
  destruct (signTOSRequest_locals_run Date_toString now2 o2 _ Hc2 (well_formed_signable _ Hw2))
    as (l2' & e2 & Hl2' & _ & _ & Hd2 & _ & _ & _ & _ & Hsh2 & _ & _ & Hsc2 & _
        & _ & _ & _ & _ & Hsig2 & Hhex2 & Hauth2 & _).
  assert (l1' = l1) as -> by congruence.
  assert (l2' = l2) as -> by congruence.
  eexists l1, l2, _, _. split; [assumption|]. split; [assumption|].
  split; [exact Hh1|]. split; [exact Hh2|].
  change (instant now1 (set_date r (Some t))) with t in *.
  change (instant now2 (set_date r (Some (t + 1000)))) with (t + 1000) in *.
  cbn [set_date r_region r_accessKeyId r_bucket r_endpoint] in *.
  change (payload_hash (set_date r (Some t))) with (payload_hash r).
  change (payload_hash (set_date r (Some (t + 1000)))) with (payload_hash r).
  change (content_type (set_date r (Some t))) with (content_type r).
  change (content_type (set_date r (Some (t + 1000)))) with (content_type r).
  pose proof (get_five_headers (r_bucket r ++ lit "." ++ r_endpoint r) (long (formatDate t))
                (payload_hash r) (l_authorization l1) (content_type r)) as (_ & X1 & _ & A1 & _).
  pose proof (get_five_headers (r_bucket r ++ lit "." ++ r_endpoint r)
                (long (formatDate (t + 1000)))
                (payload_hash r) (l_authorization l2) (content_type r)) as (_ & X2 & _ & A2 & _).
  rewrite X1, X2, A1, A2. split.
  - intros H. apply (inj Some) in H.
    exact (formatDate_long_next_second t H).
  - rewrite Hauth1, Hauth2, Hsc1, Hsc2, Hsh1, Hsh2, Hd1, Hd2.
    rewrite <- !app_assoc.
    assert (Hlen : length (l_signatureHex l1) = length (l_signatureHex l2)).
    { rewrite Hhex1, Hhex2, Hsig1, Hsig2.
      rewrite (proj1 (signature_hex_shape _ _)), (proj1 (signature_hex_shape _ _)).
      reflexivity. }
    split.
    + intros H. apply (inj Some) in H. revert H. apply authorization_equal. exact Hlen.
    + intros [-> ->]. reflexivity.
Qed.

End Claims.

(** ** The claims on examples *)

Lemma test_request_ok :
  carries (options_of test_request) test_request /\ well_formed test_request = true.
Proof. split; [apply carries_options_of | vm_compute; reflexivity]. Qed.

Lemma C1_witness_test_request :
  carries (options_of test_request) test_request /\
  signable test_request = true /\
  exists l,
    signTOSRequest_locals (fun _ => []) 0 (options_of test_request) = Ok l /\
    length (l_signatureHex l) = 64%nat.
Proof.
  destruct test_request_ok as [Hc Hw]. apply well_formed_signable in Hw.
  split; [exact Hc|]. split; [exact Hw|].
  destruct (C1_signing_key_chain (fun _ => []) 0 _ _ Hc Hw)
    as (l & Hl & _ & _ & _ & _ & _ & Hlen & _).
  exists l. split; assumption.
Defined.

Lemma C4_witness_special_key :
  carries (options_of (set_key test_request special_key)) (set_key test_request special_key) /\
  signable (set_key test_request special_key) = true /\
  exists l,
    signTOSRequest_locals (fun _ => []) 0 (options_of (set_key test_request special_key)) = Ok l /\
    l_uri l = lit "/path/to/%E6%96%87%E4%BB%B6%20%281%29.txt".
Proof.
  assert (Hc : carries (options_of (set_key test_request special_key))
                 (set_key test_request special_key)) by apply carries_options_of.
  assert (Hw : signable (set_key test_request special_key) = true)
    by (vm_compute; reflexivity).
  split; [exact Hc|]. split; [exact Hw|].
  destruct (C4_canonical_uri (fun _ => []) 0 _ _ Hc Hw) as (l & e & Hl & _ & _ & Hcan & _).
  exists l. split; [exact Hl|].
  assert (E : canonical_uri special_key = Ok (lit "/path/to/%E6%96%87%E4%BB%B6%20%281%29.txt"))
    by (vm_compute; reflexivity).
  cbn [r_key set_key] in Hcan. rewrite E in Hcan. congruence.
Defined.



Lemma C8_witness_test_request :
  prop (options_of test_request) "date" = JDate 1735689600000 /\
  signTOSRequest (fun _ => []) 0 (options_of test_request)
  = signTOSRequest (fun _ => []) 86400000 (options_of test_request).
Proof.
  assert (H : prop (options_of test_request) "date" = JDate 1735689600000)
    by (vm_compute; reflexivity).
  split; [exact H|].
  exact (proj1 (C8_deterministic (fun _ => []) 0 86400000 _ _ H)).
Defined.


(** The signature of the test request, as an independent implementation
    of the scheme computes it. *)
Example signature_of_test_request :
  (l ← signTOSRequest_locals (fun _ => []) 0 (options_of test_request);
   Ok (l_signatureHex l))
  = Ok (lit "d55a5c5af7912d90823a2f2a9e80feb4341296fe5ef4518dde006a2934eb0e1e").
Proof. vm_compute. reflexivity. Qed.

(* ===================================================================== *)
(** * Part III: further properties of the code                            *)
(* ===================================================================== *)

(** ** bufferToHex *)

Lemma hex_digit_lower_inj d1 d2 :
  0 <= d1 < 16 -> 0 <= d2 < 16 ->
  hex_digit "0123456789abcdef" d1 = hex_digit "0123456789abcdef" d2 -> d1 = d2.
Proof.
  intros H1 H2 E.
  set (v := fun c : Z => if c <? 58 then c - 48 else c - 87).
  assert (Hv : forall d, 0 <= d < 16 -> v (hex_digit "0123456789abcdef" d) = d).
  { intros d Hd. unfold hex_digit.
    assert (Hn : (Z.to_nat d < 16)%nat) by lia.
    rewrite <- (Z2Nat.id d) at 2 by lia.
    revert Hn. generalize (Z.to_nat d). intros n Hn.
    do 16 (destruct n as [|n]; [reflexivity|]). lia. }
  rewrite <- (Hv d1 H1), <- (Hv d2 H2), E. reflexivity.
Qed.

Lemma hex_pair_octet b :
  0 <= b <= 255 ->
  padStart (byte_toString16 b) 2 48
  = [hex_digit "0123456789abcdef" (b / 16); hex_digit "0123456789abcdef" (b mod 16)].
Proof.
  intros H. unfold padStart, byte_toString16.
  destruct (Z.ltb_spec b 16); [|reflexivity].
  cbn [length Nat.sub repeat app].
  replace (b / 16) with 0 by div_lia. replace (b mod 16) with b by div_lia.
  reflexivity.
Qed.

Lemma bufferToHex_inj a b :
  is_octets a = true -> is_octets b = true ->
  bufferToHex a = bufferToHex b -> a = b.
Proof.
  revert b. induction a as [|x a IH]; intros [|y b] Ha Hb E.
  - reflexivity.
  - apply (f_equal length) in E. rewrite !bufferToHex_length in E. discriminate.
  - apply (f_equal length) in E. rewrite !bufferToHex_length in E. discriminate.
  - cbn [is_octets forallb] in Ha, Hb.
    apply andb_prop in Ha as [Hx Ha]. apply andb_prop in Hb as [Hy Hb].
    assert (Rx : 0 <= x <= 255) by lia. assert (Ry : 0 <= y <= 255) by lia.
    rewrite !bufferToHex_cons, (hex_pair_octet x Rx), (hex_pair_octet y Ry) in E.
    cbn [app] in E. injection E as E1 E2 E3.
    apply hex_digit_lower_inj in E1; [|div_lia|div_lia].
    apply hex_digit_lower_inj in E2; [|div_lia|div_lia].
    f_equal; [div_lia|]. apply IH; assumption.
Qed.

(** X1: two buffers of octets that differ have different hexadecimal
    forms: [bufferToHex] loses nothing, a leading zero digit being kept by
    the padding. *)
Theorem X1_bufferToHex_distinct a b :
  is_octets a = true -> is_octets b = true -> a <> b ->
  bufferToHex a <> bufferToHex b.
Proof.
  intros Ha Hb Hne E. apply Hne. apply bufferToHex_inj; assumption.
Qed.

Lemma X1_witness_one_and_sixteen :
  is_octets [1] = true /\ is_octets [16] = true /\ [1] <> [16] /\
  bufferToHex [1] <> bufferToHex [16].
Proof.
  assert (H1 : is_octets [1] = true) by reflexivity.
  assert (H2 : is_octets [16] = true) by reflexivity.
  assert (H3 : [1] <> [16]) by discriminate.
  split; [exact H1|]. split; [exact H2|]. split; [exact H3|].
  exact (X1_bufferToHex_distinct [1] [16] H1 H2 H3).
Defined.

(** ** formatDate: what the two forms keep of an instant *)

Lemma YearFromTime_of_day t1 t2 :
  JSDate.Day t1 = JSDate.Day t2 -> JSDate.YearFromTime t1 = JSDate.YearFromTime t2.
Proof. unfold JSDate.YearFromTime. intros ->. reflexivity. Qed.

Lemma short_of_day t1 t2 :
  JSDate.Day t1 = JSDate.Day t2 -> short (formatDate t1) = short (formatDate t2).
Proof.
  intros H. pose proof (YearFromTime_of_day _ _ H) as Hy.
  unfold formatDate. cbn [short].
  unfold JSDate.getUTCFullYear, JSDate.getUTCMonth, JSDate.getUTCDate,
    JSDate.DateFromTime, JSDate.MonthFromTime, JSDate.DayWithinYear, JSDate.InLeapYear.
  rewrite H, Hy. reflexivity.
Qed.

Lemma long_of_second t1 t2 :
  t1 / 1000 = t2 / 1000 -> long (formatDate t1) = long (formatDate t2).
Proof.
  intros H.
  assert (Hd : JSDate.Day t1 = JSDate.Day t2).
  { unfold JSDate.Day, JSDate.msPerDay.
    change 86400000 with (1000 * 86400). rewrite <- !Z.div_div by lia. rewrite H. reflexivity. }
  assert (Hh : JSDate.HourFromTime t1 = JSDate.HourFromTime t2).
  { unfold JSDate.HourFromTime.
    change 3600000 with (1000 * 3600). rewrite <- !Z.div_div by lia. rewrite H. reflexivity. }
  assert (Hm : JSDate.MinFromTime t1 = JSDate.MinFromTime t2).
  { unfold JSDate.MinFromTime.
    change 60000 with (1000 * 60). rewrite <- !Z.div_div by lia. rewrite H. reflexivity. }
  assert (Hs : JSDate.SecFromTime t1 = JSDate.SecFromTime t2).
  { unfold JSDate.SecFromTime. rewrite H. reflexivity. }
  pose proof (short_of_day _ _ Hd) as Hshort.
  unfold formatDate in *. cbn [short long] in *.
  unfold JSDate.getUTCHours, JSDate.getUTCMinutes, JSDate.getUTCSeconds.
  rewrite Hh, Hm, Hs. rewrite !app_assoc in *. rewrite Hshort. reflexivity.
Qed.

(** X2: two instants have the same long form exactly when they fall in
    the same second: the long form drops the milliseconds and nothing
    else, whatever the year. *)
Theorem X2_formatDate_long_keeps_the_second t1 t2 :
  long (formatDate t1) = long (formatDate t2) <-> t1 / 1000 = t2 / 1000.
Proof. split; [apply formatDate_long_inj | apply long_of_second]. Qed.

Lemma formatDate_short_inj t1 t2 :
  short (formatDate t1) = short (formatDate t2) -> t1 / 86400000 = t2 / 86400000.
Proof.
  destruct (formatDate_fields t1) as [H1 _]. destruct (formatDate_fields t2) as [H2 _].
  rewrite H1, H2. clear H1 H2. intros H.
  apply app_inj_2 in H as [Hy H]; [|rewrite !length_app, !decimal_length; reflexivity].
  apply Number_toString_inj in Hy.
  apply app_inj_1 in H as [Hm Hd]; [|rewrite !decimal_length; reflexivity].
  pose proof (MonthFromTime_range t1). pose proof (MonthFromTime_range t2).
  pose proof (DateFromTime_range t1). pose proof (DateFromTime_range t2).
  unfold JSDate.getUTCFullYear, JSDate.getUTCMonth, JSDate.getUTCDate in *.
  apply decimal_2_inj in Hm, Hd; try lia.
  assert (Hmonth : JSDate.MonthFromTime t1 = JSDate.MonthFromTime t2) by lia.
  assert (Hleap : JSDate.InLeapYear t1 = JSDate.InLeapYear t2)
    by (unfold JSDate.InLeapYear; rewrite Hy; reflexivity).
  change (JSDate.Day t1 = JSDate.Day t2).
  rewrite !day_of_fields, Hy, Hleap, Hmonth, Hd. reflexivity.
Qed.

(** X3: two instants have the same short form exactly when they fall on
    the same UTC day. *)
Theorem X3_formatDate_short_keeps_the_day t1 t2 :
  short (formatDate t1) = short (formatDate t2) <-> t1 / 86400000 = t2 / 86400000.
Proof. split; [apply formatDate_short_inj | apply short_of_day]. Qed.

(** ** uriEncode, in its two modes *)

Lemma uriEncode_unfold_strict str :
  uriEncode str true = (e ← encodeURIComponent str; Ok (escape_marks e)).
Proof. reflexivity. Qed.

Lemma unreserved_split cp :
  is_unreserved cp = true ->
  uriUnescaped cp = true /\ char_in cp "!'()*" = false.
Proof.
  unfold is_unreserved, uriUnescaped, is_alnum, char_in.
  change (lit "!'()*") with [33; 39; 40; 41; 42].
  change (lit "-_.!~*'()") with [45; 95; 46; 33; 126; 42; 39; 40; 41].
  change (lit "-_.~") with [45; 95; 46; 126].
  cbn [existsb]. lia.
Qed.

Lemma not_unreserved_split cp :
  is_unreserved cp = false -> uriUnescaped cp = false \/ char_in cp "!'()*" = true.
Proof.
  unfold is_unreserved, uriUnescaped, is_alnum, char_in.
  change (lit "!'()*") with [33; 39; 40; 41; 42].
  change (lit "-_.!~*'()") with [45; 95; 46; 33; 126; 42; 39; 40; 41].
  change (lit "-_.~") with [45; 95; 46; 126].
  cbn [existsb]. lia.
Qed.

Lemma escape_marks_point cp :
  escape_marks (encode_point cp) = encoded_point true cp.
Proof.
  unfold encoded_point. cbn [negb andb]. rewrite orb_false_r.
  destruct (is_unreserved cp) eqn:E.
  - apply unreserved_split in E as (Hu & Hm).
    unfold encode_point. rewrite Hu. apply escape_marks_other. exact Hm.
  - unfold encode_point. destruct (uriUnescaped cp) eqn:Eu.
    + apply not_unreserved_split in E as [E|E]; [congruence|].
      apply marks_cases in E.
      destruct E as [-> | [-> | [-> | [-> | ->]]]]; reflexivity.
    + apply escape_marks_octets.
Qed.

Lemma stays_literal_unreserved cp :
  stays_literal cp = is_unreserved cp || (cp =? 47).
Proof.
  unfold stays_literal, is_unreserved, char_in.
  change (lit "-_.~/") with [45; 95; 46; 126; 47].
  change (lit "-_.~") with [45; 95; 46; 126].
  cbn [existsb]. rewrite (Z.eqb_sym cp 47), !orb_false_r, !orb_assoc. reflexivity.
Qed.

Lemma canonical_point_encoded cp : canonical_point cp = encoded_point false cp.
Proof.
  unfold canonical_point, encoded_point. cbn [negb andb].
  rewrite stays_literal_unreserved. reflexivity.
Qed.

(** [uriEncode] works code point by code point, and throws when a
    surrogate stands alone. *)
Lemma uriEncode_pointwise str encodeSlash :
  uriEncode str encodeSlash =
  if isWellFormed str
  then Ok (flat_map (fun cp => encoded_point encodeSlash (default 0 cp)) (code_points str))
  else Err URIError.
Proof.
  unfold isWellFormed. destruct encodeSlash.
  - rewrite uriEncode_unfold_strict. unfold encodeURIComponent.
    induction (code_points str) as [|[cp|] cps IH]; [reflexivity| |reflexivity].
    cbn [encode_points forallb is_some andb flat_map default].
    destruct (encode_points cps) as [r|e].
    + rewrite !bind_ok in *. destruct (forallb is_some cps); [|discriminate].
      injection IH as IH. rewrite escape_marks_app, escape_marks_point, IH. reflexivity.
    + destruct (forallb is_some cps); [discriminate|]. exact IH.
  - rewrite uriEncode_canonical.
    induction (code_points str) as [|[cp|] cps IH]; [reflexivity| |reflexivity].
    cbn [canonical_points forallb is_some andb flat_map default].
    rewrite IH. destruct (forallb is_some cps); [|reflexivity].
    rewrite bind_ok, canonical_point_encoded. reflexivity.
Qed.

Lemma uriEncode_well_formed str encodeSlash :
  isWellFormed str = true -> exists e, uriEncode str encodeSlash = Ok e.
Proof.
  intros H. rewrite uriEncode_pointwise, H. eexists. reflexivity.
Qed.

Lemma uriEncode_ill_formed str encodeSlash :
  isWellFormed str = false -> uriEncode str encodeSlash = Err URIError.
Proof.
  intros H. rewrite uriEncode_pointwise, H. reflexivity.
Qed.

Lemma isWellFormed_Ok str encodeSlash e :
  uriEncode str encodeSlash = Ok e -> isWellFormed str = true.
Proof.
  rewrite uriEncode_pointwise. destruct (isWellFormed str); [reflexivity|discriminate].
Qed.

(** X4: in either mode [uriEncode] returns a string exactly when no
    surrogate of its argument stands alone, and what it throws otherwise
    is a [URIError]. *)
Theorem X4_uriEncode_throws_on_lone_surrogates str encodeSlash :
  ((exists e, uriEncode str encodeSlash = Ok e) <-> isWellFormed str = true) /\
  (forall err, uriEncode str encodeSlash = Err err -> err = URIError).
Proof.
  rewrite uriEncode_pointwise.
  destruct (isWellFormed str); split.
  - split; [reflexivity|]. intros _. eexists. reflexivity.
  - discriminate.
  - split; [intros [e He]; discriminate|discriminate].
  - congruence.
Qed.

Lemma percent_encoded_point slash encodeSlash cp rest :
  slash = negb encodeSlash ->
  percent_encoded slash (encoded_point encodeSlash cp ++ rest) = percent_encoded slash rest.
Proof.
  intros ->. unfold encoded_point.
  destruct (is_unreserved cp || negb encodeSlash && (cp =? 47)) eqn:E.
  - cbn [app percent_encoded]. rewrite E.
    destruct (Z.eqb_spec cp 37) as [-> | _]; [|reflexivity].
    destruct encodeSlash; discriminate.
  - induction (utf8_encode_point cp) as [|b bs IH]; [reflexivity|].
    cbn [flat_map]. unfold percent_octet at 1. cbn [app percent_encoded].
    rewrite Z.eqb_refl, !hex_digit_upper. exact IH.
Qed.

Lemma percent_encoded_points slash encodeSlash cps :
  slash = negb encodeSlash ->
  percent_encoded slash (flat_map (fun cp => encoded_point encodeSlash (default 0 cp)) cps) = true.
Proof.
  intros H. induction cps as [|cp cps IH]; [reflexivity|].
  cbn [flat_map]. rewrite (percent_encoded_point _ _ _ _ H). exact IH.
Qed.

(** X5: what [uriEncode] returns is made of unreserved characters and of
    percent signs followed by two upper-case hexadecimal digits, and of
    slashes too when it is told not to encode them; with [encodeSlash] it
    holds no slash. *)
Theorem X5_uriEncode_alphabet str encodeSlash e :
  uriEncode str encodeSlash = Ok e -> percent_encoded (negb encodeSlash) e = true.
Proof.
  rewrite uriEncode_pointwise.
  destruct (isWellFormed str); [|discriminate].
  intros H. injection H as <-. apply percent_encoded_points. reflexivity.
Qed.

Lemma X5_witness_special_key :
  uriEncode special_key false = Ok (lit "path/to/%E6%96%87%E4%BB%B6%20%281%29.txt") /\
  percent_encoded true (lit "path/to/%E6%96%87%E4%BB%B6%20%281%29.txt") = true.
Proof.
  assert (H : uriEncode special_key false = Ok (lit "path/to/%E6%96%87%E4%BB%B6%20%281%29.txt"))
    by (vm_compute; reflexivity).
  split; [exact H|].
  exact (X5_uriEncode_alphabet special_key false _ H).
Defined.

Lemma not_surrogate_unreserved c b :
  is_unreserved c || b && (c =? 47) = true ->
  is_high_surrogate c = false /\ is_low_surrogate c = false.
Proof.
  unfold is_unreserved, is_alnum, char_in, is_high_surrogate, is_low_surrogate.
  change (lit "-_.~") with [45; 95; 46; 126]. cbn [existsb]. lia.
Qed.

Lemma forallb_is_some_map {A} (xs : list A) : forallb is_some (map Some xs) = true.
Proof. induction xs; [reflexivity|assumption]. Qed.

(** X6: a string of unreserved characters comes back as it is, and so
    does one with slashes when slashes are not to be encoded. *)
Theorem X6_uriEncode_leaves_plain_keys str encodeSlash :
  forallb (fun c => is_unreserved c || negb encodeSlash && (c =? 47)) str = true ->
  uriEncode str encodeSlash = Ok str.
Proof.
  intros H. rewrite uriEncode_pointwise. unfold isWellFormed.
  assert (E : code_points str = map Some str).
  { induction str as [|c s IH]; [reflexivity|].
    cbn [forallb] in H. apply andb_prop in H as [Hc Hs].
    apply not_surrogate_unreserved in Hc as [Hh Hl].
    cbn [code_points map]. rewrite Hh, Hl, (IH Hs). reflexivity. }
  rewrite E, forallb_is_some_map. clear E. f_equal.
  induction str as [|c s IH]; [reflexivity|].
  cbn [forallb] in H. apply andb_prop in H as [Hc Hs].
  cbn [map flat_map default]. unfold encoded_point at 1. cbn [default id].
  rewrite Hc. cbn [app]. f_equal. apply IH. assumption.
Qed.

Lemma X6_witness_plain_path :
  forallb (fun c => is_unreserved c || negb false && (c =? 47))
    (lit "path/to/test-file_1.txt") = true /\
  uriEncode (lit "path/to/test-file_1.txt") false = Ok (lit "path/to/test-file_1.txt").
Proof.
  assert (H : forallb (fun c => is_unreserved c || negb false && (c =? 47))
                (lit "path/to/test-file_1.txt") = true) by (vm_compute; reflexivity).
  split; [exact H|].
  exact (X6_uriEncode_leaves_plain_keys (lit "path/to/test-file_1.txt") false H).
Defined.

Lemma code_points_app a b :
  isWellFormed a = true -> code_points (a ++ b) = code_points a ++ code_points b.
Proof.
  unfold isWellFormed.
  remember (length a) as n eqn:Hn.
  assert (Hle : (length a <= n)%nat) by lia. clear Hn. revert a Hle.
  induction n as [|n IH]; intros a Hle H.
  - destruct a; [reflexivity|cbn in Hle; lia].
  - destruct a as [|c rest]; [reflexivity|].
    cbn [length] in Hle. cbn [app code_points] in *.
    destruct (is_high_surrogate c).
    + destruct rest as [|d rest']; [discriminate|].
      cbn [app]. destruct (is_low_surrogate d); [|discriminate].
      cbn [forallb is_some andb] in H. cbn [app]. f_equal.
      apply IH; [cbn [length] in Hle; lia|assumption].
    + destruct (is_low_surrogate c); [discriminate|].
      cbn [forallb is_some andb] in H. cbn [app]. f_equal.
      apply IH; [lia|assumption].
Qed.

(** X7: with slashes kept, a path is encoded segment by segment: the
    encoding of [a/b] is the encoding of [a], a slash, and the encoding
    of [b]. *)
Theorem X7_uriEncode_by_segments a b a' b' :
  uriEncode a false = Ok a' -> uriEncode b false = Ok b' ->
  uriEncode (a ++ lit "/" ++ b) false = Ok (a' ++ lit "/" ++ b').
Proof.
  intros Ha Hb.
  pose proof (isWellFormed_Ok _ _ _ Ha) as Wa.
  pose proof (isWellFormed_Ok _ _ _ Hb) as Wb.
  rewrite uriEncode_pointwise in *. rewrite Wa in Ha. rewrite Wb in Hb.
  injection Ha as <-. injection Hb as <-.
  unfold isWellFormed in *.
  rewrite (code_points_app a _ Wa).
  change (lit "/" ++ b) with (47 :: b).
  change (code_points (47 :: b)) with (Some 47 :: code_points b).
  rewrite forallb_app. cbn [forallb is_some andb]. rewrite Wa, Wb. cbn [andb].
  rewrite flat_map_app. reflexivity.
Qed.

Lemma X7_witness_two_segments :
  uriEncode (lit "a b") false = Ok (lit "a%20b") /\
  uriEncode (lit "c(1)") false = Ok (lit "c%281%29") /\
  uriEncode (lit "a b" ++ lit "/" ++ lit "c(1)") false
    = Ok (lit "a%20b" ++ lit "/" ++ lit "c%281%29").
Proof.
  assert (Ha : uriEncode (lit "a b") false = Ok (lit "a%20b")) by (vm_compute; reflexivity).
  assert (Hb : uriEncode (lit "c(1)") false = Ok (lit "c%281%29")) by (vm_compute; reflexivity).
  split; [exact Ha|]. split; [exact Hb|].
  exact (X7_uriEncode_by_segments _ _ _ _ Ha Hb).
Defined.

(** ** uriEncode loses nothing *)

Lemma lor_marker y :
  0 <= y < 64 ->
  Z.lor 128 y = 128 + y /\ Z.lor 192 y = 192 + y /\
  (y < 32 -> Z.lor 224 y = 224 + y) /\ (y < 16 -> Z.lor 240 y = 240 + y).
Proof.
  intros H. assert (Hn : (Z.to_nat y < 64)%nat) by lia.
  rewrite <- (Z2Nat.id y) by lia. revert Hn. generalize (Z.to_nat y). intros n Hn.
  do 64 (destruct n as [|n]; [repeat split; intros; first [reflexivity | lia]|]). lia.
Qed.

Lemma utf8_encode_point_arith cp :
  0 <= cp < 0x110000 ->
  utf8_encode_point cp =
    if cp <? 0x80 then [cp]
    else if cp <? 0x800 then [192 + cp / 64; 128 + cp mod 64]
    else if cp <? 0x10000
         then [224 + cp / 4096; 128 + (cp / 64) mod 64; 128 + cp mod 64]
         else [240 + cp / 262144; 128 + (cp / 4096) mod 64; 128 + (cp / 64) mod 64;
               128 + cp mod 64].
Proof.
  intros H. unfold utf8_encode_point.
  change 0x3F with (Z.ones 6). rewrite !Z.land_ones by lia.
  rewrite !Z.shiftr_div_pow2 by lia.
  change (2 ^ 6) with 64. change (2 ^ 12) with 4096. change (2 ^ 18) with 262144.
  destruct (Z.ltb_spec cp 0x80); [reflexivity|].
  destruct (Z.ltb_spec cp 0x800).
  { rewrite (proj1 (proj2 (lor_marker (cp / 64) ltac:(div_lia)))).
    rewrite (proj1 (lor_marker (cp mod 64) ltac:(div_lia))). reflexivity. }
  destruct (Z.ltb_spec cp 0x10000).
  { rewrite (proj1 (proj2 (proj2 (lor_marker (cp / 4096) ltac:(div_lia)))) ltac:(div_lia)).
    rewrite (proj1 (lor_marker ((cp / 64) mod 64) ltac:(div_lia))).
    rewrite (proj1 (lor_marker (cp mod 64) ltac:(div_lia))). reflexivity. }
  rewrite (proj2 (proj2 (proj2 (lor_marker (cp / 262144) ltac:(div_lia)))) ltac:(div_lia)).
  rewrite (proj1 (lor_marker ((cp / 4096) mod 64) ltac:(div_lia))).
  rewrite (proj1 (lor_marker ((cp / 64) mod 64) ltac:(div_lia))).
  rewrite (proj1 (lor_marker (cp mod 64) ltac:(div_lia))). reflexivity.
Qed.

Lemma hex_digit_upper_inj d1 d2 :
  0 <= d1 < 16 -> 0 <= d2 < 16 ->
  hex_digit "0123456789ABCDEF" d1 = hex_digit "0123456789ABCDEF" d2 -> d1 = d2.
Proof.
  intros H1 H2 E.
  set (v := fun c : Z => if c <? 58 then c - 48 else c - 55).
  assert (Hv : forall d, 0 <= d < 16 -> v (hex_digit "0123456789ABCDEF" d) = d).
  { intros d Hd. unfold hex_digit.
    assert (Hn : (Z.to_nat d < 16)%nat) by lia.
    rewrite <- (Z2Nat.id d) at 2 by lia.
    revert Hn. generalize (Z.to_nat d). intros n Hn.
    do 16 (destruct n as [|n]; [reflexivity|]). lia. }
  rewrite <- (Hv d1 H1), <- (Hv d2 H2), E. reflexivity.
Qed.

Lemma percent_octet_inj b1 b2 x1 x2 :
  0 <= b1 < 256 -> 0 <= b2 < 256 ->
  percent_octet b1 ++ x1 = percent_octet b2 ++ x2 -> b1 = b2 /\ x1 = x2.
Proof.
  intros H1 H2. unfold percent_octet. cbn [app]. intros E.
  injection E as Eh El Ex.
  apply hex_digit_upper_inj in Eh; [|div_lia|div_lia].
  apply hex_digit_upper_inj in El; [|div_lia|div_lia].
  split; [div_lia|exact Ex].
Qed.

Lemma encoded_head_inj cp1 cp2 r1 r2 :
  0 <= cp1 < 0x110000 -> 0 <= cp2 < 0x110000 ->
  flat_map percent_octet (utf8_encode_point cp1) ++ r1
  = flat_map percent_octet (utf8_encode_point cp2) ++ r2 ->
  cp1 = cp2 /\ r1 = r2.
Proof.
  intros H1 H2.
  rewrite (utf8_encode_point_arith cp1 H1), (utf8_encode_point_arith cp2 H2).
  destruct (Z.ltb_spec cp1 0x80); [|destruct (Z.ltb_spec cp1 0x800);
                                     [|destruct (Z.ltb_spec cp1 0x10000)]];
  (destruct (Z.ltb_spec cp2 0x80); [|destruct (Z.ltb_spec cp2 0x800);
                                      [|destruct (Z.ltb_spec cp2 0x10000)]]);
  cbn [flat_map]; rewrite <- ?app_assoc; cbn [app]; intros E;
  (apply percent_octet_inj in E as [E1 E]; [|div_lia|div_lia]);
  try (exfalso; div_lia);
  repeat (apply percent_octet_inj in E as [? E]; [|div_lia|div_lia]);
  (split; [div_lia|exact E]).
Qed.

Lemma encoded_point_cases encodeSlash cp :
  (encoded_point encodeSlash cp = [cp] /\ cp <> 37) \/
  (exists b bs, utf8_encode_point cp = b :: bs /\
     encoded_point encodeSlash cp = flat_map percent_octet (utf8_encode_point cp)).
Proof.
  unfold encoded_point.
  destruct (is_unreserved cp || negb encodeSlash && (cp =? 47)) eqn:E.
  - left. split; [reflexivity|]. intros ->. destruct encodeSlash; discriminate.
  - right. pose proof (utf8_encode_point_nonempty cp) as Hne.
    destruct (utf8_encode_point cp) as [|b bs]; [congruence|]. eauto.
Qed.

Lemma encoded_points_inj encodeSlash cps1 cps2 :
  Forall (fun cp => 0 <= cp < 0x110000) cps1 ->
  Forall (fun cp => 0 <= cp < 0x110000) cps2 ->
  flat_map (encoded_point encodeSlash) cps1 = flat_map (encoded_point encodeSlash) cps2 ->
  cps1 = cps2.
Proof.
  intros H1. revert cps2. induction H1 as [|cp1 cps1 Hcp1 _ IH]; intros cps2 H2 E.
  - destruct H2 as [|cp2 cps2 Hcp2 _]; [reflexivity|]. exfalso.
    cbn [flat_map] in E.
    destruct (encoded_point_cases encodeSlash cp2) as [[E2 _] | (b & bs & Hu & E2)];
      rewrite E2 in E; [discriminate|]. rewrite Hu in E. discriminate.
  - destruct H2 as [|cp2 cps2 Hcp2 H2].
    { exfalso. cbn [flat_map] in E.
      destruct (encoded_point_cases encodeSlash cp1) as [[E1 _] | (b & bs & Hu & E1)];
        rewrite E1 in E; [discriminate|]. rewrite Hu in E. discriminate. }
    cbn [flat_map] in E.
    destruct (encoded_point_cases encodeSlash cp1) as [[E1 N1] | (b1 & bs1 & Hu1 & E1)];
    destruct (encoded_point_cases encodeSlash cp2) as [[E2 N2] | (b2 & bs2 & Hu2 & E2)];
    rewrite E1, E2 in E.
    + injection E as -> E. f_equal. apply IH; assumption.
    + exfalso. rewrite Hu2 in E. cbn in E. injection E as E _. congruence.
    + exfalso. rewrite Hu1 in E. cbn in E. injection E as E _. congruence.
    + apply encoded_head_inj in E as [-> E]; [|assumption|assumption].
      f_equal. apply IH; assumption.
Qed.

(** The code points of a well-formed string of 16-bit code units: a
    code unit that is no surrogate, or a surrogate pair, and the rest. *)
Lemma code_points_view s :
  is_utf16 s = true -> isWellFormed s = true ->
  s = [] \/
  (exists c rest, s = c :: rest /\ 0 <= c <= 65535 /\
     code_points s = Some c :: code_points rest /\
     is_utf16 rest = true /\ isWellFormed rest = true) \/
  (exists c d rest, s = c :: d :: rest /\
     0xD800 <= c <= 0xDBFF /\ 0xDC00 <= d <= 0xDFFF /\
     code_points s = Some ((c - 0xD800) * 0x400 + (d - 0xDC00) + 0x10000) :: code_points rest /\
     is_utf16 rest = true /\ isWellFormed rest = true).
Proof.
  unfold isWellFormed. intros Hu Hw.
  destruct s as [|c rest]; [left; reflexivity|]. right.
  cbn [is_utf16 forallb code_points] in Hu, Hw |- *.
  apply andb_prop in Hu as [Hc Hu].
  destruct (is_high_surrogate c) eqn:Eh.
  - right. destruct rest as [|d rest']; [discriminate|].
    destruct (is_low_surrogate d) eqn:El; [|discriminate].
    cbn [forallb] in Hu. apply andb_prop in Hu as [_ Hu].
    cbn [forallb is_some andb] in Hw.
    exists c, d, rest'. unfold is_high_surrogate in Eh. unfold is_low_surrogate in El.
    repeat split; try assumption; lia.
  - left. destruct (is_low_surrogate c); [discriminate|].
    cbn [forallb is_some andb] in Hw.
    exists c, rest. repeat split; try assumption; lia.
Qed.

Lemma code_points_valid s :
  is_utf16 s = true -> isWellFormed s = true ->
  exists cps, code_points s = map Some cps /\ Forall (fun cp => 0 <= cp < 0x110000) cps.
Proof.
  remember (length s) as n eqn:Hn.
  assert (Hle : (length s <= n)%nat) by lia. clear Hn. revert s Hle.
  induction n as [|n IH]; intros s Hle Hu Hw.
  - destruct s; [|cbn in Hle; lia]. exists []. split; [reflexivity|constructor].
  - destruct (code_points_view s Hu Hw)
      as [-> | [(c & rest & -> & Hc & E & Hu' & Hw') | (c & d & rest & -> & Hc & Hd & E & Hu' & Hw')]].
    + exists []. split; [reflexivity|constructor].
    + destruct (IH rest) as (cps & E' & F); [cbn [length] in Hle; lia|assumption|assumption|].
      exists (c :: cps). rewrite E, E'. split; [reflexivity|]. constructor; [lia|exact F].
    + destruct (IH rest) as (cps & E' & F); [cbn [length] in Hle; lia|assumption|assumption|].
      eexists (_ :: cps). rewrite E, E'. split; [reflexivity|]. constructor; [lia|exact F].
Qed.

Lemma code_points_inj a b :
  is_utf16 a = true -> isWellFormed a = true ->
  is_utf16 b = true -> isWellFormed b = true ->
  code_points a = code_points b -> a = b.
Proof.
  remember (length a) as n eqn:Hn.
  assert (Hle : (length a <= n)%nat) by lia. clear Hn. revert a b Hle.
  induction n as [|n IH]; intros a b Hle Hua Hwa Hub Hwb E.
  - destruct a; [|cbn in Hle; lia].
    destruct b as [|c b]; [reflexivity|]. exfalso.
    symmetry in E. exact (code_points_nonempty c b E).
  - destruct (code_points_view a Hua Hwa)
      as [-> | [(c & ra & -> & Hc & Ea & Hua' & Hwa')
               | (c & d & ra & -> & Hc & Hd & Ea & Hua' & Hwa')]].
    + destruct b as [|c b]; [reflexivity|]. exfalso.
      symmetry in E. exact (code_points_nonempty c b E).
    + destruct (code_points_view b Hub Hwb)
        as [-> | [(c' & rb & -> & Hc' & Eb & Hub' & Hwb')
                 | (c' & d' & rb & -> & Hc' & Hd' & Eb & Hub' & Hwb')]].
      * exfalso. exact (code_points_nonempty c ra E).
      * rewrite Ea, Eb in E. injection E as -> E. f_equal.
        apply IH; [cbn [length] in Hle; lia|assumption..].
      * exfalso. rewrite Ea, Eb in E. injection E as E _. lia.
    + destruct (code_points_view b Hub Hwb)
        as [-> | [(c' & rb & -> & Hc' & Eb & Hub' & Hwb')
                 | (c' & d' & rb & -> & Hc' & Hd' & Eb & Hub' & Hwb')]].
      * exfalso. exact (code_points_nonempty c (d :: ra) E).
      * exfalso. rewrite Ea, Eb in E. injection E as E _. lia.
      * rewrite Ea, Eb in E. injection E as E1 E.
        assert (c = c') by lia. assert (d = d') by lia. subst. f_equal. f_equal.
        apply IH; [cbn [length] in Hle; lia|assumption..].
Qed.

Lemma flat_map_default {B} (f : Z -> list B) cps :
  flat_map (fun cp => f (default 0 cp)) (map Some cps) = flat_map f cps.
Proof. induction cps as [|cp cps IH]; [reflexivity|]. cbn. rewrite IH. reflexivity. Qed.

Lemma uriEncode_inj a b encodeSlash e :
  is_utf16 a = true -> is_utf16 b = true ->
  uriEncode a encodeSlash = Ok e -> uriEncode b encodeSlash = Ok e -> a = b.
Proof.
  intros Hua Hub Ha Hb.
  pose proof (isWellFormed_Ok _ _ _ Ha) as Wa.
  pose proof (isWellFormed_Ok _ _ _ Hb) as Wb.
  rewrite uriEncode_pointwise, Wa in Ha. rewrite uriEncode_pointwise, Wb in Hb.
  destruct (code_points_valid a Hua Wa) as (cpsa & Ea & Fa).
  destruct (code_points_valid b Hub Wb) as (cpsb & Eb & Fb).
  apply code_points_inj; try assumption.
  rewrite Ea, Eb. f_equal.
  rewrite Ea, flat_map_default in Ha. rewrite Eb, flat_map_default in Hb.
  apply (encoded_points_inj encodeSlash); [assumption|assumption|congruence].
Qed.

(** X22: [uriEncode] is injective on strings of 16-bit code units, in
    either mode: two strings that differ have encodings that differ, so
    that two keys that differ are signed under canonical URIs that
    differ. *)
Theorem X22_uriEncode_distinct a b encodeSlash ea eb :
  is_utf16 a = true -> is_utf16 b = true -> a <> b ->
  uriEncode a encodeSlash = Ok ea -> uriEncode b encodeSlash = Ok eb -> ea <> eb.
Proof.
  intros Hua Hub Hne Ha Hb E. subst eb. apply Hne.
  exact (uriEncode_inj a b encodeSlash ea Hua Hub Ha Hb).
Qed.

Lemma X22_witness_slash_and_its_escape :
  is_utf16 (lit "a/b") = true /\ is_utf16 (lit "a%2Fb") = true /\
  lit "a/b" <> lit "a%2Fb" /\
  uriEncode (lit "a/b") false = Ok (lit "a/b") /\
  uriEncode (lit "a%2Fb") false = Ok (lit "a%252Fb") /\
  lit "a/b" <> lit "a%252Fb".
Proof.
  assert (Hua : is_utf16 (lit "a/b") = true) by reflexivity.
  assert (Hub : is_utf16 (lit "a%2Fb") = true) by reflexivity.
  assert (Hne : lit "a/b" <> lit "a%2Fb") by discriminate.
  assert (Ha : uriEncode (lit "a/b") false = Ok (lit "a/b")) by (vm_compute; reflexivity).
  assert (Hb : uriEncode (lit "a%2Fb") false = Ok (lit "a%252Fb")) by (vm_compute; reflexivity).
  split; [exact Hua|]. split; [exact Hub|]. split; [exact Hne|].
  split; [exact Ha|]. split; [exact Hb|].
  exact (X22_uriEncode_distinct _ _ false _ _ Hua Hub Hne Ha Hb).
Defined.

(** ** The signer: what it reads, when it fails, what the secret reaches *)

Lemma Headers_set_spec h name v :
  is_header_name name = true ->
  Headers_set h name v =
  if settable v then Ok (set_entry name (normalize_value v) h) else Err TypeError.
Proof.
  intros Hn. unfold Headers_set, settable. rewrite Hn.
  destruct (is_byte_string v); [|reflexivity]. cbn [negb andb].
  destruct (is_header_value (normalize_value v)); reflexivity.
Qed.

Lemma header_field_settable v :
  header_field v = true -> settable v = true /\ normalize_value v = v.
Proof.
  unfold header_field, header_text, settable. intros H.
  apply andb_prop in H as [H Ht]. apply andb_prop in H as [H Hl].
  apply andb_prop in H as [Hb Hv].
  rewrite (normalize_value_id v Hl Ht), Hb, Hv. split; reflexivity.
Qed.

Lemma authorization_settable a scope_date region sig :
  forallb is_plain scope_date = true -> forallb is_lower_hex sig = true -> sig <> [] ->
  let v := lit "TOS4-HMAC-SHA256 Credential=" ++ a ++ lit "/"
           ++ (scope_date ++ lit "/" ++ region ++ lit "/tos/request")
           ++ lit ", SignedHeaders=" ++ lit "host;x-tos-content-sha256;x-tos-date"
           ++ lit ", Signature=" ++ sig in
  settable v = header_text a && header_text region /\ normalize_value v = v.
Proof.
  intros Hd Hs Hne v.
  pose proof (lower_hex_plain _ Hs) as Hp.
  assert (Hn : normalize_value v = v).
  { apply normalize_value_id; [reflexivity|].
    subst v. rewrite !app_assoc. apply no_trailing_app; [|congruence].
    apply plain_no_trailing. assumption. }
  split; [|exact Hn].
  unfold settable. rewrite Hn. change (header_text v = header_text a && header_text region).
  subst v. rewrite !header_text_app, (plain_header_text _ Hd), (plain_header_text _ Hp).
  cbn. rewrite !andb_true_r. reflexivity.
Qed.

Lemma get_other_header name h1 h2 h3 h4 h4' h5 :
  same_name "Authorization" name = false ->
  Headers_get [("Host", h1); ("X-Tos-Date", h2); ("X-Tos-Content-Sha256", h3);
               ("Authorization", h4); ("Content-Type", h5)] name
  = Headers_get [("Host", h1); ("X-Tos-Date", h2); ("X-Tos-Content-Sha256", h3);
                 ("Authorization", h4'); ("Content-Type", h5)] name.
Proof.
  intros H. unfold Headers_get, Headers.
  rewrite !filter_cons. cbn [fst]. rewrite H. reflexivity.
Qed.

Lemma signature_nonempty key msg : bufferToHex (HMAC.hmac_sha256 key msg) <> [].
Proof.
  intros E. apply (f_equal length) in E.
  rewrite bufferToHex_length, hmac_sha256_length in E. discriminate.
Qed.

Section FurtherSigner.
Variable Date_toString : Z -> jsstring.

(** The run of the signer on any options object that holds a secret and
    a key it can encode, whatever else it holds or lacks. *)
Lemma signTOSRequest_locals_any now o secret t :
  isWellFormed (ToString Date_toString (prop o "key")) = true ->
  prop o "secretAccessKey" = JString secret -> secret <> [] ->
  with_default (prop o "date") (JDate now) = JDate t ->
  exists l encoded,
    signTOSRequest_locals Date_toString now o = Ok l /\
    uriEncode (ToString Date_toString (prop o "key")) false = Ok encoded /\
    l_dates l = formatDate t /\
    l_host l = ToString Date_toString (prop o "bucket") ++ lit "."
               ++ ToString Date_toString (prop o "endpoint") /\
    l_payloadHash l = js_or (prop o "contentSha256") (JString (lit "UNSIGNED-PAYLOAD")) /\
    l_contentType l
      = with_default (prop o "contentType") (JString (lit "application/octet-stream")) /\
    l_canonicalRequest l =
      Array_join Date_toString newline
        [prop o "method"; JString (lit "/" ++ encoded); JString [];
         JString (join newline
                    [lit "host:" ++ l_host l;
                     lit "x-tos-content-sha256:" ++ ToString Date_toString (l_payloadHash l);
                     lit "x-tos-date:" ++ long (formatDate t)]);
         JString []; JString (lit "host;x-tos-content-sha256;x-tos-date"); l_payloadHash l] /\
    l_credentialScope l
      = short (formatDate t) ++ lit "/" ++ ToString Date_toString (prop o "region")
        ++ lit "/tos/request" /\
    l_signatureHex l = bufferToHex (l_signature l) /\
    l_signature l = HMAC.hmac_sha256 (l_kSigning l) (TextEncoder_encode (l_stringToSign l)) /\
    l_authorization l =
      lit "TOS4-HMAC-SHA256 Credential=" ++ ToString Date_toString (prop o "accessKeyId")
      ++ lit "/" ++ l_credentialScope l
      ++ lit ", SignedHeaders=" ++ lit "host;x-tos-content-sha256;x-tos-date"
      ++ lit ", Signature=" ++ l_signatureHex l.
Proof.
  intros Wk Hs Hne Hd.
  destruct (uriEncode_well_formed _ false Wk) as [encoded Henc].
  unfold signTOSRequest_locals. cbv zeta.
  rewrite Hs, Hd, Henc. cbv iota.
  rewrite !bind_ok; cbv beta.
  rewrite (hmacSha256_string _ _ _ Hne); rewrite !bind_ok; cbv beta.
  do 4 (rewrite hmacSha256_buffer by apply hmac_sha256_length; rewrite !bind_ok; cbv beta).
  eexists. exists encoded. split; [reflexivity|].
  cbn [l_secretAccessKey l_contentType l_dates l_host l_uri l_payloadHash l_canonicalHeaders
       l_signedHeaders l_canonicalRequest l_canonicalRequestHashHex l_credentialScope
       l_stringToSign l_kDate l_kRegion l_kService l_kSigning l_signature
       l_signatureHex l_authorization].
  repeat split.
Qed.

(** X8: what [signTOSRequest] does with a request tells what the request
    was. It throws a [URIError] exactly when a surrogate of the key stands
    alone; else a [DataError] exactly when the secret is empty; else a
    [TypeError] exactly when [Headers.set] refuses one of the header
    values; and otherwise it returns the five headers, each value
    stripped of the whitespace at its two ends. *)
Theorem X8_signTOSRequest_outcomes now o r :
  carries o r ->
  match signTOSRequest Date_toString now o with
  | Err URIError => isWellFormed (r_key r) = false
  | Err DataError => isWellFormed (r_key r) = true /\ r_secretAccessKey r = []
  | Err TypeError => signable r = true /\ headers_settable r = false
  | Ok headers =>
      signable r = true /\ headers_settable r = true /\
      map fst headers
        = ["Host"; "X-Tos-Date"; "X-Tos-Content-Sha256"; "Authorization"; "Content-Type"]%string /\
      Headers_get headers "Host"
        = Some (normalize_value (r_bucket r ++ lit "." ++ r_endpoint r)) /\
      Headers_get headers "X-Tos-Content-Sha256" = Some (normalize_value (payload_hash r)) /\
      Headers_get headers "Content-Type" = Some (normalize_value (content_type r))
  end.
Proof.
  intros Hc.
  destruct (isWellFormed (r_key r)) eqn:Wk.
  2: { pose proof Hc as (Hm & Hb & Hk & Hr & He & Ha & Hs & Hct & Hsha & Hd).
       unfold signTOSRequest, signTOSRequest_locals. cbv zeta.
       rewrite Hk, Hd, with_default_date. cbv iota. rewrite bind_ok; cbv beta.
       cbn [ToString]. rewrite (uriEncode_ill_formed _ _ Wk), !bind_err. reflexivity. }
  destruct (r_secretAccessKey r) as [|c secret] eqn:Es.
  { pose proof Hc as (Hm & Hb & Hk & Hr & He & Ha & Hs & Hct & Hsha & Hd).
    unfold signTOSRequest, signTOSRequest_locals. cbv zeta.
    rewrite Hk, Hs, Hd, Es, with_default_date. cbv iota. rewrite bind_ok; cbv beta.
    cbn [ToString].
    destruct (uriEncode_well_formed _ false Wk) as [e He'].
    rewrite He', bind_ok; cbv beta.
    change (hmacSha256 Date_toString (JString []) ?d) with (@Err (list Z) DataError).
    rewrite !bind_err. split; reflexivity. }
  assert (Hsig : signable r = true).
  { unfold signable, key_encodable, secret_present. unfold isWellFormed in Wk.
    rewrite Wk, Es. reflexivity. }
  destruct (signTOSRequest_locals_run Date_toString now o r Hc Hsig)
    as (l & encoded & Hl & _ & _ & Hdates & Hhost & _ & Hph & _ & Hsh & _ & _ & Hscope & _
        & _ & _ & _ & _ & Hsg & Hhex & Hauth & Hct).
  unfold signTOSRequest. rewrite Hl, bind_ok; cbv beta zeta.
  rewrite Hhost, Hdates in *. rewrite Hph, Hct. cbn [ToString].
  rewrite Hauth, Hscope, Hsh, Hhex, Hsg.
  destruct (authorization_settable (r_accessKeyId r) (short (formatDate (instant now r)))
              (r_region r)
              (bufferToHex (HMAC.hmac_sha256 (l_kSigning l) (TextEncoder_encode (l_stringToSign l)))))
    as [Sa Na];
    [apply formatDate_short_plain | apply bufferToHex_lower | apply signature_nonempty |].
  destruct (header_field_settable _ (plain_header_field _ (formatDate_long_plain (instant now r))))
    as [Sd Nd].
  unfold headers_settable.
  rewrite !Headers_set_spec by reflexivity.
  destruct (settable (r_bucket r ++ lit "." ++ r_endpoint r)); [|split; [assumption|reflexivity]].
  rewrite bind_ok; cbv beta. rewrite Headers_set_spec by reflexivity. rewrite Sd, bind_ok; cbv beta.
  rewrite Headers_set_spec by reflexivity.
  destruct (settable (payload_hash r)); [|split; [assumption|reflexivity]].
  rewrite bind_ok; cbv beta. rewrite Headers_set_spec by reflexivity. rewrite Sa.
  destruct (header_text (r_accessKeyId r)); [|split; [assumption|reflexivity]].
  destruct (header_text (r_region r)); [|split; [assumption|reflexivity]].
  cbn [andb]. rewrite bind_ok; cbv beta. rewrite Headers_set_spec by reflexivity.
  destruct (settable (content_type r)); [|split; [assumption|reflexivity]].
  rewrite bind_ok; cbv beta. rewrite set_entry_five.
  split; [assumption|]. split; [reflexivity|]. split; [reflexivity|].
  repeat split.
Qed.

(** X9: the result of [signTOSRequest] depends on ten properties of its
    argument and on nothing else in it: two objects that agree on
    [method], [bucket], [key], [region], [endpoint], [accessKeyId],
    [secretAccessKey], [contentType], [contentSha256] and [date] are
    signed alike, whatever they hold under other names, such as
    [customHeaders], [queryString] or [accessKeySecret]. *)
Theorem X9_signer_reads_ten_properties now o o' :
  (forall name, In name signer_properties -> prop o name = prop o' name) ->
  signTOSRequest Date_toString now o = signTOSRequest Date_toString now o'.
Proof.
  intros H. unfold signTOSRequest, signTOSRequest_locals. cbv zeta.
  rewrite !(H "method"%string), !(H "bucket"%string), !(H "key"%string), !(H "region"%string),
    !(H "endpoint"%string), !(H "accessKeyId"%string), !(H "secretAccessKey"%string),
    !(H "contentType"%string), !(H "contentSha256"%string), !(H "date"%string)
    by (unfold signer_properties; cbn [In]; tauto).
  reflexivity.
Qed.

(** X10: of two requests that differ in their secrets only, the
    canonical requests and the strings to sign are the same, every header
    but Authorization is the same, and the two Authorization values are
    the same text followed by the two signatures: the secret reaches
    nothing but the signature. *)
Theorem X10_secret_reaches_the_signature_only now o1 o2 r secret :
  carries o1 r -> carries o2 (set_secretAccessKey r secret) ->
  well_formed r = true -> secret <> [] ->
  exists l1 l2 headers1 headers2,
    signTOSRequest_locals Date_toString now o1 = Ok l1 /\
    signTOSRequest_locals Date_toString now o2 = Ok l2 /\
    signTOSRequest Date_toString now o1 = Ok headers1 /\
    signTOSRequest Date_toString now o2 = Ok headers2 /\
    l_canonicalRequest l1 = l_canonicalRequest l2 /\
    l_stringToSign l1 = l_stringToSign l2 /\
    (forall name, same_name "Authorization" name = false ->
                  Headers_get headers1 name = Headers_get headers2 name) /\
    exists credential,
      Headers_get headers1 "Authorization" = Some (credential ++ l_signatureHex l1) /\
      Headers_get headers2 "Authorization" = Some (credential ++ l_signatureHex l2).
Proof.
  intros Hc1 Hc2 Hw Hne.
  assert (Hw2 : well_formed (set_secretAccessKey r secret) = true).
  { unfold well_formed, signable, secret_present in *.
    cbn [set_secretAccessKey r_secretAccessKey].
    apply andb_prop in Hw as [Hs Hh]. apply andb_prop in Hs as [Hk _].
    apply andb_true_intro. split; [|exact Hh].
    apply andb_true_intro. split; [exact Hk|]. destruct secret; [congruence|reflexivity]. }
  destruct (signTOSRequest_run Date_toString now o1 _ Hc1 Hw) as (l1 & Hl1 & Hh1).
  destruct (signTOSRequest_run Date_toString now o2 _ Hc2 Hw2) as (l2 & Hl2 & Hh2).
  destruct (signTOSRequest_locals_run Date_toString now o1 _ Hc1 (well_formed_signable _ Hw))
    as (l1' & e1 & Hl1' & He1 & _ & Hd1 & Hho1 & Hu1 & _ & Hch1 & Hsh1 & Hcr1 & Hcx1 & Hsc1 & Hst1
        & _ & _ & _ & _ & _ & _ & Hauth1 & _).
  destruct (signTOSRequest_locals_run Date_toString now o2 _ Hc2 (well_formed_signable _ Hw2))
    as (l2' & e2 & Hl2' & He2 & _ & Hd2 & Hho2 & Hu2 & _ & Hch2 & Hsh2 & Hcr2 & Hcx2 & Hsc2 & Hst2
        & _ & _ & _ & _ & _ & _ & Hauth2 & _).
  assert (l1' = l1) as -> by congruence. assert (l2' = l2) as -> by congruence.
  cbn [set_secretAccessKey r_key r_method r_bucket r_endpoint r_region r_accessKeyId] in *.
  change (instant now (set_secretAccessKey r secret)) with (instant now r) in *.
  change (payload_hash (set_secretAccessKey r secret)) with (payload_hash r) in *.
  change (content_type (set_secretAccessKey r secret)) with (content_type r) in *.
  assert (e2 = e1) as -> by congruence.
  assert (Hcr : l_canonicalRequest l1 = l_canonicalRequest l2).
  { rewrite Hcr1, Hcr2, Hch1, Hch2, Hsh1, Hsh2, Hu1, Hu2, Hho1, Hho2, Hd1, Hd2. reflexivity. }
  assert (Hsc : l_credentialScope l1 = l_credentialScope l2).
  { rewrite Hsc1, Hsc2, Hd1, Hd2. reflexivity. }
  eexists l1, l2, _, _.
  split; [assumption|]. split; [assumption|]. split; [exact Hh1|]. split; [exact Hh2|].
  split; [exact Hcr|].
  split; [rewrite Hst1, Hst2, Hcx1, Hcx2, Hcr, Hsc, Hd1, Hd2; reflexivity|].
  split; [intros name Hn; apply get_other_header; exact Hn|].
  exists (lit "TOS4-HMAC-SHA256 Credential=" ++ r_accessKeyId r ++ lit "/" ++ l_credentialScope l1
          ++ lit ", SignedHeaders=" ++ l_signedHeaders l1 ++ lit ", Signature=").
  split.
  - rewrite (proj1 (proj2 (proj2 (proj2 (get_five_headers _ _ _ _ _))))), Hauth1.
    rewrite <- !app_assoc. reflexivity.
  - rewrite (proj1 (proj2 (proj2 (proj2 (get_five_headers _ _ _ _ _))))), Hauth2, Hsc, Hsh1, Hsh2.
    rewrite <- !app_assoc. reflexivity.
Qed.

(** X11: the content type is sent and not signed: of two requests that
    differ in their content types only, the canonical requests, the
    signatures and the Authorization headers are the same, and each
    carries its own Content-Type header. *)
Theorem X11_content_type_is_not_signed now o1 o2 r contentType :
  carries o1 r -> carries o2 (set_contentType r contentType) ->
  well_formed r = true -> well_formed (set_contentType r contentType) = true ->
  exists l1 l2 headers1 headers2,
    signTOSRequest_locals Date_toString now o1 = Ok l1 /\
    signTOSRequest_locals Date_toString now o2 = Ok l2 /\
    signTOSRequest Date_toString now o1 = Ok headers1 /\
    signTOSRequest Date_toString now o2 = Ok headers2 /\
    l_canonicalRequest l1 = l_canonicalRequest l2 /\
    l_signatureHex l1 = l_signatureHex l2 /\
    Headers_get headers1 "Authorization" = Headers_get headers2 "Authorization" /\
    Headers_get headers1 "Content-Type" = Some (content_type r) /\
    Headers_get headers2 "Content-Type"
      = Some (default (lit "application/octet-stream") contentType).
Proof.
  intros Hc1 Hc2 Hw Hw2.
  destruct (signTOSRequest_run Date_toString now o1 _ Hc1 Hw) as (l1 & Hl1 & Hh1).
  destruct (signTOSRequest_run Date_toString now o2 _ Hc2 Hw2) as (l2 & Hl2 & Hh2).
  destruct (signTOSRequest_locals_run Date_toString now o1 _ Hc1 (well_formed_signable _ Hw))
    as (l1' & e1 & Hl1' & He1 & _ & Hd1 & Hho1 & Hu1 & _ & Hch1 & Hsh1 & Hcr1 & Hcx1 & Hsc1 & Hst1
        & Hk1 & Hr1 & Hv1 & Hg1 & Hsig1 & Hhex1 & Hauth1 & _).
  destruct (signTOSRequest_locals_run Date_toString now o2 _ Hc2 (well_formed_signable _ Hw2))
    as (l2' & e2 & Hl2' & He2 & _ & Hd2 & Hho2 & Hu2 & _ & Hch2 & Hsh2 & Hcr2 & Hcx2 & Hsc2 & Hst2
        & Hk2 & Hr2 & Hv2 & Hg2 & Hsig2 & Hhex2 & Hauth2 & _).
  assert (l1' = l1) as -> by congruence. assert (l2' = l2) as -> by congruence.
  cbn [set_contentType r_key r_method r_bucket r_endpoint r_region r_accessKeyId
       r_secretAccessKey] in *.
  change (instant now (set_contentType r contentType)) with (instant now r) in *.
  change (payload_hash (set_contentType r contentType)) with (payload_hash r) in *.
  assert (e2 = e1) as -> by congruence.
  assert (Hcr : l_canonicalRequest l1 = l_canonicalRequest l2).
  { rewrite Hcr1, Hcr2, Hch1, Hch2, Hsh1, Hsh2, Hu1, Hu2, Hho1, Hho2, Hd1, Hd2. reflexivity. }
  assert (Hsc : l_credentialScope l1 = l_credentialScope l2).
  { rewrite Hsc1, Hsc2, Hd1, Hd2. reflexivity. }
  assert (Hst : l_stringToSign l1 = l_stringToSign l2).
  { rewrite Hst1, Hst2, Hcx1, Hcx2, Hcr, Hsc, Hd1, Hd2. reflexivity. }
  assert (Hkey : l_kSigning l1 = l_kSigning l2).
  { rewrite Hg1, Hg2, Hv1, Hv2, Hr1, Hr2, Hk1, Hk2, Hd1, Hd2. reflexivity. }
  assert (Hx : l_signatureHex l1 = l_signatureHex l2).
  { rewrite Hhex1, Hhex2, Hsig1, Hsig2, Hkey, Hst. reflexivity. }
  eexists l1, l2, _, _.
  split; [assumption|]. split; [assumption|]. split; [exact Hh1|]. split; [exact Hh2|].
  split; [exact Hcr|]. split; [exact Hx|]. split; [|split].
  - rewrite !(proj1 (proj2 (proj2 (proj2 (get_five_headers _ _ _ _ _))))).
    rewrite Hauth1, Hauth2, Hsc, Hsh1, Hsh2, Hx. reflexivity.
  - rewrite (proj2 (proj2 (proj2 (proj2 (get_five_headers _ _ _ _ _))))). reflexivity.
  - rewrite (proj2 (proj2 (proj2 (proj2 (get_five_headers _ _ _ _ _))))). reflexivity.
Qed.

(** X12: the signing key and the credential scope depend on the secret,
    the region and the UTC day of the signing instant only: two requests
    with the same secret and region, signed on the same UTC day, are
    signed with the same key, whatever the rest of them is. *)
Theorem X12_signing_key_of_the_day now1 now2 o1 o2 r1 r2 :
  carries o1 r1 -> carries o2 r2 -> signable r1 = true -> signable r2 = true ->
  r_secretAccessKey r1 = r_secretAccessKey r2 -> r_region r1 = r_region r2 ->
  instant now1 r1 / 86400000 = instant now2 r2 / 86400000 ->
  exists l1 l2,
    signTOSRequest_locals Date_toString now1 o1 = Ok l1 /\
    signTOSRequest_locals Date_toString now2 o2 = Ok l2 /\
    l_credentialScope l1 = l_credentialScope l2 /\
    l_kSigning l1 = l_kSigning l2.
Proof.
  intros Hc1 Hc2 Hs1 Hs2 Hsec Hreg Hday.
  destruct (signTOSRequest_locals_run Date_toString now1 o1 r1 Hc1 Hs1)
    as (l1 & e1 & Hl1 & _ & _ & Hd1 & _ & _ & _ & _ & _ & _ & _ & Hsc1 & _
        & Hk1 & Hr1 & Hv1 & Hg1 & _).
  destruct (signTOSRequest_locals_run Date_toString now2 o2 r2 Hc2 Hs2)
    as (l2 & e2 & Hl2 & _ & _ & Hd2 & _ & _ & _ & _ & _ & _ & _ & Hsc2 & _
        & Hk2 & Hr2 & Hv2 & Hg2 & _).
  exists l1, l2. split; [assumption|]. split; [assumption|].
  assert (Hshort : short (l_dates l1) = short (l_dates l2))
    by (rewrite Hd1, Hd2; apply short_of_day; exact Hday).
  split.
  - rewrite Hsc1, Hsc2, Hshort, Hreg. reflexivity.
  - rewrite Hg1, Hg2, Hv1, Hv2, Hr1, Hr2, Hk1, Hk2, Hshort, Hsec, Hreg. reflexivity.
Qed.

(** X13: the string to sign has four lines: "TOS4-HMAC-SHA256", the long
    form of the signing instant, the credential scope
    {shortDate}/{region}/tos/request, and the SHA-256 of the UTF-8 octets
    of the canonical request in 64 lower-case hexadecimal characters. *)
Theorem X13_string_to_sign now o r :
  carries o r -> signable r = true ->
  exists l,
    signTOSRequest_locals Date_toString now o = Ok l /\
    l_stringToSign l =
      lit "TOS4-HMAC-SHA256" ++ newline
      ++ long (formatDate (instant now r)) ++ newline
      ++ short (formatDate (instant now r)) ++ lit "/" ++ r_region r ++ lit "/tos/request"
      ++ newline ++ l_canonicalRequestHashHex l /\
    l_canonicalRequestHashHex l
      = bufferToHex (SHA256.sha256 (TextEncoder_encode (l_canonicalRequest l))) /\
    length (l_canonicalRequestHashHex l) = 64%nat /\
    forallb is_lower_hex (l_canonicalRequestHashHex l) = true.
Proof.
  intros Hc Hs.
  destruct (signTOSRequest_locals_run Date_toString now o r Hc Hs)
    as (l & encoded & Hl & _ & _ & Hd & _ & _ & _ & _ & _ & _ & Hcx & Hsc & Hst & _).
  exists l. split; [assumption|].
  split; [rewrite Hst, Hsc, Hd; cbn [join]; rewrite <- ?app_assoc; reflexivity|].
  split; [exact Hcx|]. rewrite Hcx.
  split; [rewrite bufferToHex_length, sha256_length; reflexivity|apply bufferToHex_lower].
Qed.

(** X14: for a well-formed request the three header values that are
    signed are the values that are returned: the canonical headers are
    made of the Host, X-Tos-Content-Sha256 and X-Tos-Date headers of the
    result, and the second line of the string to sign is its X-Tos-Date
    header. *)
Theorem X14_signed_headers_are_the_sent_ones now o r :
  carries o r -> well_formed r = true ->
  exists l headers host sha256 date,
    signTOSRequest_locals Date_toString now o = Ok l /\
    signTOSRequest Date_toString now o = Ok headers /\
    Headers_get headers "Host" = Some host /\
    Headers_get headers "X-Tos-Content-Sha256" = Some sha256 /\
    Headers_get headers "X-Tos-Date" = Some date /\
    l_canonicalHeaders l =
      lit "host:" ++ host ++ newline
      ++ lit "x-tos-content-sha256:" ++ sha256 ++ newline
      ++ lit "x-tos-date:" ++ date /\
    l_stringToSign l =
      lit "TOS4-HMAC-SHA256" ++ newline ++ date ++ newline
      ++ l_credentialScope l ++ newline ++ l_canonicalRequestHashHex l.
Proof.
  intros Hc Hw.
  destruct (signTOSRequest_run Date_toString now o r Hc Hw) as (l & Hl & Hh).
  destruct (signTOSRequest_locals_run Date_toString now o r Hc (well_formed_signable r Hw))
    as (l' & encoded & Hl' & _ & _ & Hd & Hho & _ & _ & Hch & _ & _ & _ & _ & Hst & _).
  assert (l' = l) as -> by congruence.
  eexists l, _, _, _, _. split; [assumption|]. split; [exact Hh|].
  split; [apply get_five_headers|]. split; [apply get_five_headers|].
  split; [apply get_five_headers|].
  split.
  - rewrite Hch, Hho, Hd. cbn [join]. rewrite <- ?app_assoc. reflexivity.
  - rewrite Hst, Hd. cbn [join]. rewrite <- ?app_assoc. reflexivity.
Qed.

(** X15: the signer checks none of its fields: an options object that
    holds only a key and a secret is signed without error, with an empty
    first line for the method in the canonical request and with the text
    "undefined" for the bucket, the endpoint, the region and the access
    key identifier, in the Host header, in the credential scope and in
    the Authorization header. *)
Theorem X15_missing_fields_are_signed now o key secret :
  prop o "key" = JString key -> isWellFormed key = true ->
  prop o "secretAccessKey" = JString secret -> secret <> [] ->
  prop o "method" = JUndefined -> prop o "bucket" = JUndefined ->
  prop o "region" = JUndefined -> prop o "endpoint" = JUndefined ->
  prop o "accessKeyId" = JUndefined -> prop o "contentType" = JUndefined ->
  prop o "contentSha256" = JUndefined -> prop o "date" = JUndefined ->
  exists l headers encoded,
    signTOSRequest_locals Date_toString now o = Ok l /\
    signTOSRequest Date_toString now o = Ok headers /\
    uriEncode key false = Ok encoded /\
    l_canonicalRequest l =
      lit "" ++ newline ++ lit "/" ++ encoded ++ newline ++ lit "" ++ newline
      ++ lit "host:undefined.undefined" ++ newline
      ++ lit "x-tos-content-sha256:UNSIGNED-PAYLOAD" ++ newline
      ++ lit "x-tos-date:" ++ long (formatDate now) ++ newline ++ lit "" ++ newline
      ++ lit "host;x-tos-content-sha256;x-tos-date" ++ newline ++ lit "UNSIGNED-PAYLOAD" /\
    l_credentialScope l = short (formatDate now) ++ lit "/undefined/tos/request" /\
    Headers_get headers "Host" = Some (lit "undefined.undefined") /\
    Headers_get headers "Authorization" =
      Some (lit "TOS4-HMAC-SHA256 Credential=undefined/" ++ short (formatDate now)
            ++ lit "/undefined/tos/request, SignedHeaders=host;x-tos-content-sha256;x-tos-date, Signature="
            ++ l_signatureHex l).
Proof.
  intros Hk Wk Hs Hne Hm Hb Hr He Ha Hct Hsha Hd.
  destruct (signTOSRequest_locals_any now o secret now) as
    (l & encoded & Hl & Henc & Hdates & Hhost & Hph & Hty & Hcr & Hsc & Hhex & Hsig & Hauth);
    [rewrite Hk; exact Wk | exact Hs | exact Hne | rewrite Hd; reflexivity |].
  rewrite Hk in Henc. cbn [ToString] in Henc.
  rewrite Hb, He in Hhost. rewrite Hsha in Hph. rewrite Hct in Hty. rewrite Hr in Hsc.
  rewrite Ha in Hauth. rewrite Hm, Hph, Hhost in Hcr.
  change (js_or JUndefined ?d) with d in Hph.
  change (with_default JUndefined ?d) with d in Hty.
  cbn [ToString] in *.
  exists l. eexists. exists encoded. split; [exact Hl|].
  split.
  { unfold signTOSRequest. rewrite Hl, bind_ok; cbv beta zeta.
    rewrite Hhost, Hdates, Hph, Hty, Hauth, Hsc, Hhex, Hsig. cbn [ToString].
    rewrite (Headers_set_ok _ "Host") by reflexivity. rewrite bind_ok; cbv beta.
    rewrite (Headers_set_ok _ "X-Tos-Date")
      by (first [reflexivity | apply plain_header_field, formatDate_long_plain]).
    rewrite bind_ok; cbv beta.
    rewrite (Headers_set_ok _ "X-Tos-Content-Sha256") by reflexivity. rewrite bind_ok; cbv beta.
    rewrite (Headers_set_ok _ "Authorization").
    2: reflexivity.
    2: { apply (authorization_header_field (lit "undefined") _ (lit "undefined"));
           try reflexivity;
           [apply formatDate_short_plain | apply bufferToHex_lower | apply signature_nonempty]. }
    rewrite bind_ok; cbv beta.
    rewrite (Headers_set_ok _ "Content-Type") by reflexivity. rewrite bind_ok; cbv beta.
    rewrite set_entry_five. reflexivity. }
  split; [exact Henc|].
  split; [rewrite Hcr; unfold Array_join; cbn [map ToString join];
          rewrite <- ?app_assoc; reflexivity|].
  split; [rewrite Hsc; reflexivity|]. split; [reflexivity|].
  rewrite (proj1 (proj2 (proj2 (proj2 (get_five_headers _ _ _ _ _))))).
  f_equal. rewrite Hhex, Hsig. rewrite <- ?app_assoc. reflexivity.
Qed.

(** X21: of two well-formed requests that differ in their dates only,
    by one second, the X-Tos-Date headers differ; and the Authorization
    headers differ whenever the two instants fall on different UTC days,
    the credential scopes being different then. *)
Theorem X21_one_second_later now1 now2 o1 o2 r t :
  carries o1 (set_date r (Some t)) -> carries o2 (set_date r (Some (t + 1000))) ->
  well_formed r = true ->
  exists headers1 headers2,
    signTOSRequest Date_toString now1 o1 = Ok headers1 /\
    signTOSRequest Date_toString now2 o2 = Ok headers2 /\
    Headers_get headers1 "X-Tos-Date" <> Headers_get headers2 "X-Tos-Date" /\
    (t / 86400000 <> (t + 1000) / 86400000 ->
     Headers_get headers1 "Authorization" <> Headers_get headers2 "Authorization").
Proof.
  intros Hc1 Hc2 Hw.
  destruct (one_second_apart Date_toString now1 now2 o1 o2 r t Hc1 Hc2 Hw)
    as (l1 & l2 & headers1 & headers2 & _ & _ & H1 & H2 & Hdate & Hauth).
  exists headers1, headers2. split; [exact H1|]. split; [exact H2|]. split; [exact Hdate|].
  intros Hday E. apply Hauth in E as [Hshort _].
  apply formatDate_short_inj in Hshort. contradiction.
Qed.

End FurtherSigner.

(** *** On examples *)

Lemma X8_witness_lone_surrogate :
  carries (options_of (set_key test_request [0xD800])) (set_key test_request [0xD800]) /\
  signTOSRequest (fun _ => []) 0 (options_of (set_key test_request [0xD800])) = Err URIError /\
  isWellFormed (r_key (set_key test_request [0xD800])) = false.
Proof.
  assert (Hc : carries (options_of (set_key test_request [0xD800]))
                 (set_key test_request [0xD800])) by apply carries_options_of.
  assert (E : signTOSRequest (fun _ => []) 0 (options_of (set_key test_request [0xD800]))
              = Err URIError) by (vm_compute; reflexivity).
  split; [exact Hc|]. split; [exact E|].
  pose proof (X8_signTOSRequest_outcomes (fun _ => []) 0 _ _ Hc) as H.
  rewrite E in H. exact H.
Defined.

Lemma X9_witness_query_string :
  (forall name, In name signer_properties ->
     prop (options_of test_request) name
     = prop (<["queryString" := JString (lit "list-type=2")]> (options_of test_request)) name) /\
  signTOSRequest (fun _ => []) 0 (options_of test_request)
  = signTOSRequest (fun _ => []) 0
      (<["queryString" := JString (lit "list-type=2")]> (options_of test_request)).
Proof.
  assert (H : forall name, In name signer_properties ->
     prop (options_of test_request) name
     = prop (<["queryString" := JString (lit "list-type=2")]> (options_of test_request)) name).
  { intros name Hin. symmetry. apply prop_insert_ne. intros <-.
    unfold signer_properties in Hin. cbn [In] in Hin.
    repeat (destruct Hin as [Hin|Hin]; [discriminate|]). exact Hin. }
  split; [exact H|].
  exact (X9_signer_reads_ten_properties (fun _ => []) 0 _ _ H).
Defined.

Lemma X10_witness_other_secret :
  carries (options_of test_request) test_request /\
  carries (options_of (set_secretAccessKey test_request (lit "other-secret")))
    (set_secretAccessKey test_request (lit "other-secret")) /\
  well_formed test_request = true /\ lit "other-secret" <> [] /\
  exists l1 l2,
    signTOSRequest_locals (fun _ => []) 0 (options_of test_request) = Ok l1 /\
    signTOSRequest_locals (fun _ => []) 0
      (options_of (set_secretAccessKey test_request (lit "other-secret"))) = Ok l2 /\
    l_stringToSign l1 = l_stringToSign l2.
Proof.
  destruct test_request_ok as [Hc Hw].
  assert (Hc2 : carries (options_of (set_secretAccessKey test_request (lit "other-secret")))
                  (set_secretAccessKey test_request (lit "other-secret")))
    by apply carries_options_of.
  assert (Hne : lit "other-secret" <> []) by discriminate.
  split; [exact Hc|]. split; [exact Hc2|]. split; [exact Hw|]. split; [exact Hne|].
  destruct (X10_secret_reaches_the_signature_only (fun _ => []) 0 _ _ _ _ Hc Hc2 Hw Hne)
    as (l1 & l2 & _ & _ & H1 & H2 & _ & _ & _ & H & _).
  exists l1, l2. split; [exact H1|]. split; [exact H2|exact H].
Defined.

Lemma X11_witness_image :
  carries (options_of test_request) test_request /\
  carries (options_of (set_contentType test_request (Some (lit "image/png"))))
    (set_contentType test_request (Some (lit "image/png"))) /\
  well_formed test_request = true /\
  well_formed (set_contentType test_request (Some (lit "image/png"))) = true /\
  exists headers1 headers2,
    signTOSRequest (fun _ => []) 0 (options_of test_request) = Ok headers1 /\
    signTOSRequest (fun _ => []) 0
      (options_of (set_contentType test_request (Some (lit "image/png")))) = Ok headers2 /\
    Headers_get headers1 "Authorization" = Headers_get headers2 "Authorization" /\
    Headers_get headers1 "Content-Type" = Some (lit "text/plain") /\
    Headers_get headers2 "Content-Type" = Some (lit "image/png").
Proof.
  destruct test_request_ok as [Hc Hw].
  assert (Hc2 : carries (options_of (set_contentType test_request (Some (lit "image/png"))))
                  (set_contentType test_request (Some (lit "image/png"))))
    by apply carries_options_of.
  assert (Hw2 : well_formed (set_contentType test_request (Some (lit "image/png"))) = true)
    by (vm_compute; reflexivity).
  split; [exact Hc|]. split; [exact Hc2|]. split; [exact Hw|]. split; [exact Hw2|].
  destruct (X11_content_type_is_not_signed (fun _ => []) 0 _ _ _ _ Hc Hc2 Hw Hw2)
    as (l1 & l2 & h1 & h2 & _ & _ & H1 & H2 & _ & _ & Ha & Ht1 & Ht2).
  exists h1, h2. split; [exact H1|]. split; [exact H2|]. split; [exact Ha|].
  split; [exact Ht1|exact Ht2].
Defined.

Lemma X12_witness_an_hour_later :
  carries (options_of test_request) test_request /\
  carries (options_of (set_date (set_key test_request special_key) (Some 1735693200000)))
    (set_date (set_key test_request special_key) (Some 1735693200000)) /\
  signable test_request = true /\
  signable (set_date (set_key test_request special_key) (Some 1735693200000)) = true /\
  exists l1 l2,
    signTOSRequest_locals (fun _ => []) 0 (options_of test_request) = Ok l1 /\
    signTOSRequest_locals (fun _ => []) 0
      (options_of (set_date (set_key test_request special_key) (Some 1735693200000))) = Ok l2 /\
    l_kSigning l1 = l_kSigning l2.
Proof.
  destruct test_request_ok as [Hc Hw]. apply well_formed_signable in Hw.
  assert (Hc2 : carries
                  (options_of (set_date (set_key test_request special_key) (Some 1735693200000)))
                  (set_date (set_key test_request special_key) (Some 1735693200000)))
    by apply carries_options_of.
  assert (Hw2 : signable (set_date (set_key test_request special_key) (Some 1735693200000))
                = true) by (vm_compute; reflexivity).
  split; [exact Hc|]. split; [exact Hc2|]. split; [exact Hw|]. split; [exact Hw2|].
  destruct (X12_signing_key_of_the_day (fun _ => []) 0 0 _ _ _ _ Hc Hc2 Hw Hw2
              eq_refl eq_refl eq_refl)
    as (l1 & l2 & H1 & H2 & _ & H).
  exists l1, l2. split; [exact H1|]. split; [exact H2|exact H].
Defined.

Lemma X13_witness_test_request :
  carries (options_of test_request) test_request /\
  signable test_request = true /\
  exists l,
    signTOSRequest_locals (fun _ => []) 0 (options_of test_request) = Ok l /\
    l_stringToSign l =
      lit "TOS4-HMAC-SHA256" ++ newline ++ lit "20250101T000000Z" ++ newline
      ++ lit "20250101/cn-beijing/tos/request" ++ newline ++ l_canonicalRequestHashHex l.
Proof.
  destruct test_request_ok as [Hc Hw]. apply well_formed_signable in Hw.
  split; [exact Hc|]. split; [exact Hw|].
  destruct (X13_string_to_sign (fun _ => []) 0 _ _ Hc Hw) as (l & Hl & Hs & _).
  exists l. split; [exact Hl|]. rewrite Hs. vm_compute. reflexivity.
Defined.

Lemma X14_witness_test_request :
  carries (options_of test_request) test_request /\
  well_formed test_request = true /\
  exists l headers date,
    signTOSRequest (fun _ => []) 0 (options_of test_request) = Ok headers /\
    Headers_get headers "X-Tos-Date" = Some date /\
    l_stringToSign l =
      lit "TOS4-HMAC-SHA256" ++ newline ++ date ++ newline
      ++ l_credentialScope l ++ newline ++ l_canonicalRequestHashHex l.
Proof.
  destruct test_request_ok as [Hc Hw]. split; [exact Hc|]. split; [exact Hw|].
  destruct (X14_signed_headers_are_the_sent_ones (fun _ => []) 0 _ _ Hc Hw)
    as (l & headers & host & sha256 & date & _ & Hs & _ & _ & Hd & _ & Hst).
  exists l, headers, date. split; [exact Hs|]. split; [exact Hd|exact Hst].
Defined.

Lemma X15_witness_bare_options :
  prop (bare_options (lit "a") (lit "s")) "key" = JString (lit "a") /\
  isWellFormed (lit "a") = true /\
  prop (bare_options (lit "a") (lit "s")) "secretAccessKey" = JString (lit "s") /\
  exists headers,
    signTOSRequest (fun _ => []) 0 (bare_options (lit "a") (lit "s")) = Ok headers /\
    Headers_get headers "Host" = Some (lit "undefined.undefined").
Proof.
  assert (Hk : prop (bare_options (lit "a") (lit "s")) "key" = JString (lit "a"))
    by (vm_compute; reflexivity).
  assert (Wk : isWellFormed (lit "a") = true) by reflexivity.
  assert (Hs : prop (bare_options (lit "a") (lit "s")) "secretAccessKey" = JString (lit "s"))
    by (vm_compute; reflexivity).
  assert (Hne : lit "s" <> []) by discriminate.
  split; [exact Hk|]. split; [exact Wk|]. split; [exact Hs|].
  destruct (X15_missing_fields_are_signed (fun _ => []) 0 (bare_options (lit "a") (lit "s"))
              (lit "a") (lit "s") Hk Wk Hs Hne)
    as (l & headers & encoded & _ & H & _ & _ & _ & Hh & _);
    try (vm_compute; reflexivity).
  exists headers. split; [exact H|exact Hh].
Defined.

Lemma X21_witness_new_year_eve :
  carries (options_of (set_date test_request (Some 1735689599000)))
    (set_date test_request (Some 1735689599000)) /\
  carries (options_of (set_date test_request (Some (1735689599000 + 1000))))
    (set_date test_request (Some (1735689599000 + 1000))) /\
  well_formed test_request = true /\
  1735689599000 / 86400000 <> (1735689599000 + 1000) / 86400000 /\
  exists headers1 headers2,
    signTOSRequest (fun _ => []) 0 (options_of (set_date test_request (Some 1735689599000)))
      = Ok headers1 /\
    signTOSRequest (fun _ => []) 0
      (options_of (set_date test_request (Some (1735689599000 + 1000)))) = Ok headers2 /\
    Headers_get headers1 "X-Tos-Date" <> Headers_get headers2 "X-Tos-Date" /\
    Headers_get headers1 "Authorization" <> Headers_get headers2 "Authorization".
Proof.
  assert (Hc1 : carries (options_of (set_date test_request (Some 1735689599000)))
                  (set_date test_request (Some 1735689599000))) by apply carries_options_of.
  assert (Hc2 : carries (options_of (set_date test_request (Some (1735689599000 + 1000))))
                  (set_date test_request (Some (1735689599000 + 1000))))
    by apply carries_options_of.
  assert (Hw : well_formed test_request = true) by (vm_compute; reflexivity).
  assert (Hd : 1735689599000 / 86400000 <> (1735689599000 + 1000) / 86400000)
    by (vm_compute; discriminate).
  split; [exact Hc1|]. split; [exact Hc2|]. split; [exact Hw|]. split; [exact Hd|].
  destruct (X21_one_second_later (fun _ => []) 0 0 _ _ test_request 1735689599000 Hc1 Hc2 Hw)
    as (headers1 & headers2 & H1 & H2 & Hx & Ha).
  exists headers1, headers2. split; [exact H1|]. split; [exact H2|]. split; [exact Hx|].
  exact (Ha Hd).
Defined.

(** ** The client: nothing is sent *)

Section ClientFacts.
Variable Date_toString : Z -> jsstring.
Variable fetch : FetchRequest -> result FetchResponse.
Variable now : Z.
Variable this_options : jsobject.

(** Signing fails in every operation of the client, with the error that
    comes first in the signer. *)
Lemma client_signing_fails call bucket key :
  signTOSRequest Date_toString now (sign_options this_options call bucket key)
  = Err (if isWellFormed (ToString Date_toString key) then TypeError else URIError).
Proof.
  set (o := sign_options this_options call bucket key).
  destruct (sign_options_secret this_options call bucket key) as [_ H2].
  assert (H3 : prop o "secretAccessKey" = JUndefined).
  { unfold prop. subst o. rewrite H2. reflexivity. }
  assert (Hd : prop o "date" = JUndefined) by (destruct call; vm_compute; reflexivity).
  assert (Hk : prop o "key" = key) by (destruct call; vm_compute; reflexivity).
  unfold signTOSRequest, signTOSRequest_locals. cbv zeta.
  rewrite H3, Hd, Hk.
  change (with_default JUndefined (JDate now)) with (JDate now).
  cbv iota. rewrite bind_ok; cbv beta.
  destruct (isWellFormed (ToString Date_toString key)) eqn:W.
  - destruct (uriEncode_well_formed _ false W) as [e He].
    rewrite He, !bind_ok; cbv beta. rewrite hmacSha256_undefined, !bind_err. reflexivity.
  - rewrite (uriEncode_ill_formed _ _ W), !bind_err. reflexivity.
Qed.

(** X16: whatever the client was made with, whatever it is asked and
    whatever the network would answer, no operation sends a request:
    [upload] throws its own [Error] for data that is not a [Blob], an
    [ArrayBuffer] or a [Uint8Array], and otherwise [upload], [download] and
    [delete] throw what the signer throws, a [URIError] for a key with a
    lone surrogate and a [TypeError] for any other; [exists] answers
    [false]. *)
Theorem X16_client_sends_nothing bucket key data options :
  upload Date_toString fetch now this_options bucket key data options
    = (Throws
         match data with
         | OtherData =>
             Error (lit "Unsupported data type. Must be Blob, ArrayBuffer, or Uint8Array")
         | _ => Native (if isWellFormed (ToString Date_toString key)
                        then TypeError else URIError)
         end, []) /\
  download Date_toString fetch now this_options bucket key
    = (Throws (Native (if isWellFormed (ToString Date_toString key)
                       then TypeError else URIError)), []) /\
  delete_ Date_toString fetch now this_options bucket key
    = (Throws (Native (if isWellFormed (ToString Date_toString key)
                       then TypeError else URIError)), []) /\
  exists_ Date_toString fetch now this_options bucket key = (Returns false, []).
Proof.
  unfold upload, download, delete_, exists_.
  rewrite !client_signing_fails.
  split; [|repeat split].
  destruct data; cbn [upload_locals]; rewrite ?client_signing_fails; reflexivity.
Qed.

(** X17: of a [Uint8Array] that views a part of a buffer, [upload] takes
    the bytes of the view and no others, and hashes them; when the
    buffer is shared memory it takes as many zeros in their place. *)
Theorem X17_upload_takes_the_view buffer shared byteOffset byteLength options :
  (byteOffset + byteLength <= length buffer)%nat ->
  exists u,
    upload_locals (Uint8Array buffer shared byteOffset byteLength) options = Returns u /\
    length (u_arrayBuffer u) = byteLength /\
    (shared = false -> u_arrayBuffer u = take byteLength (drop byteOffset buffer)) /\
    (shared = true -> u_arrayBuffer u = repeat 0 byteLength) /\
    u_contentSha256 u = bufferToHex (SHA256.sha256 (u_arrayBuffer u)).
Proof.
  intros H. eexists. split; [reflexivity|]. cbn [u_arrayBuffer u_contentSha256].
  unfold slice. replace (byteOffset + byteLength - byteOffset)%nat with byteLength by lia.
  assert (Hlen : length (take byteLength (drop byteOffset buffer)) = byteLength).
  { rewrite length_take, length_drop. lia. }
  rewrite Hlen.
  split; [destruct shared; [apply repeat_length|exact Hlen]|].
  split; [intros ->; reflexivity|]. split; [intros ->; reflexivity|]. reflexivity.
Qed.

(** X18: the content type that [upload] signs with is never empty: it is
    the one of its options if that is not empty, else the type of the
    [Blob] if the data is a [Blob] with a type, else
    "application/octet-stream". *)
Theorem X18_upload_content_type data options u :
  upload_locals data options = Returns u ->
  ToBoolean (u_contentType u) = true /\
  (ToBoolean (prop options "contentType") = true ->
   u_contentType u = prop options "contentType") /\
  (ToBoolean (prop options "contentType") = false ->
   u_contentType u =
     match data with
     | Blob _ (c :: type) => JString (c :: type)
     | _ => JString (lit "application/octet-stream")
     end).
Proof.
  unfold upload_locals, js_or.
  destruct data as [bytes [|c type]|bytes|buffer shared byteOffset byteLength|];
    try discriminate; intros [= <-]; cbn [u_contentType ToBoolean length Nat.eqb negb];
    destruct (ToBoolean (prop options "contentType")) eqn:E; cbn [ToBoolean length Nat.eqb negb];
    rewrite ?E; repeat split; intros; try reflexivity; try discriminate.
Qed.

(** X19: the content hash that [upload] gives to the signer is the
    SHA-256 of the body it would send, in 64 lower-case hexadecimal
    characters; the signer takes it as the payload hash and does not
    fall back on "UNSIGNED-PAYLOAD". *)
Theorem X19_upload_signs_the_body_hash bucket key data options u :
  upload_locals data options = Returns u ->
  u_contentSha256 u = bufferToHex (SHA256.sha256 (u_arrayBuffer u)) /\
  length (u_contentSha256 u) = 64%nat /\
  forallb is_lower_hex (u_contentSha256 u) = true /\
  js_or (prop (sign_options this_options (CallUpload (u_contentType u) (u_contentSha256 u))
                 bucket key) "contentSha256")
        (JString (lit "UNSIGNED-PAYLOAD"))
  = JString (u_contentSha256 u).
Proof.
  intros H.
  assert (E : u_contentSha256 u = bufferToHex (SHA256.sha256 (u_arrayBuffer u))).
  { unfold upload_locals in H.
    destruct data; try discriminate; injection H as <-; reflexivity. }
  assert (L : length (u_contentSha256 u) = 64%nat)
    by (rewrite E, bufferToHex_length, sha256_length; reflexivity).
  split; [exact E|]. split; [exact L|].
  split; [rewrite E; apply bufferToHex_lower|].
  assert (P : prop (sign_options this_options (CallUpload (u_contentType u) (u_contentSha256 u))
                      bucket key) "contentSha256" = JString (u_contentSha256 u))
    by (vm_compute; reflexivity).
  rewrite P. unfold js_or. cbn [ToBoolean].
  destruct (u_contentSha256 u); [discriminate|reflexivity].
Qed.

End ClientFacts.

Lemma X17_witness_middle_of_four :
  (1 + 2 <= length [10; 20; 30; 40])%nat /\
  exists u,
    upload_locals (Uint8Array [10; 20; 30; 40] false 1 2) ∅ = Returns u /\
    u_arrayBuffer u = [20; 30].
Proof.
  assert (H : (1 + 2 <= length [10; 20; 30; 40])%nat) by (simpl; lia).
  split; [exact H|].
  destruct (X17_upload_takes_the_view [10; 20; 30; 40] false 1 2 ∅ H)
    as (u & Hu & _ & Hb & _).
  exists u. split; [exact Hu|]. rewrite (Hb eq_refl). reflexivity.
Defined.

Lemma X18_witness_typed_blob :
  exists u,
    upload_locals (Blob [104; 105] (lit "text/plain")) ∅ = Returns u /\
    u_contentType u = JString (lit "text/plain").
Proof.
  eexists. split; [reflexivity|].
  refine (proj2 (proj2 (X18_upload_content_type (Blob [104; 105] (lit "text/plain")) ∅ _
                          eq_refl)) _).
  reflexivity.
Defined.

Lemma X19_witness_empty_buffer :
  exists u,
    upload_locals (ArrayBuffer []) ∅ = Returns u /\
    length (u_contentSha256 u) = 64%nat.
Proof.
  eexists. split; [reflexivity|].
  exact (proj1 (proj2 (X19_upload_signs_the_body_hash ∅ JUndefined JUndefined
                         (ArrayBuffer []) ∅ _ eq_refl))).
Defined.

(** ** The later client: the query string of [list] *)




Example list_query_string_of_a_prefix :
  list_queryString
    {| o_prefix := Some (lit "photos/2025");
       o_delimiter := Some (lit "/");
       o_maxKeys := Some 100;
       o_continuationToken := None;
       o_startAfter := Some (lit "") |}
  = Ok (lit "delimiter=%2F&list-type=2&max-keys=100&prefix=photos%2F2025").
Proof. vm_compute. reflexivity. Qed.
